(** * Pendulum: calendar arithmetic, alignment and weekday navigation

    A shallow embedding of [pendulum/pendulum.py] (class [Pendulum]) together
    with the parts of the Python runtime it is written against: the proleptic
    Gregorian calendar of [datetime], [calendar.monthcalendar] and
    [dateutil.relativedelta].  Integers are [Z]; Python exceptions are values
    of [exn]; a method of [Pendulum] is a function from the receiver's state
    to the receiver's new state and an outcome. *)

From Stdlib Require Import ZArith List String Ascii Bool Lia.
Import ListNotations.
Open Scope Z_scope.

(** ** Outcomes of a call *)

Inductive exn : Type :=
| ValueError
| OverflowError
| IndexError
| UnknownTimeZoneError
| PendulumException (msg : string).

(** [OutOfFuel] is not a Python outcome: it marks a [while] loop of the model
    that was given too few iterations. *)
Inductive result (A : Type) : Type :=
| Ok (a : A)
| Raise (e : exn)
| OutOfFuel.

Arguments Ok {A} a.
Arguments Raise {A} e.
Arguments OutOfFuel {A}.

Definition rbind {A B : Type} (r : result A) (k : A -> result B) : result B :=
  match r with
  | Ok a => k a
  | Raise e => Raise e
  | OutOfFuel => OutOfFuel
  end.

Notation "x <- r ;; k" := (rbind r (fun x => k))
  (at level 61, r at next level, right associativity).

(** ** The proleptic Gregorian calendar of [datetime]

    The ordinal of a date and the date of an ordinal are computed as
    CPython's [datetime] does ([_ymd2ord], [_ord2ymd]); [datetime + timedelta]
    goes through them, as [datetime.__add__] does. *)

Module PyDatetime.

Definition MINYEAR : Z := 1.
Definition MAXYEAR : Z := 9999.
(** [date(9999, 12, 31).toordinal()] *)
Definition _MAXORDINAL : Z := 3652059.

(** The table [_DAYS_IN_MONTH = [-1, 31, 28, 31, ...]], indexed by month. *)
Definition _DAYS_IN_MONTH (month : Z) : Z :=
  match month with
  | 1 => 31 | 2 => 28 | 3 => 31 | 4 => 30 | 5 => 31 | 6 => 30
  | 7 => 31 | 8 => 31 | 9 => 30 | 10 => 31 | 11 => 30 | 12 => 31
  | _ => -1
  end.

(** The table [_DAYS_BEFORE_MONTH], the running sum of the one above. *)
Definition _DAYS_BEFORE_MONTH (month : Z) : Z :=
  match month with
  | 1 => 0 | 2 => 31 | 3 => 59 | 4 => 90 | 5 => 120 | 6 => 151
  | 7 => 181 | 8 => 212 | 9 => 243 | 10 => 273 | 11 => 304 | 12 => 334
  | _ => -1
  end.

Definition _is_leap (year : Z) : bool :=
  (year mod 4 =? 0) && (negb (year mod 100 =? 0) || (year mod 400 =? 0)).

Definition _days_before_year (year : Z) : Z :=
  let y := year - 1 in
  y * 365 + y / 4 - y / 100 + y / 400.

Definition _days_in_month (year month : Z) : Z :=
  if (month =? 2) && _is_leap year then 29 else _DAYS_IN_MONTH month.

Definition _days_before_month (year month : Z) : Z :=
  _DAYS_BEFORE_MONTH month + (if (month >? 2) && _is_leap year then 1 else 0).

Definition _ymd2ord (year month day : Z) : Z :=
  _days_before_year year + _days_before_month year month + day.

Definition _DI400Y : Z := 146097.
Definition _DI100Y : Z := 36524.
Definition _DI4Y : Z := 1461.

(** The month and day of the [n]-th day (from 0) of a year: the last lines of
    [_ord2ymd], after the year has been found. *)
Definition _ord2md (leapyear : bool) (n : Z) : Z * Z :=
  let month := Z.shiftr (n + 50) 5 in
  let preceding :=
    _DAYS_BEFORE_MONTH month + (if (month >? 2) && leapyear then 1 else 0) in
  if preceding >? n then
    let month := month - 1 in
    let preceding :=
      preceding
      - (_DAYS_IN_MONTH month + (if (month =? 2) && leapyear then 1 else 0)) in
    (month, n - preceding + 1)
  else (month, n - preceding + 1).

Definition _ord2ymd (n : Z) : Z * Z * Z :=
  let n := n - 1 in
  let n400 := n / _DI400Y in
  let n := n mod _DI400Y in
  let year := n400 * 400 + 1 in
  let n100 := n / _DI100Y in
  let n := n mod _DI100Y in
  let n4 := n / _DI4Y in
  let n := n mod _DI4Y in
  let n1 := n / 365 in
  let n := n mod 365 in
  let year := year + (n100 * 100 + n4 * 4 + n1) in
  if (n1 =? 4) || (n100 =? 4) then (year - 1, 12, 31)
  else
    let leapyear := (n1 =? 3) && (negb (n4 =? 24) || (n100 =? 3)) in
    let '(month, day) := _ord2md leapyear n in
    (year, month, day).

(** A [tzinfo] instance as [pytz] hands them out: the zone it belongs to and
    the offset from UTC this instance stands for, a whole number of minutes
    ([pytz] rounds zone-file offsets to the minute and [FixedOffset] takes
    minutes).  One zone with daylight saving time owns several instances, one
    per offset; [utcoffset()] of an aware datetime is the offset of the
    instance it carries, whatever its civil fields are. *)
Record tzinfo : Type := mktzinfo {
  tz_zone : string;
  tz_utcoffset : Z
}.

Definition tzinfo_eqb (a b : tzinfo) : bool :=
  String.eqb (tz_zone a) (tz_zone b) && (tz_utcoffset a =? tz_utcoffset b).

(** A [datetime.datetime] without its [tzinfo]. *)
Record naive : Type := mknaive {
  year : Z;
  month : Z;
  day : Z;
  hour : Z;
  minute : Z;
  second : Z;
  microsecond : Z
}.

(** An aware [datetime.datetime].  Every datetime a [Pendulum] holds is aware:
    its constructor localizes the civil fields. *)
Record datetime : Type := mkdatetime {
  fields : naive;
  dt_tzinfo : tzinfo
}.

Definition _check_date_fields (y m d : Z) : bool :=
  (MINYEAR <=? y) && (y <=? MAXYEAR) &&
  (1 <=? m) && (m <=? 12) &&
  (1 <=? d) && (d <=? _days_in_month y m).

Definition _check_time_fields (h mi s us : Z) : bool :=
  (0 <=? h) && (h <=? 23) && (0 <=? mi) && (mi <=? 59) &&
  (0 <=? s) && (s <=? 59) && (0 <=? us) && (us <=? 999999).

(** [datetime(year, month, day, hour, minute, second, microsecond)] *)
Definition datetime_new (y m d h mi s us : Z) : result naive :=
  if _check_date_fields y m d && _check_time_fields h mi s us
  then Ok (mknaive y m d h mi s us)
  else Raise ValueError.

Definition or_default (o : option Z) (d : Z) : Z :=
  match o with Some v => v | None => d end.

(** [dt.replace(year=, month=, day=, hour=, minute=, second=)]: the fields
    that are given replace the old ones, and the result is built by the
    constructor, which checks it. *)
Definition replace (dt : datetime) (y m d h mi s : option Z) : result datetime :=
  let f := fields dt in
  n <- datetime_new (or_default y (year f)) (or_default m (month f))
         (or_default d (day f)) (or_default h (hour f))
         (or_default mi (minute f)) (or_default s (second f))
         (microsecond f) ;;
  Ok (mkdatetime n (dt_tzinfo dt)).

Definition toordinal (f : naive) : Z := _ymd2ord (year f) (month f) (day f).

(** Monday is 0. *)
Definition weekday (f : naive) : Z := (toordinal f + 6) mod 7.

(** A [timedelta], normalized as Python keeps it. *)
Record timedelta : Type := mktimedelta {
  td_days : Z;
  td_seconds : Z;
  td_microseconds : Z
}.

Definition US_PER_SECOND : Z := 1000000.
Definition US_PER_DAY : Z := 86400 * US_PER_SECOND.

Definition td_total_microseconds (td : timedelta) : Z :=
  (td_days td * 86400 + td_seconds td) * US_PER_SECOND + td_microseconds td.

(** Normalization of a number of microseconds into days, seconds and
    microseconds; more than 999999999 days either way is an [OverflowError]. *)
Definition timedelta_of_microseconds (us : Z) : result timedelta :=
  let d := us / US_PER_DAY in
  let r := us mod US_PER_DAY in
  if (-999999999 <=? d) && (d <=? 999999999)
  then Ok (mktimedelta d (r / US_PER_SECOND) (r mod US_PER_SECOND))
  else Raise OverflowError.

(** [timedelta(days=, hours=, minutes=, seconds=, microseconds=)] *)
Definition timedelta_new (days hours minutes seconds microseconds : Z)
  : result timedelta :=
  timedelta_of_microseconds
    ((((days * 24 + hours) * 60 + minutes) * 60 + seconds) * US_PER_SECOND
     + microseconds).

(** The civil fields as a [timedelta] since ordinal 0, the first step of
    [datetime.__add__]. *)
Definition naive_microseconds (f : naive) : Z :=
  (((toordinal f * 24 + hour f) * 60 + minute f) * 60 + second f)
  * US_PER_SECOND + microsecond f.

Definition fromordinal_time (days secs us : Z) : naive :=
  let '(y, m, d) := _ord2ymd days in
  let hour := secs / 3600 in
  let rem := secs mod 3600 in
  mknaive y m d hour (rem / 60) (rem mod 60) us.

(** [naive + timedelta] *)
Definition naive_add (f : naive) (td : timedelta) : result naive :=
  delta <- timedelta_of_microseconds
             (naive_microseconds f + td_total_microseconds td) ;;
  if (0 <? td_days delta) && (td_days delta <=? _MAXORDINAL)
  then Ok (fromordinal_time (td_days delta) (td_seconds delta)
             (td_microseconds delta))
  else Raise OverflowError.

(** [datetime.__add__(timedelta)]: arithmetic on the civil fields; the
    [tzinfo] instance is carried over as it is. *)
Definition add_timedelta (dt : datetime) (td : timedelta) : result datetime :=
  n <- naive_add (fields dt) td ;;
  Ok (mkdatetime n (dt_tzinfo dt)).

Definition timedelta_neg (td : timedelta) : result timedelta :=
  timedelta_of_microseconds (- td_total_microseconds td).

(** [dt.utcoffset()] *)
Definition utcoffset (dt : datetime) : result timedelta :=
  timedelta_new 0 0 (tz_utcoffset (dt_tzinfo dt)) 0 0.

(** [a - b] for two aware datetimes: the difference of their instants. *)
Definition aware_sub (a b : datetime) : Z :=
  (naive_microseconds (fields a)
   - tz_utcoffset (dt_tzinfo a) * 60 * US_PER_SECOND)
  - (naive_microseconds (fields b)
     - tz_utcoffset (dt_tzinfo b) * 60 * US_PER_SECOND).

Definition UTC : tzinfo := mktzinfo "UTC" 0.

(** [dt.astimezone(tz)]: a no-op when [tz] is the instance [dt] carries;
    otherwise the civil fields are taken to UTC and [tz.fromutc] picks the
    instance of the zone in force at that instant and shifts the fields by
    its offset.  [fromutc_instance tz utc] is the zone database's part: the
    instance of [tz]'s zone in force at the UTC civil time [utc]. *)
Definition astimezone (fromutc_instance : tzinfo -> naive -> tzinfo)
    (dt : datetime) (tz : tzinfo) : result datetime :=
  if tzinfo_eqb tz (dt_tzinfo dt) then Ok dt
  else
    offset <- utcoffset dt ;;
    minus <- timedelta_neg offset ;;
    utc <- naive_add (fields dt) minus ;;
    let inst := fromutc_instance tz utc in
    shift <- timedelta_new 0 0 (tz_utcoffset inst) 0 0 ;;
    loc <- naive_add utc shift ;;
    Ok (mkdatetime loc inst).

(** [datetime.fromtimestamp(timestamp, pytz.UTC)] for an integer
    [timestamp]: the UTC civil time that many seconds after 1970-01-01
    00:00:00, days of 86400 seconds as [gmtime] counts them.  Outside the
    years 1 to 9999 the call raises, and the platform's [time_t] and
    [gmtime] decide with which exception: [range_error] gives it. *)
Definition fromtimestamp (range_error : Z -> exn) (timestamp : Z)
  : result datetime :=
  let days := timestamp / 86400 in
  let secs := timestamp mod 86400 in
  let ordinal := _ymd2ord 1970 1 1 + days in
  if (1 <=? ordinal) && (ordinal <=? _MAXORDINAL)
  then Ok (mkdatetime (fromordinal_time ordinal secs 0) UTC)
  else Raise (range_error timestamp).

(** *** Rendering and reading decimal numbers *)

Definition digit (d : Z) : ascii :=
  match d with
  | 0 => "0" | 1 => "1" | 2 => "2" | 3 => "3" | 4 => "4"
  | 5 => "5" | 6 => "6" | 7 => "7" | 8 => "8" | 9 => "9"
  | _ => "?"
  end%char.

(** The value of a decimal digit, from its character code. *)
Definition digit_value (c : ascii) : option Z :=
  let code := Z.of_N (N_of_ascii c) in
  if (48 <=? code) && (code <=? 57) then Some (code - 48) else None.

(** The decimal digits of [n], most significant first, [width] of them. *)
Fixpoint zero_padded (width : nat) (n : Z) : string :=
  match width with
  | O => EmptyString
  | S w => String (digit ((n / 10 ^ Z.of_nat w) mod 10)) (zero_padded w n)
  end.

Fixpoint decimal_width (fuel : nat) (n : Z) : nat :=
  match fuel with
  | O => 1%nat
  | S f => if n <? 10 then 1%nat else S (decimal_width f (n / 10))
  end.

(** The format specification [02d] for a number that is not negative: at
    least two digits. *)
Definition format_02d (n : Z) : string :=
  zero_padded (Nat.max 2 (decimal_width (Z.to_nat n) n)) n.

Fixpoint parse_digits (acc : Z) (s : string) : result Z :=
  match s with
  | EmptyString => Ok acc
  | String c rest =>
      match digit_value c with
      | Some d => parse_digits (acc * 10 + d) rest
      | None => Raise ValueError
      end
  end.

(** [int(s)] for a string of decimal digits. *)
Definition int_of_string (s : string) : result Z :=
  match s with
  | EmptyString => Raise ValueError
  | _ => parse_digits 0 s
  end.

(** *** [datetime.strftime]

    The numeric directives are rendered here, the year on four digits as
    the documentation of [%Y] has it; every other directive is the
    platform's, [platform dt c] being what the C library prints for [%c]
    ([None] when it rejects the directive, a [ValueError]). *)
Definition strftime_directive (platform : datetime -> ascii -> option string)
    (dt : datetime) (c : ascii) : result string :=
  let f := fields dt in
  match c with
  | "Y" => Ok (zero_padded 4 (year f))
  | "m" => Ok (zero_padded 2 (month f))
  | "d" => Ok (zero_padded 2 (day f))
  | "H" => Ok (zero_padded 2 (hour f))
  | "M" => Ok (zero_padded 2 (minute f))
  | "S" => Ok (zero_padded 2 (second f))
  | "f" => Ok (zero_padded 6 (microsecond f))
  | "w" => Ok (zero_padded 1 ((weekday f + 1) mod 7))
  | "%" => Ok "%"%string
  | _ => match platform dt c with
         | Some s => Ok s
         | None => Raise ValueError
         end
  end%char.

Fixpoint strftime (platform : datetime -> ascii -> option string)
    (dt : datetime) (fmt : string) : result string :=
  match fmt with
  | EmptyString => Ok EmptyString
  | String "%" (String c rest) =>
      s <- strftime_directive platform dt c ;;
      t <- strftime platform dt rest ;;
      Ok (s ++ t)%string
  | String c rest =>
      t <- strftime platform dt rest ;;
      Ok (String c t)
  end.

End PyDatetime.

(** ** [calendar] *)

Module PyCalendar.

Import PyDatetime.

Definition isleap (year : Z) : bool := _is_leap year.

(** [calendar.weekday(year, month, day)], Monday is 0; the date is built by
    [datetime.date], which checks it. *)
Definition weekday (y m d : Z) : result Z :=
  if _check_date_fields y m d
  then Ok (PyDatetime.weekday (mknaive y m d 0 0 0 0))
  else Raise ValueError.

(** [calendar.monthrange(year, month)]: the weekday of the first day of the
    month and the number of days in the month. *)
Definition monthrange (y m : Z) : result (Z * Z) :=
  day1 <- weekday y m 1 ;;
  Ok (day1, _DAYS_IN_MONTH m + (if (m =? 2) && isleap y then 1 else 0)).

(** [[0] * n] *)
Definition zeros (n : Z) : list Z := repeat 0 (Z.to_nat n).

(** [range(1, ndays + 1)] *)
Definition days_1_to (ndays : Z) : list Z :=
  map (fun i => Z.of_nat i + 1) (seq 0 (Z.to_nat ndays)).

(** [Calendar(firstweekday=0).itermonthdays(year, month)] *)
Definition itermonthdays (y m : Z) : result (list Z) :=
  r <- monthrange y m ;;
  let '(day1, ndays) := r in
  let days_before := (day1 - 0) mod 7 in
  let days_after := (0 - day1 - ndays) mod 7 in
  Ok (zeros days_before ++ days_1_to ndays ++ zeros days_after).

(** [[days[i:i+7] for i in range(0, len(days), 7)]], [rows] slices. *)
Fixpoint weeks (rows : nat) (days : list Z) : list (list Z) :=
  match rows with
  | O => []
  | S r => firstn 7 days :: weeks r (skipn 7 days)
  end.

(** [calendar.monthcalendar(year, month)] *)
Definition monthcalendar (y m : Z) : result (list (list Z)) :=
  days <- itermonthdays y m ;;
  Ok (weeks (Z.to_nat ((Z.of_nat (List.length days) + 6) / 7)) days).

(** [l[i]] with Python's negative indices. *)
Definition getitem {A : Type} (l : list A) (i : Z) : result A :=
  let n := Z.of_nat (List.length l) in
  let j := if i <? 0 then i + n else i in
  if (0 <=? j) && (j <? n)
  then match nth_error l (Z.to_nat j) with
       | Some a => Ok a
       | None => Raise IndexError
       end
  else Raise IndexError.

End PyCalendar.

(** ** [dateutil.relativedelta] *)

Module Relativedelta.

Import PyDatetime.

(** The relative fields of a [relativedelta] and its weekday (Monday is 0,
    with [n] left unset, as [weekdays[i]] gives it). *)
Record relativedelta : Type := mkrelativedelta {
  years : Z;
  months : Z;
  days : Z;
  hours : Z;
  minutes : Z;
  seconds : Z;
  microseconds : Z;
  rd_weekday : option Z
}.

(** [int(copysign(1, x))] *)
Definition _sign (x : Z) : Z := if x <? 0 then -1 else 1.

(** One step of [_fix]: when [abs(lo) > limit], the whole units of [base] in
    [lo] move to [hi], keeping the sign. *)
Definition carry (limit base lo hi : Z) : Z * Z :=
  if Z.abs lo >? limit then
    let s := _sign lo in
    let div := (lo * s) / base in
    let md := (lo * s) mod base in
    (md * s, hi + div * s)
  else (lo, hi).

Definition _fix (r : relativedelta) : relativedelta :=
  let '(us, s) := carry 999999 1000000 (microseconds r) (seconds r) in
  let '(s, mi) := carry 59 60 s (minutes r) in
  let '(mi, h) := carry 59 60 mi (hours r) in
  let '(h, d) := carry 23 24 h (days r) in
  let '(mo, y) := carry 11 12 (months r) (years r) in
  mkrelativedelta y mo d h mi s us (rd_weekday r).

(** [weekdays[i]] on the tuple [(MO, TU, WE, TH, FR, SA, SU)]. *)
Definition weekdays_getitem (i : Z) : result Z :=
  if (-7 <=? i) && (i <? 7) then Ok (i mod 7) else Raise IndexError.

(** [relativedelta(years=, months=, weeks=, days=, hours=, minutes=,
    seconds=, microseconds=, weekday=)] with an integer or no weekday. *)
Definition new (years months weeks days hours minutes seconds microseconds : Z)
    (weekday : option Z) : result relativedelta :=
  wd <- match weekday with
        | None => Ok None
        | Some i => w <- weekdays_getitem i ;; Ok (Some w)
        end ;;
  Ok (_fix (mkrelativedelta years months (days + weeks * 7)
              hours minutes seconds microseconds wd)).

(** [__neg__]: every relative field negated, the weekday kept. *)
Definition neg (r : relativedelta) : relativedelta :=
  _fix (mkrelativedelta (- years r) (- months r) (- days r) (- hours r)
          (- minutes r) (- seconds r) (- microseconds r) (rd_weekday r)).

(** [dt + relativedelta] ([__radd__]): years and months move the civil year
    and month, the day is cut down to the length of the month reached, the
    rest is added as a [timedelta], and a weekday is then reached by going
    forward. *)
Definition radd (r : relativedelta) (dt : datetime) : result datetime :=
  let f := fields dt in
  let year := year f + years r in
  let month := month f in
  let '(year, month) :=
    if months r =? 0 then (year, month)
    else
      let month := month + months r in
      if month >? 12 then (year + 1, month - 12)
      else if month <? 1 then (year - 1, month + 12)
      else (year, month) in
  mr <- PyCalendar.monthrange year month ;;
  let day := Z.min (snd mr) (day f) in
  replaced <- replace dt (Some year) (Some month) (Some day) None None None ;;
  td <- timedelta_new (days r) (hours r) (minutes r) (seconds r)
          (microseconds r) ;;
  ret <- add_timedelta replaced td ;;
  match rd_weekday r with
  | None => Ok ret
  | Some weekday =>
      let jumpdays := (7 - PyDatetime.weekday (fields ret) + weekday) mod 7 in
      jump <- timedelta_new jumpdays 0 0 0 0 ;;
      add_timedelta ret jump
  end.

(** [dt - relativedelta] ([__rsub__]) *)
Definition rsub (r : relativedelta) (dt : datetime) : result datetime :=
  radd (neg r) dt.

End Relativedelta.

(** ** Python's [float]

    A [float] is a binary64 number.  The finite ones are the numbers
    [mantissa * 2 ^ exponent] with a mantissa below [2 ^ 53] in magnitude
    and an exponent of -1074 or more; an operation gives the one nearest to
    its exact result, the one with the even mantissa when two are as near.
    The numbers of this development are numbers of seconds, far below the
    largest [float], so that infinities play no part. *)

Module PyFloat.

Record float : Type := mkfloat {
  mantissa : Z;
  exponent : Z
}.

(** The integer nearest to [p / q], the even one on a tie, for [p] at least
    0 and [q] above 0. *)
Definition nearest_even (p q : Z) : Z :=
  let f := p / q in
  let r := p mod q in
  if 2 * r <? q then f
  else if q <? 2 * r then f + 1
  else if Z.even f then f else f + 1.

(** The [float] nearest to [p / q], for [q] above 0: the true division
    [p / q] of two [int], and [x / y] for two [float] that are the integers
    [p] and [q].  The exponent is the one that puts the mantissa between
    [2 ^ 52] and [2 ^ 53], and -1074 for the numbers too small for it. *)
Definition round (p q : Z) : float :=
  let a := Z.abs p in
  let e := Z.max (Z.log2 (a * 2 ^ 1200 / q) - 1252) (-1074) in
  let m := if 0 <=? e then nearest_even a (q * 2 ^ e)
           else nearest_even (a * 2 ^ (- e)) q in
  mkfloat (Z.sgn p * m) e.

(** [x - y]: the exact difference, rounded. *)
Definition sub (x y : float) : float :=
  let e := Z.min (exponent x) (exponent y) in
  let p := mantissa x * 2 ^ (exponent x - e) - mantissa y * 2 ^ (exponent y - e) in
  if 0 <=? e then round (p * 2 ^ e) 1 else round p (2 ^ (- e)).

(** [int(x)]: the fraction is dropped, towards zero. *)
Definition to_int (x : float) : Z :=
  if 0 <=? exponent x then mantissa x * 2 ^ exponent x
  else Z.quot (mantissa x) (2 ^ (- exponent x)).

End PyFloat.

(** ** The class [Pendulum] *)

Module Pendulum.

Import PyDatetime.

(** The state of an instance: its zone and its aware datetime. *)
Record Pendulum : Type := mkPendulum {
  _tz : tzinfo;
  _datetime : datetime
}.

Definition SUNDAY : Z := 0.
Definition MONDAY : Z := 1.
Definition TUESDAY : Z := 2.
Definition WEDNESDAY : Z := 3.
Definition THURSDAY : Z := 4.
Definition FRIDAY : Z := 5.
Definition SATURDAY : Z := 6.

Definition YEARS_PER_CENTURY : Z := 100.
Definition YEARS_PER_DECADE : Z := 10.

(** [_EPOCH = datetime.datetime(1970, 1, 1, tzinfo=pytz.UTC)] *)
Definition _EPOCH : datetime := mkdatetime (mknaive 1970 1 1 0 0 0 0) UTC.

(** *** Methods

    A method runs on the receiver's state and leaves a state and an outcome:
    what it returns, or the exception it raised.  The state it leaves on an
    exception is the one reached when the exception was raised. *)
Definition method (A : Type) : Type := Pendulum -> Pendulum * result A.

Definition mret {A : Type} (a : A) : method A := fun self => (self, Ok a).

Definition mbind {A B : Type} (m : method A) (k : A -> method B) : method B :=
  fun self =>
    match m self with
    | (self', Ok a) => k a self'
    | (self', Raise e) => (self', Raise e)
    | (self', OutOfFuel) => (self', OutOfFuel)
    end.

(** The outcome of a computation that does not touch the receiver. *)
Definition lift {A : Type} (r : result A) : method A := fun self => (self, r).

(** [self] *)
Definition this : method Pendulum := fun self => (self, Ok self).

(** A method called on another object [obj]: the receiver is left alone and
    the continuation gets the state [obj] is left in. *)
Definition on {A B : Type} (obj : Pendulum) (m : method A)
    (k : Pendulum -> A -> method B) : method B :=
  fun self =>
    match m obj with
    | (obj', Ok a) => k obj' a self
    | (_, Raise e) => (self, Raise e)
    | (_, OutOfFuel) => (self, OutOfFuel)
    end.

Notation "x <~ m ;; k" := (mbind m (fun x => k))
  (at level 61, m at next level, right associativity).
Notation "m ;;; k" := (mbind m (fun _ => k))
  (at level 61, right associativity).

(** [self._datetime = r], when [r] did not raise. *)
Definition set_datetime (r : result datetime) : method unit :=
  fun self =>
    match r with
    | Ok dt => (mkPendulum (_tz self) dt, Ok tt)
    | Raise e => (self, Raise e)
    | OutOfFuel => (self, OutOfFuel)
    end.

(** What a method returns when it returns either [self] or [False]. *)
Inductive returned : Type := ReturnsSelf | ReturnsFalse.

(** What [_safe_create_datetime_zone] is given. *)
Inductive zone_spec : Type :=
| ZoneNone
| ZoneName (name : string)
| ZoneInstance (tz : tzinfo)
| ZoneHours (hours : Z).

(** [pytz.FixedOffset(minutes)] *)
Definition FixedOffset (minutes : Z) : result tzinfo :=
  if minutes =? 0 then Ok UTC
  else if Z.abs minutes >=? 1440 then Raise ValueError
  else Ok (mktzinfo "" minutes).

Definition MONTHS_PER_YEAR : Z := 12.
Definition DAYS_PER_WEEK : Z := 7.
Definition MINUTES_PER_HOUR : Z := 60.
Definition SECONDS_PER_MINUTE : Z := 60.

Definition ATOM : string := "%Y-%m-%dT%H:%M:%S%P".
Definition ISO8601 : string := "%Y-%m-%dT%H:%M:%S%P".
Definition ISO8601_EXTENDED : string := "%Y-%m-%dT%H:%M:%S.%f%P".
Definition RFC3339 : string := "%Y-%m-%dT%H:%M:%S%P".
Definition RFC3339_EXTENDED : string := "%Y-%m-%dT%H:%M:%S.%f%P".
Definition W3C : string := "%Y-%m-%dT%H:%M:%S%P".

Definition DEFAULT_TO_STRING_FORMAT : string := ISO8601_EXTENDED.

(** The attributes of the class that its class methods rebind, and that an
    instance reads through [self]. *)
Record class_attributes : Type := mkclass {
  _to_string_format : string;
  _week_starts_at : Z;
  _week_ends_at : Z;
  _weekend_days : list Z
}.

(** The attributes as the class statement sets them. *)
Definition class_defaults : class_attributes :=
  mkclass DEFAULT_TO_STRING_FORMAT MONDAY SUNDAY [SATURDAY; SUNDAY].

Definition get_week_starts_at (cls : class_attributes) : Z :=
  _week_starts_at cls.

Definition set_week_starts_at (value : Z) (cls : class_attributes)
  : class_attributes :=
  mkclass (_to_string_format cls) value (_week_ends_at cls) (_weekend_days cls).

Definition get_week_ends_at (cls : class_attributes) : Z :=
  _week_ends_at cls.

Definition set_week_ends_at (value : Z) (cls : class_attributes)
  : class_attributes :=
  mkclass (_to_string_format cls) (_week_starts_at cls) value (_weekend_days cls).

Definition set_to_string_format (fmt : string) (cls : class_attributes)
  : class_attributes :=
  mkclass fmt (_week_starts_at cls) (_week_ends_at cls) (_weekend_days cls).

Definition reset_to_string_format (cls : class_attributes)
  : class_attributes :=
  set_to_string_format DEFAULT_TO_STRING_FORMAT cls.

(** [math.ceil(a / b)] for integers [a] and [b > 0]: the division is the
    true division of [from __future__ import division], and the quotient of
    two small integers is rounded to a float that is an integer only when
    the quotient is. *)
Definition ceil_div (a b : Z) : Z := - ((- a) / b).

(** [time.split(sep)] for a separator of one character. *)
Fixpoint split (sep : ascii) (s : string) : list string :=
  match s with
  | EmptyString => [EmptyString]
  | String c rest =>
      if Ascii.eqb c sep then EmptyString :: split sep rest
      else
        match split sep rest with
        | part :: parts => String c part :: parts
        | [] => [String c EmptyString]
        end
  end.

(** The object a class method has built, after a method has run on it. *)
Definition after (r : result Pendulum) (m : method unit) : result Pendulum :=
  obj <- r ;;
  match m obj with
  | (obj', Ok _) => Ok obj'
  | (_, Raise e) => Raise e
  | (_, OutOfFuel) => OutOfFuel
  end.

Section Collaborators.

(** The zone database and the platform, which the class takes from [pytz],
    [tzlocal] and the C library:
    - [platform dt c]: what [strftime] prints for a directive [%c] that is
      not numeric;
    - [localize tz n]: the instance [tz.localize(n)] attaches to the naive
      datetime [n];
    - [fromutc tz utc]: the instance [tz.fromutc] picks for the UTC civil
      time [utc];
    - [get_localzone]: [tzlocal.get_localzone()];
    - [timezone name]: [pytz.timezone(name)], [None] for an unknown name. *)
Variable platform : datetime -> ascii -> option string.
Variable localize : tzinfo -> naive -> tzinfo.
Variable fromutc : tzinfo -> naive -> tzinfo.
Variable get_localzone : tzinfo.
Variable timezone : string -> option tzinfo.

Definition _safe_create_datetime_zone (obj : zone_spec) : result tzinfo :=
  match obj with
  | ZoneNone => Ok get_localzone
  | ZoneName name =>
      if String.eqb name "local" then Ok get_localzone
      else match timezone name with
           | Some tz => Ok tz
           | None => Raise UnknownTimeZoneError
           end
  | ZoneInstance tz => Ok tz
  | ZoneHours hours => FixedOffset (hours * 60)
  end.

(** [Pendulum(year, month, day, hour, minute, second, microsecond, tzinfo)]
    with every field given. *)
Definition __init__ (y m d h mi s us : Z) (tzinfo : zone_spec)
  : result Pendulum :=
  tz <- _safe_create_datetime_zone tzinfo ;;
  n <- datetime_new y m d h mi s us ;;
  Ok (mkPendulum tz (mkdatetime n (localize tz n))).

Definition instance (dt : datetime) : result Pendulum :=
  let f := fields dt in
  __init__ (PyDatetime.year f) (PyDatetime.month f) (PyDatetime.day f)
    (PyDatetime.hour f) (PyDatetime.minute f) (PyDatetime.second f)
    (PyDatetime.microsecond f) (ZoneInstance (dt_tzinfo dt)).

Definition copy (self : Pendulum) : result Pendulum :=
  instance (_datetime self).

(** *** Getters *)

Definition year (self : Pendulum) : Z := PyDatetime.year (fields (_datetime self)).
Definition month (self : Pendulum) : Z := PyDatetime.month (fields (_datetime self)).
Definition day (self : Pendulum) : Z := PyDatetime.day (fields (_datetime self)).
Definition hour (self : Pendulum) : Z := PyDatetime.hour (fields (_datetime self)).
Definition minute (self : Pendulum) : Z := PyDatetime.minute (fields (_datetime self)).
Definition second (self : Pendulum) : Z := PyDatetime.second (fields (_datetime self)).
(** Reached through [__getattr__]. *)
Definition microsecond (self : Pendulum) : Z :=
  PyDatetime.microsecond (fields (_datetime self)).

(** *** Formatting *)

Definition NEWLINE : ascii := "010"%char.

(** What a greedy group of any characters matches at the start of [s]: the
    dot stops at a newline. *)
Fixpoint first_line (s : string) : string :=
  match s with
  | EmptyString => EmptyString
  | String c rest =>
      if Ascii.eqb c NEWLINE then EmptyString else String c (first_line rest)
  end.

(** [re.match(formatters_regex, fmt)], the pattern being a greedy group of
    any characters, the formatter [%P], and a second such group: the first
    and the last group of the match, which is at the last [%P] of the first
    line. *)
Fixpoint match_formatters (fmt : string) : option (string * string) :=
  match fmt with
  | EmptyString => None
  | String c rest =>
      if Ascii.eqb c NEWLINE then None
      else
        match match_formatters rest with
        | Some (g1, g3) => Some (String c g1, g3)
        | None =>
            match c, rest with
            | "%"%char, String "P"%char tail => Some (EmptyString, first_line tail)
            | _, _ => None
            end
        end
  end.

(** Handles custom formatters in format string. *)
Definition _strftime (self : Pendulum) (fmt : string) : result string :=
  if String.eqb fmt "P" then
    offset <- utcoffset (_datetime self) ;;
    (* minutes = offset.total_seconds() / 60, kept as a number of
       microseconds: its sign and its integer part are those of [us] and of
       [us] divided by a minute, rounded towards zero *)
    let us := td_total_microseconds offset in
    let sign := if 0 <? us then "+"%string else "-"%string in
    let whole := Z.abs (Z.quot us (60 * US_PER_SECOND)) in
    let hour := whole / 60 in
    let minute := whole mod 60 in
    Ok (sign ++ format_02d hour ++ ":" ++ format_02d minute)%string
  else Raise (PendulumException ("Unknown formatter %" ++ fmt)).

(** [strftime], which calls itself on the two sides of a custom formatter:
    [depth] bounds the nesting of these calls. *)
Fixpoint strftime_rec (depth : nat) (self : Pendulum) (fmt : string)
  : result string :=
  match fmt with
  | EmptyString => Ok EmptyString
  | _ =>
      match match_formatters fmt with
      | Some (g1, g3) =>
          match depth with
          | O => OutOfFuel
          | S depth' =>
              a <- strftime_rec depth' self g1 ;;
              b <- _strftime self "P" ;;
              c <- strftime_rec depth' self g3 ;;
              Ok (a ++ b ++ c)%string
          end
      | None => PyDatetime.strftime platform (_datetime self) fmt
      end
  end.

(** Each nested call is on a shorter string. *)
Definition strftime (self : Pendulum) (fmt : string) : result string :=
  strftime_rec (String.length fmt) self fmt.

Definition format (self : Pendulum) (fmt : string) : result string :=
  strftime self fmt.

(** *** Properties *)

Definition day_of_week (self : Pendulum) : result Z :=
  s <- format self "%w" ;; int_of_string s.

Definition days_in_month (self : Pendulum) : result Z :=
  mr <- PyCalendar.monthrange (year self) (month self) ;; Ok (snd mr).

(** [self._datetime - self._EPOCH], in microseconds: the instant of the
    receiver, counted from the Unix epoch. *)
Definition since_epoch (self : Pendulum) : Z :=
  aware_sub (_datetime self) _EPOCH.

(** [float_timestamp]: [(self._datetime - self._EPOCH).total_seconds()],
    which is also what [datetime.timestamp()] returns for an aware
    datetime: the microseconds of the difference divided by [10 ** 6], as a
    [float].  The datetime of an instance always has a [tzinfo], so the
    branch through [mktime] is not taken. *)
Definition float_timestamp (self : Pendulum) : PyFloat.float :=
  PyFloat.round (since_epoch self) US_PER_SECOND.

(** [timestamp]: [int(self.float_timestamp - self._datetime.microsecond / 1e6)],
    in [float] arithmetic as the source has it. *)
Definition timestamp (self : Pendulum) : Z :=
  PyFloat.to_int
    (PyFloat.sub (float_timestamp self)
       (PyFloat.round (microsecond self) 1000000)).

Definition get_offset (self : Pendulum) : Z :=
  tz_utcoffset (dt_tzinfo (_datetime self)) * 60.

(** *** Setters *)

Definition set_date (year month day : Z) : method unit :=
  fun self =>
    set_datetime
      (replace (_datetime self) (Some year) (Some month) (Some day)
         None None None) self.

Definition set_time (hour minute second : Z) : method unit :=
  fun self =>
    set_datetime
      (replace (_datetime self) None None None
         (Some hour) (Some minute) (Some second)) self.

Definition set_date_time (year month day hour minute second : Z)
  : method unit :=
  set_date year month day ;;; set_time hour minute second.

(** Modelled from the spec: [hybrid_property] of [pendulum/utils.py] is
    missing; called with a value, the property [day] is a setter, so
    [self.day(value)] replaces the day of the month and keeps every other
    field, like a [set_date] of the day alone. *)
Definition set_day (value : Z) : method unit :=
  fun self =>
    set_datetime
      (replace (_datetime self) None None (Some value) None None None) self.

Definition set_timezone (value : zone_spec) : method unit :=
  fun self =>
    match _safe_create_datetime_zone value with
    | Ok tz =>
        let self := mkPendulum tz (_datetime self) in
        set_datetime (astimezone fromutc (_datetime self) tz) self
    | Raise e => (self, Raise e)
    | OutOfFuel => (self, OutOfFuel)
    end.

(** *** Addition and subtraction *)

Definition add (years months weeks days hours minutes seconds microseconds : Z)
    (weekdays : option Z) : method unit :=
  fun self =>
    set_datetime
      (delta <- Relativedelta.new years months weeks days hours minutes
                  seconds microseconds weekdays ;;
       Relativedelta.radd delta (_datetime self)) self.

Definition sub (years months weeks days hours minutes seconds microseconds : Z)
    (weekdays : option Z) : method unit :=
  fun self =>
    set_datetime
      (delta <- Relativedelta.new years months weeks days hours minutes
                  seconds microseconds weekdays ;;
       Relativedelta.rsub delta (_datetime self)) self.

Definition add_days (value : Z) : method unit :=
  add 0 0 0 value 0 0 0 0 None.

Definition add_day : method unit := add_days 1.

Definition sub_days (value : Z) : method unit :=
  sub 0 0 0 value 0 0 0 0 None.

Definition sub_day : method unit := sub_days 1.

(** *** Modifiers *)

Definition start_of_day : method unit := set_time 0 0 0.

Definition end_of_day : method unit := set_time 23 59 59.

Definition start_of_decade : method unit :=
  fun self =>
    let year := year self - year self mod YEARS_PER_DECADE in
    set_date_time year 1 1 0 0 0 self.

Definition end_of_decade : method unit :=
  fun self =>
    let year :=
      year self - year self mod YEARS_PER_DECADE + YEARS_PER_DECADE - 1 in
    set_date_time year 12 31 23 59 59 self.

Definition start_of_century : method unit :=
  fun self =>
    let year :=
      year self - 1 - (year self - 1) mod YEARS_PER_CENTURY + 1 in
    set_date_time year 1 1 0 0 0 self.

Definition end_of_century : method unit :=
  fun self =>
    let year :=
      year self - 1 - (year self - 1) mod YEARS_PER_CENTURY
      + YEARS_PER_CENTURY in
    set_date_time year 12 31 23 59 59 self.

(** [while dt.day_of_week != day_of_week: dt.add_day()], at most [fuel]
    times round the loop; [target] is the [day_of_week] asked for. *)
Fixpoint next_loop (fuel : nat) (target : Z) : method unit :=
  fun dt =>
    match day_of_week dt with
    | Ok w =>
        if w =? target then (dt, Ok tt)
        else
          match fuel with
          | O => (dt, OutOfFuel)
          | S fuel' => (add_day ;;; next_loop fuel' target) dt
          end
    | Raise e => (dt, Raise e)
    | OutOfFuel => (dt, OutOfFuel)
    end.

(** [next(day_of_week)]; the receiver is the [dt] of the source. *)
Definition next (fuel : nat) (target : option Z) : method unit :=
  self <~ this ;;
  target <~ match target with
            | None => lift (day_of_week self)
            | Some d => mret d
            end ;;
  start_of_day ;;; add_day ;;; next_loop fuel target.

Definition pick_day (month : list (list Z)) (row0 row1 calendar_day : Z)
  : result Z :=
  r0 <- PyCalendar.getitem month row0 ;;
  v0 <- PyCalendar.getitem r0 calendar_day ;;
  if v0 >? 0 then
    r0' <- PyCalendar.getitem month row0 ;;
    PyCalendar.getitem r0' calendar_day
  else
    r1 <- PyCalendar.getitem month row1 ;;
    PyCalendar.getitem r1 calendar_day.

Definition first_of_month (target : option Z) : method unit :=
  start_of_day ;;;
  match target with
  | None => set_day 1
  | Some target =>
      self <~ this ;;
      month <~ lift (PyCalendar.monthcalendar (year self) (month self)) ;;
      let calendar_day := (target - 1) mod 7 in
      day_of_month <~ lift (pick_day month 0 1 calendar_day) ;;
      set_day day_of_month
  end.

Definition last_of_month (target : option Z) : method unit :=
  start_of_day ;;;
  match target with
  | None =>
      self <~ this ;;
      d <~ lift (days_in_month self) ;;
      set_day d
  | Some target =>
      self <~ this ;;
      month <~ lift (PyCalendar.monthcalendar (year self) (month self)) ;;
      let calendar_day := (target - 1) mod 7 in
      day_of_month <~ lift (pick_day month (-1) (-2) calendar_day) ;;
      set_day day_of_month
  end.

(** [for i in range(count): dt.next(day_of_week)] *)
Fixpoint next_times (fuel : nat) (count : nat) (target : option Z)
  : method unit :=
  match count with
  | O => mret tt
  | S count' => next fuel target ;;; next_times fuel count' target
  end.

Definition option_Z_eqb (a : Z) (b : option Z) : bool :=
  match b with
  | Some b => a =? b
  | None => false
  end.

Definition nth_of_month (fuel : nat) (nth : Z) (target : option Z)
  : method returned :=
  if nth =? 1 then first_of_month target ;;; mret ReturnsSelf
  else
    self <~ this ;;
    c <~ lift (copy self) ;;
    on c (first_of_month None) (fun dt _ =>
    check <~ lift (format dt "%Y-%m") ;;
    w <~ lift (day_of_week dt) ;;
    let count := nth - (if option_Z_eqb w target then 1 else 0) in
    on dt (next_times fuel (Z.to_nat count) target) (fun dt _ =>
    label <~ lift (format dt "%Y-%m") ;;
    if String.eqb label check then
      set_day (day dt) ;;; start_of_day ;;; mret ReturnsSelf
    else mret ReturnsFalse)).

(** *** The clock and the other constructors

    [clock] is what [datetime.datetime.utcnow()] returns, and
    [time_range_error] the exception of the platform for a timestamp out of
    range. *)
Variable clock : naive.
Variable time_range_error : Z -> exn.

(** [Pendulum(year, month, day, hour, minute, second, microsecond, tzinfo)]
    with fields left out: a date field left out is that of the clock in the
    zone; the time fields left out are those of the clock when the hour is
    left out, and 0 when it is given. *)
Definition __init__opt (year month day hour minute second microsecond : option Z)
    (tzinfo : zone_spec) : result Pendulum :=
  tz <- _safe_create_datetime_zone tzinfo ;;
  now <- astimezone fromutc (mkdatetime clock UTC) tz ;;
  let now := fields now in
  let year := or_default year (PyDatetime.year now) in
  let month := or_default month (PyDatetime.month now) in
  let day := or_default day (PyDatetime.day now) in
  let '(hour, minute, second, microsecond) :=
    match hour with
    | None =>
        (PyDatetime.hour now,
         or_default minute (PyDatetime.minute now),
         or_default second (PyDatetime.second now),
         or_default microsecond (PyDatetime.microsecond now))
    | Some hour =>
        (hour, or_default minute 0, or_default second 0,
         or_default microsecond 0)
    end in
  n <- datetime_new year month day hour minute second microsecond ;;
  Ok (mkPendulum tz (mkdatetime n (localize tz n))).

Definition now (tz : zone_spec) : result Pendulum :=
  __init__opt None None None None None None None tz.

Definition utcnow : result Pendulum := now (ZoneInstance UTC).

Definition create_from_date (year month day : option Z) (tz : zone_spec)
  : result Pendulum :=
  __init__opt year month day None None None None tz.

Definition create_from_time (hour minute second microsecond : option Z)
    (tz : zone_spec) : result Pendulum :=
  __init__opt None None None hour minute second microsecond tz.

(** [set_timestamp] for an integer timestamp. *)
Definition set_timestamp (timestamp : Z) : method unit :=
  fun self =>
    set_datetime
      (utc <- fromtimestamp time_range_error timestamp ;;
       astimezone fromutc utc (_tz self)) self.

Definition create_from_timestamp (timestamp : Z) (tz : zone_spec)
  : result Pendulum :=
  after (now tz) (set_timestamp timestamp).

Definition today (tz : zone_spec) : result Pendulum :=
  after (now tz) start_of_day.

Definition tomorrow (tz : zone_spec) : result Pendulum :=
  after (today tz) add_day.

Definition yesterday (tz : zone_spec) : result Pendulum :=
  after (today tz) sub_day.

(** *** More properties *)

Definition quarter (self : Pendulum) : Z := ceil_div (month self) 3.

Definition offset (self : Pendulum) : Z := get_offset self.

(** [int(get_offset() / 60 / 60)]: the quotient, cut towards zero. *)
Definition offset_hours (self : Pendulum) : Z :=
  Z.quot (get_offset self) (SECONDS_PER_MINUTE * MINUTES_PER_HOUR).

Definition utc (self : Pendulum) : bool := offset self =? 0.

Definition get_timezone (self : Pendulum) : tzinfo := _tz self.

(** *** More setters *)

(** Modelled from the spec: [hybrid_property] of [pendulum/utils.py] is
    missing; called with a value, the property [month] is a setter, so
    [self.month(value)] replaces the month and keeps every other field, like
    a [set_date] of the month alone. *)
Definition set_month (value : Z) : method unit :=
  fun self =>
    set_datetime
      (replace (_datetime self) None (Some value) None None None None) self.

(** [py_int s] is what the builtin [int] makes of the string [s]. *)
Variable py_int : string -> result Z.

Definition set_time_from_string (time : string) : method unit :=
  let time := split ":" time in
  let hour := nth 0 time EmptyString in
  hour <~ lift (py_int hour) ;;
  minute <~ lift (if (1 <? Z.of_nat (List.length time))
                  then py_int (nth 1 time EmptyString) else Ok 0) ;;
  second <~ lift (if (2 <? Z.of_nat (List.length time))
                  then py_int (nth 2 time EmptyString) else Ok 0) ;;
  set_time hour minute second.

Definition to (tz : zone_spec) : method unit := set_timezone tz.

(** *** String formatting *)

Definition __str__ (cls : class_attributes) (self : Pendulum) : result string :=
  format self (_to_string_format cls).

Definition to_date_string (self : Pendulum) : result string :=
  format self "%Y-%m-%d".

Definition to_time_string (self : Pendulum) : result string :=
  format self "%H:%M:%S".

Definition to_datetime_string (self : Pendulum) : result string :=
  format self "%Y-%m-%d %H:%M:%S".

Definition to_atom_string (self : Pendulum) : result string :=
  format self ATOM.

Definition to_iso8601_string (extended : bool) (self : Pendulum)
  : result string :=
  let fmt := if extended then ISO8601_EXTENDED else ISO8601 in
  format self fmt.

Definition to_rfc3339_string (extended : bool) (self : Pendulum)
  : result string :=
  let fmt := if extended then RFC3339_EXTENDED else RFC3339 in
  format self fmt.

Definition to_w3c_string (self : Pendulum) : result string :=
  format self W3C.

(** *** Addition and subtraction of one unit *)

Definition add_years (value : Z) : method unit :=
  add value 0 0 0 0 0 0 0 None.

Definition add_year (value : Z) : method unit := add_years value.

Definition sub_years (value : Z) : method unit :=
  sub value 0 0 0 0 0 0 0 None.

Definition sub_year (value : Z) : method unit := sub_years value.

Definition add_months (value : Z) : method unit :=
  add 0 value 0 0 0 0 0 0 None.

Definition add_month (value : Z) : method unit := add_months value.

Definition sub_months (value : Z) : method unit :=
  sub 0 value 0 0 0 0 0 0 None.

Definition sub_month (value : Z) : method unit := sub_months value.

Definition add_weekdays (value : Z) : method unit :=
  add 0 0 0 0 0 0 0 0 (Some value).

Definition add_weekday (value : Z) : method unit := add_days value.

Definition sub_weekdays (value : Z) : method unit :=
  sub 0 0 0 0 0 0 0 0 (Some value).

Definition sub_weekday (value : Z) : method unit := sub_weekdays value.

(** *** More modifiers *)

Definition start_of_month : method unit :=
  fun self => set_date_time (year self) (month self) 1 0 0 0 self.

Definition end_of_month : method unit :=
  self <~ this ;;
  days <~ lift (days_in_month self) ;;
  set_date_time (year self) (month self) days 23 59 59.

Definition start_of_year : method unit :=
  fun self => set_date_time (year self) 1 1 0 0 0 self.

Definition end_of_year : method unit :=
  fun self => set_date_time (year self) 12 31 23 59 59 self.

(** [while dt.day_of_week != day_of_week: dt.sub_day()], at most [fuel]
    times round the loop. *)
Fixpoint previous_loop (fuel : nat) (target : Z) : method unit :=
  fun dt =>
    match day_of_week dt with
    | Ok w =>
        if w =? target then (dt, Ok tt)
        else
          match fuel with
          | O => (dt, OutOfFuel)
          | S fuel' => (sub_day ;;; previous_loop fuel' target) dt
          end
    | Raise e => (dt, Raise e)
    | OutOfFuel => (dt, OutOfFuel)
    end.

(** [previous(day_of_week)]; the receiver is the [dt] of the source. *)
Definition previous (fuel : nat) (target : option Z) : method unit :=
  self <~ this ;;
  target <~ match target with
            | None => lift (day_of_week self)
            | Some d => mret d
            end ;;
  start_of_day ;;; sub_day ;;; previous_loop fuel target.

Definition start_of_week (fuel : nat) (cls : class_attributes) : method unit :=
  self <~ this ;;
  w <~ lift (day_of_week self) ;;
  (if negb (w =? _week_starts_at cls)
   then previous fuel (Some (_week_starts_at cls))
   else mret tt) ;;;
  start_of_day.

Definition end_of_week (fuel : nat) (cls : class_attributes) : method unit :=
  self <~ this ;;
  w <~ lift (day_of_week self) ;;
  (if negb (w =? _week_ends_at cls)
   then next fuel (Some (_week_ends_at cls))
   else mret tt) ;;;
  end_of_day.

Definition first_of_quarter (target : option Z) : method unit :=
  self <~ this ;;
  set_date (year self) (quarter self * 3 - 2) 1 ;;;
  first_of_month target.

Definition last_of_quarter (target : option Z) : method unit :=
  self <~ this ;;
  set_date (year self) (quarter self * 3) 1 ;;;
  last_of_month target.

Definition nth_of_quarter (fuel : nat) (nth : Z) (target : option Z)
  : method returned :=
  if nth =? 1 then first_of_quarter target ;;; mret ReturnsSelf
  else
    self <~ this ;;
    c <~ lift (copy self) ;;
    on c (set_day 1 ;;; set_month (quarter self * 3)) (fun dt _ =>
    let last_month := month dt in
    let year_ := year dt in
    on dt (first_of_quarter None) (fun dt _ =>
    w <~ lift (day_of_week dt) ;;
    let count := nth - (if option_Z_eqb w target then 1 else 0) in
    on dt (next_times fuel (Z.to_nat count) target) (fun dt _ =>
    if (last_month <? month dt) || negb (year_ =? year dt)
    then mret ReturnsFalse
    else
      set_date (year self) (month dt) (day dt) ;;;
      start_of_day ;;; mret ReturnsSelf))).

Definition first_of_year (target : option Z) : method unit :=
  set_month 1 ;;; first_of_month target.

Definition last_of_year (target : option Z) : method unit :=
  set_month MONTHS_PER_YEAR ;;; last_of_month target.

Definition nth_of_year (fuel : nat) (nth : Z) (target : option Z)
  : method returned :=
  if nth =? 1 then first_of_year target ;;; mret ReturnsSelf
  else
    self <~ this ;;
    c <~ lift (copy self) ;;
    on c (first_of_year None) (fun dt _ =>
    let year_ := year dt in
    w <~ lift (day_of_week dt) ;;
    let count := nth - (if option_Z_eqb w target then 1 else 0) in
    on dt (next_times fuel (Z.to_nat count) target) (fun dt _ =>
    if negb (year_ =? year dt) then mret ReturnsFalse
    else
      set_date (year self) (month dt) (day dt) ;;;
      start_of_day ;;; mret ReturnsSelf)).

End Collaborators.

(** *** Well-formed states

    What the constructor of [datetime] and [pytz] guarantee of the values a
    [Pendulum] holds. *)
Definition valid_naive (f : naive) : Prop :=
  _check_date_fields (PyDatetime.year f) (PyDatetime.month f) (PyDatetime.day f)
  && _check_time_fields (PyDatetime.hour f) (PyDatetime.minute f)
       (PyDatetime.second f) (PyDatetime.microsecond f) = true.

Definition valid_tzinfo (tz : tzinfo) : Prop :=
  -1440 < tz_utcoffset tz < 1440.

Abbreviation valid_fields self := (valid_naive (fields (_datetime self))).

Definition valid (self : Pendulum) : Prop :=
  valid_fields self /\ valid_tzinfo (dt_tzinfo (_datetime self)).

End Pendulum.

(** ** Notions the statements are written with *)

Module Civil.

Import PyDatetime.

Definition days_in_year (y : Z) : Z := if _is_leap y then 366 else 365.

(** The civil fields [f] moved to the day of ordinal [o], the time kept. *)
Definition on_ordinal (f : naive) (o : Z) : naive :=
  let '(y, m, d) := _ord2ymd o in
  mknaive y m d (hour f) (minute f) (second f) (microsecond f).

(** The time of day, in microseconds since midnight. *)
Definition time_of_day (f : naive) : Z :=
  ((hour f * 60 + minute f) * 60 + second f) * US_PER_SECOND + microsecond f.

(** The civil fields [f] at 00:00:00, the microsecond kept, which is what
    [set_time(0, 0, 0)] leaves. *)
Definition at_midnight (f : naive) : naive :=
  mknaive (year f) (month f) (day f) 0 0 0 (microsecond f).

(** The receiver with its civil fields replaced, zone and [tzinfo] kept. *)
Definition with_fields (self : Pendulum.Pendulum) (n : naive)
  : Pendulum.Pendulum :=
  Pendulum.mkPendulum (Pendulum._tz self)
    (mkdatetime n (dt_tzinfo (Pendulum._datetime self))).

(** The ordinal of the receiver's date. *)
Definition ordinal (self : Pendulum.Pendulum) : Z :=
  toordinal (fields (Pendulum._datetime self)).

(** What [format('%Y-%m')] prints for a year and a month. *)
Definition year_month_label (y m : Z) : string :=
  (zero_padded 4 y ++ String "-" (zero_padded 2 m ++ EmptyString))%string.

(** A delta with the sign of every relative field inverted, the weekday
    kept. *)
Definition negated (r : Relativedelta.relativedelta)
  : Relativedelta.relativedelta :=
  Relativedelta.mkrelativedelta
    (- Relativedelta.years r) (- Relativedelta.months r)
    (- Relativedelta.days r) (- Relativedelta.hours r)
    (- Relativedelta.minutes r) (- Relativedelta.seconds r)
    (- Relativedelta.microseconds r) (Relativedelta.rd_weekday r).

(** A number below 100 on two digits. *)
Definition two_digits (n : Z) : string :=
  String (digit (n / 10)) (String (digit (n mod 10)) EmptyString).

(** An offset in minutes as the specification words it: the sign, [+] for an
    offset greater than 0 and [-] otherwise, the hours of the absolute
    offset on two digits, a colon, its minutes on two digits. *)
Definition offset_text (offset : Z) : string :=
  String.append (if 0 <? offset then "+" else "-")
    (String.append (two_digits (Z.abs offset / 60))
       (String.append ":" (two_digits (Z.abs offset mod 60)))).

(** The instant of an aware datetime, in microseconds since ordinal 0 at
    00:00 UTC: its civil fields less its offset. *)
Definition utc_microseconds (dt : datetime) : Z :=
  naive_microseconds (fields dt)
  - tz_utcoffset (dt_tzinfo dt) * 60 * US_PER_SECOND.

(** The outcomes [strftime] can have: a string, or an exception of the
    [datetime] it renders with. *)
Definition delegated {A : Type} (r : result A) : Prop :=
  match r with
  | Ok _ => True
  | Raise ValueError => True
  | Raise OverflowError => True
  | _ => False
  end.

(** The first day after ordinal [o] whose weekday (Sunday is 0) is [t]:
    between 1 and 7 days later. *)
Definition next_ordinal (o t : Z) : Z := o + 1 + (t - (o + 1)) mod 7.

(** The last day before ordinal [o] whose weekday (Sunday is 0) is [t]:
    between 1 and 7 days earlier. *)
Definition previous_ordinal (o t : Z) : Z := o - 1 - (o - 1 - t) mod 7.

(** The day of weekday [w] (Sunday is 0) among ordinal [o] and the six days
    before it. *)
Definition week_start (o w : Z) : Z := o - (o - w) mod 7.

(** The day of weekday [w] (Sunday is 0) among ordinal [o] and the six days
    after it. *)
Definition week_end (o w : Z) : Z := o + (w - o) mod 7.

(** The civil fields [f] at [h:mi:s], the microsecond kept, which is what
    [set_time(h, mi, s)] leaves. *)
Definition at_time (f : naive) (h mi s : Z) : naive :=
  mknaive (year f) (month f) (day f) h mi s (microsecond f).

(** A date as [YYYY-MM-DD] and a time as [HH:MM:SS]. *)
Definition date_text (f : naive) : string :=
  (zero_padded 4 (year f) ++ "-" ++ zero_padded 2 (month f)
   ++ "-" ++ zero_padded 2 (day f))%string.

Definition time_text (f : naive) : string :=
  (zero_padded 2 (hour f) ++ ":" ++ zero_padded 2 (minute f)
   ++ ":" ++ zero_padded 2 (second f))%string.

End Civil.

(** ** Sample values *)

Module Sample.

Import PyDatetime.

(** A platform that prints a directive it does not know as it is written. *)
Definition echo : datetime -> ascii -> option string :=
  fun _ c => Some (String "%" (String c EmptyString)).

(** A zone database with fixed offsets only: every zone keeps the instance
    it is asked with. *)
Definition fixed : tzinfo -> naive -> tzinfo := fun tz _ => tz.

Definition no_zone : string -> option tzinfo := fun _ => None.

Definition utc (y m d h mi s us : Z) : Pendulum.Pendulum :=
  Pendulum.mkPendulum UTC (mkdatetime (mknaive y m d h mi s us) UTC).

Definition CET : tzinfo := mktzinfo "Europe/Paris" 60.
Definition CEST : tzinfo := mktzinfo "Europe/Paris" 120.

(** Paris in the spring of 2016: summer time starts on March 27 at 01:00
    UTC. *)
Definition paris_fromutc : tzinfo -> naive -> tzinfo :=
  fun _ utc =>
    if naive_microseconds utc
       <? naive_microseconds (mknaive 2016 3 27 1 0 0 0)
    then CET else CEST.

Definition paris (y m d h mi s us : Z) (inst : tzinfo) : Pendulum.Pendulum :=
  Pendulum.mkPendulum inst (mkdatetime (mknaive y m d h mi s us) inst).

End Sample.

(** * Properties

    First the calendar of [datetime], then its arithmetic, then the methods
    of [Pendulum], and last the claims of the specification. *)

Import PyDatetime Civil.

(** ** The calendar: ordinals and dates *)

(** The years before [y], split into cycles of 400, 100, 4 and 1 years, and
    the days they hold. *)
Lemma dby_decomp y : 1 <= y ->
  exists a b c e, 0 <= a /\ 0 <= b < 4 /\ 0 <= c < 25 /\ 0 <= e < 4 /\
    y - 1 = 400*a + 100*b + 4*c + e /\
    _days_before_year y = 146097*a + 36524*b + 1461*c + 365*e /\
    _is_leap y = (e =? 3) && (negb (c =? 24) || (b =? 3)).
Proof.
  intros Hy.
  exists ((y-1)/400), (((y-1) mod 400)/100), (((y-1) mod 100)/4), ((y-1) mod 4).
  unfold _days_before_year, _is_leap. cbv zeta.
  repeat split; Z.to_euclidean_division_equations; lia.
Qed.

(** Quotient and remainder, read off a decomposition. *)
Lemma div_mod_pos d q r : 0 <= r < d -> (d * q + r) / d = q /\ (d * q + r) mod d = r.
Proof.
  intros H. split.
  - symmetry. apply (Z.div_unique_pos _ _ q r); lia.
  - symmetry. apply (Z.mod_unique_pos _ _ q r); lia.
Qed.

Ltac divmod_step d q r :=
  let H := fresh "H" in
  let Hd := fresh "Hd" in
  let Hm := fresh "Hm" in
  assert (H : 0 <= r < d) by lia;
  destruct (div_mod_pos d q r H) as [Hd Hm];
  rewrite ?Hd, ?Hm; clear H Hd Hm.



(** [_ord2ymd] finds the year of the [k]-th day (from 0) of the year [y],
    and hands [k] to the search of the month. *)
Lemma ord2ymd_in_year y k :
  1 <= y -> 0 <= k < days_in_year y ->
  _ord2ymd (_days_before_year y + k + 1) =
  let '(m, d) := _ord2md (_is_leap y) k in (y, m, d).
Proof.
  intros Hy Hk. unfold days_in_year in Hk.
  destruct (dby_decomp y Hy) as (a & b & c & e & Ha & Hb & Hc & He & Hdec & Hdby & Hleap).
  rewrite Hleap in *. rewrite Hdby.
  unfold _ord2ymd, _DI400Y, _DI100Y, _DI4Y. cbv zeta.
  replace (146097 * a + 36524 * b + 1461 * c + 365 * e + k + 1 - 1)
    with (146097 * a + (36524 * b + 1461 * c + 365 * e + k))
    by lia.
  assert (Hk' : k <= 364 \/ (k = 365 /\ e = 3 /\ (c <> 24 \/ b = 3))).
  { destruct (e =? 3) eqn:E1, (c =? 24) eqn:E2, (b =? 3) eqn:E3; simpl in Hk; lia. }
  divmod_step 146097 a (36524 * b + 1461 * c + 365 * e + k).
  destruct Hk' as [Hk'|(-> & -> & Hcb)].
  - replace (36524 * b + 1461 * c + 365 * e + k) with (36524 * b + (1461 * c + 365 * e + k)) by lia.
    divmod_step 36524 b (1461 * c + 365 * e + k).
    replace (1461 * c + 365 * e + k) with (1461 * c + (365 * e + k)) by lia.
    divmod_step 1461 c (365 * e + k).
    divmod_step 365 e k.
    replace ((e =? 4) || (b =? 4)) with false by lia.
    replace (a * 400 + 1 + (b * 100 + c * 4 + e)) with y by lia.
    reflexivity.
  - assert (Hcase : (b = 3 /\ c = 24) \/ c <= 23 \/ (c = 24 /\ b <> 3)) by lia.
    destruct Hcase as [(-> & ->)|Hcase].
    + vm_compute (36524 * 3 + 1461 * 24 + 365 * 3 + 365).
      change (146096 / 36524) with 4. change (146096 mod 36524) with 0.
      change (0 / 1461) with 0. change (0 mod 1461) with 0. change (0 / 365) with 0.
      change (0 mod 365) with 0.
      simpl ((0 =? 4) || (4 =? 4)). cbv iota.
      simpl. f_equal. f_equal. lia.
    + assert (c <= 23) by lia.
      replace (36524 * b + 1461 * c + 365 * 3 + 365) with (36524 * b + (1461 * c + 1460)) by lia.
      divmod_step 36524 b (1461 * c + 1460).
      divmod_step 1461 c 1460.
      change (1460 / 365) with 4. simpl ((4 =? 4) || _). cbv iota.
      replace ((3 =? 3) && (negb (c =? 24) || (b =? 3))) with true by lia.
      simpl. f_equal. f_equal. lia.
Qed.

Lemma is_leap_days_in_year y : days_in_year y = 365 + (if _is_leap y then 1 else 0).
Proof. unfold days_in_year. destruct (_is_leap y); reflexivity. Qed.

Lemma month_cases m : 1 <= m <= 12 ->
  m = 1 \/ m = 2 \/ m = 3 \/ m = 4 \/ m = 5 \/ m = 6 \/
  m = 7 \/ m = 8 \/ m = 9 \/ m = 10 \/ m = 11 \/ m = 12.
Proof. lia. Qed.

Ltac month_split H :=
  apply month_cases in H; destruct H as
    [->|[->|[->|[->|[->|[->|[->|[->|[->|[->|[->| ->]]]]]]]]]]].

Ltac cal_simpl :=
  cbn [_DAYS_IN_MONTH _DAYS_BEFORE_MONTH Z.eqb Z.gtb Z.compare Pos.compare
       Pos.compare_cont Pos.eqb andb] in *.

(** The month and the day found for the [k]-th day of a year. *)
Lemma ord2md_spec (leap : bool) k :
  0 <= k < 365 + (if leap then 1 else 0) ->
  exists m d,
    _ord2md leap k = (m, d) /\ 1 <= m <= 12 /\
    1 <= d <= _DAYS_IN_MONTH m + (if (m =? 2) && leap then 1 else 0) /\
    _DAYS_BEFORE_MONTH m + (if (m >? 2) && leap then 1 else 0) + d = k + 1.
Proof.
  intros Hk. unfold _ord2md. rewrite Z.shiftr_div_pow2 by lia.
  change (2 ^ 5) with 32.
  assert (Hq : (k + 50) / 32 * 32 <= k + 50 < (k + 50) / 32 * 32 + 32)
    by (Z.to_euclidean_division_equations; lia).
  assert (Hm : 1 <= (k + 50) / 32 <= 12) by (destruct leap; lia).
  revert Hq. generalize dependent ((k + 50) / 32). intros m0 Hm Hq.
  month_split Hm; destruct leap; simpl;
    match goal with
    | |- context [if ?b then _ else _] => destruct b eqn:E
    end;
    (eexists; eexists; split; [reflexivity|]);
    cbn [_DAYS_IN_MONTH _DAYS_BEFORE_MONTH Z.eqb Z.gtb Z.compare Pos.compare
           Pos.compare_cont Pos.eqb andb];
    lia.
Qed.

(** A year on, the days before it grow by the length of the year. *)
Lemma dby_succ y : _days_before_year (y + 1) = _days_before_year y + days_in_year y.
Proof.
  unfold _days_before_year, days_in_year, _is_leap. cbv zeta.
  replace (y + 1 - 1) with y by lia.
  destruct (y mod 4 =? 0) eqn:E4, (y mod 100 =? 0) eqn:E100,
    (y mod 400 =? 0) eqn:E400; simpl;
    rewrite ?Z.eqb_eq, ?Z.eqb_neq in *;
    Z.to_euclidean_division_equations; lia.
Qed.

Lemma days_in_year_pos y : 365 <= days_in_year y <= 366.
Proof. unfold days_in_year. destruct (_is_leap y); lia. Qed.

(** Every ordinal from 1 on is a day of some year. *)
Lemma ordinal_in_some_year n :
  1 <= n -> exists y k, 1 <= y /\ 0 <= k < days_in_year y /\ n = _days_before_year y + k + 1.
Proof.
  intros Hn. replace n with (1 + (n - 1)) by lia.
  assert (H0 : 0 <= n - 1) by lia. revert H0. generalize (n - 1). clear.
  apply (natlike_ind
           (fun z => exists y k, 1 <= y /\ 0 <= k < days_in_year y /\
                       1 + z = _days_before_year y + k + 1)).
  - exists 1, 0. pose proof (days_in_year_pos 1). repeat split; try lia. 
  - intros z Hz (y & k & Hy & Hk & E).
    destruct (Z.eq_dec (k + 1) (days_in_year y)) as [Elast|Hne].
    + exists (y + 1), 0. pose proof (days_in_year_pos (y + 1)). rewrite dby_succ.
      repeat split; lia.
    + exists y, (k + 1). repeat split; lia.
Qed.

Lemma dby_mono y1 y2 : y1 < y2 -> _days_before_year y1 + days_in_year y1 <= _days_before_year y2.
Proof.
  intros H12. replace y2 with (y1 + 1 + (y2 - y1 - 1)) by lia.
  assert (H0 : 0 <= y2 - y1 - 1) by lia. revert H0. generalize (y2 - y1 - 1).
  apply (natlike_ind
           (fun z => _days_before_year y1 + days_in_year y1
                     <= _days_before_year (y1 + 1 + z))).
  - rewrite Z.add_0_r, dby_succ. lia.
  - intros z Hz IH. replace (y1 + 1 + Z.succ z) with (y1 + 1 + z + 1) by lia.
    rewrite dby_succ. pose proof (days_in_year_pos (y1 + 1 + z)). lia.
Qed.

Lemma ymd2ord_in_year y m d :
  1 <= m <= 12 -> 1 <= d <= _days_in_month y m ->
  exists k, 0 <= k < days_in_year y /\ _ymd2ord y m d = _days_before_year y + k + 1
    /\ _ord2md (_is_leap y) k = (m, d).
Proof.
  intros Hm Hd. unfold _ymd2ord, _days_in_month, _days_before_month in *.
  exists (_DAYS_BEFORE_MONTH m + (if (m >? 2) && _is_leap y then 1 else 0) + d - 1).
  rewrite is_leap_days_in_year.
  assert (Hk : 0 <=
     _DAYS_BEFORE_MONTH m + (if (m >? 2) && _is_leap y then 1 else 0) + d - 1 <
     365 + (if _is_leap y then 1 else 0)).
  { pose proof Hm as Hm2. month_split Hm2; destruct (_is_leap y); cal_simpl; lia. }
  split; [exact Hk|]. split; [lia|].
  destruct (ord2md_spec _ _ Hk) as (m' & d' & E & Hm' & Hd' & Hs).
  rewrite E.
  assert (m' = m).
  { clear E Hk. month_split Hm; month_split Hm'; try reflexivity; exfalso;
      destruct (_is_leap y); cal_simpl; lia. }
  subst m'. f_equal. lia.
Qed.

(** The date of the ordinal of a date is that date. *)
Theorem ord2ymd_ymd2ord y m d :
  1 <= y -> 1 <= m <= 12 -> 1 <= d <= _days_in_month y m ->
  _ord2ymd (_ymd2ord y m d) = (y, m, d).
Proof.
  intros Hy Hm Hd.
  destruct (ymd2ord_in_year y m d Hm Hd) as (k & Hk & E & Emd).
  rewrite E, ord2ymd_in_year by assumption. rewrite Emd. reflexivity.
Qed.

(** The ordinal of the date of an ordinal is that ordinal, and the date is
    a date of the calendar. *)
Theorem ymd2ord_ord2ymd n :
  1 <= n ->
  exists y m d, _ord2ymd n = (y, m, d) /\ 1 <= y /\ 1 <= m <= 12 /\
    1 <= d <= _days_in_month y m /\ _ymd2ord y m d = n.
Proof.
  intros Hn. destruct (ordinal_in_some_year n Hn) as (y & k & Hy & Hk & ->).
  rewrite ord2ymd_in_year by assumption.
  rewrite is_leap_days_in_year in Hk.
  destruct (ord2md_spec _ _ Hk) as (m & d & E & Hm & Hd & Hs).
  rewrite E. exists y, m, d. unfold _ymd2ord, _days_in_month, _days_before_month.
  repeat split; try lia.
  clear E. month_split Hm; destruct (_is_leap y); cal_simpl; lia.
Qed.

(** ** Arithmetic on civil fields *)

Lemma valid_naive_bounds f :
  Pendulum.valid_naive f ->
  1 <= year f <= 9999 /\ 1 <= month f <= 12 /\
  1 <= day f <= _days_in_month (year f) (month f) /\
  0 <= hour f <= 23 /\ 0 <= minute f <= 59 /\ 0 <= second f <= 59 /\
  0 <= microsecond f <= 999999.
Proof.
  unfold Pendulum.valid_naive, _check_date_fields, _check_time_fields, MINYEAR, MAXYEAR.
  lia.
Qed.

Lemma valid_naive_intro y m d h mi s us :
  1 <= y <= 9999 -> 1 <= m <= 12 -> 1 <= d <= _days_in_month y m ->
  0 <= h <= 23 -> 0 <= mi <= 59 -> 0 <= s <= 59 -> 0 <= us <= 999999 ->
  Pendulum.valid_naive (mknaive y m d h mi s us).
Proof.
  unfold Pendulum.valid_naive, _check_date_fields, _check_time_fields, MINYEAR, MAXYEAR.
  simpl. lia.
Qed.

Lemma naive_microseconds_split f :
  naive_microseconds f = toordinal f * US_PER_DAY + time_of_day f.
Proof. unfold naive_microseconds, time_of_day, US_PER_DAY, US_PER_SECOND. lia. Qed.

Lemma time_of_day_range f :
  Pendulum.valid_naive f -> 0 <= time_of_day f < US_PER_DAY.
Proof.
  intros H. apply valid_naive_bounds in H.
  unfold time_of_day, US_PER_DAY, US_PER_SECOND. lia.
Qed.

Lemma dby_nonneg y : 1 <= y -> 0 <= _days_before_year y.
Proof.
  intros Hy. unfold _days_before_year. cbv zeta.
  Z.to_euclidean_division_equations. lia.
Qed.

(** The ordinal of a date of the years 1 to 9999. *)
Lemma toordinal_range f :
  Pendulum.valid_naive f -> 1 <= toordinal f <= _MAXORDINAL.
Proof.
  intros H. apply valid_naive_bounds in H.
  destruct H as (Hy & Hm & Hd & _).
  destruct (ymd2ord_in_year _ _ _ Hm Hd) as (k & Hk & E & _).
  unfold toordinal. rewrite E.
  pose proof (dby_nonneg _ (proj1 Hy)).
  split; [lia|].
  destruct (Z.eq_dec (year f) 9999) as [Ey|Hne].
  - rewrite Ey in *. change (_days_before_year 9999) with 3651694.
    change (days_in_year 9999) with 365 in Hk. unfold _MAXORDINAL. lia.
  - assert (Hlt : year f < 9999) by lia.
    pose proof (dby_mono _ _ Hlt) as Hmono.
    change (_days_before_year 9999) with 3651694 in Hmono.
    unfold _MAXORDINAL. lia.
Qed.

Lemma time_fields_of_seconds h mi s :
  0 <= h <= 23 -> 0 <= mi <= 59 -> 0 <= s <= 59 ->
  let secs := (h * 60 + mi) * 60 + s in
  secs / 3600 = h /\ secs mod 3600 / 60 = mi /\ secs mod 3600 mod 60 = s.
Proof. intros. subst secs. Z.to_euclidean_division_equations; lia. Qed.

Lemma fromordinal_time_spec f o :
  Pendulum.valid_naive f ->
  fromordinal_time o (time_of_day f / US_PER_SECOND) (time_of_day f mod US_PER_SECOND)
  = on_ordinal f o.
Proof.
  intros H. apply valid_naive_bounds in H.
  destruct H as (_ & _ & _ & Hh & Hmi & Hs & Hus).
  unfold fromordinal_time, on_ordinal. destruct (_ord2ymd o) as [[y m] d].
  assert (E1 : time_of_day f / US_PER_SECOND = (hour f * 60 + minute f) * 60 + second f).
  { unfold time_of_day, US_PER_SECOND. Z.to_euclidean_division_equations; lia. }
  assert (E2 : time_of_day f mod US_PER_SECOND = microsecond f).
  { unfold time_of_day, US_PER_SECOND. Z.to_euclidean_division_equations; lia. }
  rewrite E1, E2.
  destruct (time_fields_of_seconds _ _ _ Hh Hmi Hs) as (-> & -> & ->).
  reflexivity.
Qed.

(** Adding a [timedelta] to civil fields: the day is the whole days of the
    sum, the time of day is its remainder. *)
Lemma naive_add_total f td total :
  naive_microseconds f + td_total_microseconds td = total ->
  1 <= total / US_PER_DAY <= _MAXORDINAL ->
  naive_add f td =
    Ok (fromordinal_time (total / US_PER_DAY)
          (total mod US_PER_DAY / US_PER_SECOND)
          (total mod US_PER_DAY mod US_PER_SECOND)).
Proof.
  intros Et Hr. unfold naive_add, timedelta_of_microseconds.
  rewrite Et. cbv zeta.
  replace ((-999999999 <=? total / US_PER_DAY) && (total / US_PER_DAY <=? 999999999))
    with true by (unfold _MAXORDINAL in Hr; lia).
  simpl.
  replace ((0 <? total / US_PER_DAY) && (total / US_PER_DAY <=? _MAXORDINAL))
    with true by lia.
  reflexivity.
Qed.

(** Adding whole days keeps the time of day. *)
Lemma naive_add_days f k :
  Pendulum.valid_naive f ->
  1 <= toordinal f + k <= _MAXORDINAL ->
  naive_add f (mktimedelta k 0 0) = Ok (on_ordinal f (toordinal f + k)).
Proof.
  intros Hv Hr.
  pose proof (time_of_day_range f Hv) as Ht.
  assert (E : naive_microseconds f + td_total_microseconds (mktimedelta k 0 0)
              = US_PER_DAY * (toordinal f + k) + time_of_day f).
  { rewrite naive_microseconds_split.
    unfold td_total_microseconds, US_PER_DAY, US_PER_SECOND.
    cbn [td_days td_seconds td_microseconds]. lia. }
  destruct (div_mod_pos US_PER_DAY (toordinal f + k) (time_of_day f) Ht) as [Ed Em].
  rewrite (naive_add_total _ _ _ E); rewrite ?Ed, ?Em; auto.
  rewrite fromordinal_time_spec by assumption. reflexivity.
Qed.

Lemma naive_add_days_overflow f k :
  Pendulum.valid_naive f ->
  0 <= k -> _MAXORDINAL < toordinal f + k ->
  naive_add f (mktimedelta k 0 0) = Raise OverflowError.
Proof.
  intros Hv Hk Hr.
  pose proof (time_of_day_range f Hv) as Ht.
  assert (E : naive_microseconds f + td_total_microseconds (mktimedelta k 0 0)
              = US_PER_DAY * (toordinal f + k) + time_of_day f).
  { rewrite naive_microseconds_split.
    unfold td_total_microseconds, US_PER_DAY, US_PER_SECOND.
    cbn [td_days td_seconds td_microseconds]. lia. }
  destruct (div_mod_pos US_PER_DAY (toordinal f + k) (time_of_day f) Ht) as [Ed Em].
  unfold naive_add, timedelta_of_microseconds. rewrite E, Ed, Em. cbv zeta.
  destruct ((-999999999 <=? toordinal f + k) && (toordinal f + k <=? 999999999)); simpl; auto.
  replace ((0 <? toordinal f + k) && (toordinal f + k <=? _MAXORDINAL)) with false by lia.
  reflexivity.
Qed.

Lemma on_ordinal_valid f o :
  Pendulum.valid_naive f -> 1 <= o <= _MAXORDINAL ->
  Pendulum.valid_naive (on_ordinal f o) /\ toordinal (on_ordinal f o) = o.
Proof.
  intros Hv Ho. apply valid_naive_bounds in Hv.
  destruct Hv as (_ & _ & _ & Hh & Hmi & Hs & Hus).
  destruct (ymd2ord_ord2ymd o) as (y & m & d & E & Hy & Hm & Hd & Eo); [lia|].
  unfold on_ordinal. rewrite E. split.
  - apply valid_naive_intro; auto. split; [lia|].
    destruct (Z_le_gt_dec y 9999) as [Hle|Hgt]; auto. exfalso.
    assert (Hlt : 9999 < y) by lia.
    pose proof (dby_mono _ _ Hlt) as Hmono.
    change (_days_before_year 9999) with 3651694 in Hmono.
    change (days_in_year 9999) with 365 in Hmono.
    destruct (ymd2ord_in_year _ _ _ Hm Hd) as (k & Hk & E' & _).
    unfold _MAXORDINAL in Ho. lia.
  - unfold toordinal. simpl. exact Eo.
Qed.

(** What a successful addition leaves: the microseconds of the result are
    those of the receiver plus those of the [timedelta]. *)
Lemma naive_add_microseconds f td n :
  naive_add f td = Ok n ->
  naive_microseconds n = naive_microseconds f + td_total_microseconds td.
Proof.
  unfold naive_add, timedelta_of_microseconds.
  set (total := naive_microseconds f + td_total_microseconds td).
  cbv zeta.
  destruct ((-999999999 <=? total / US_PER_DAY) && (total / US_PER_DAY <=? 999999999));
    simpl; [|discriminate].
  destruct ((0 <? total / US_PER_DAY) && (total / US_PER_DAY <=? _MAXORDINAL)) eqn:Hr;
    [|discriminate].
  intros [= <-].
  destruct (ymd2ord_ord2ymd (total / US_PER_DAY)) as (y & m & d & E & Hy & Hm & Hd & Eo); [lia|].
  unfold fromordinal_time. rewrite E.
  unfold naive_microseconds, toordinal. simpl. rewrite Eo.
  clear. unfold US_PER_DAY, US_PER_SECOND.
  Z.to_euclidean_division_equations; lia.
Qed.

(** ** Methods of [Pendulum] *)

Import Pendulum.

Lemma with_fields_same self : with_fields self (fields (_datetime self)) = self.
Proof. destruct self as [tz [f ti]]. reflexivity. Qed.

Lemma on_ordinal_same f : valid_naive f -> on_ordinal f (toordinal f) = f.
Proof.
  intros Hv. apply valid_naive_bounds in Hv. destruct Hv as (Hy & Hm & Hd & _).
  unfold on_ordinal, toordinal. rewrite ord2ymd_ymd2ord by lia.
  destruct f; reflexivity.
Qed.

Lemma on_ordinal_twice f a b : on_ordinal (on_ordinal f a) b = on_ordinal f b.
Proof.
  unfold on_ordinal. destruct (_ord2ymd a) as [[? ?] ?], (_ord2ymd b) as [[? ?] ?].
  reflexivity.
Qed.


Lemma digit_value_digit d : 0 <= d <= 9 -> digit_value (digit d) = Some d.
Proof.
  intros H.
  assert (C : d = 0 \/ d = 1 \/ d = 2 \/ d = 3 \/ d = 4 \/ d = 5 \/ d = 6 \/
              d = 7 \/ d = 8 \/ d = 9) by lia.
  repeat (destruct C as [->|C]; [reflexivity|]). subst d. reflexivity.
Qed.


(** [day_of_week] is the ordinal modulo 7: Sunday is 0. *)
Lemma day_of_week_ordinal platform self :
  day_of_week platform self = Ok (ordinal self mod 7).
Proof.
  unfold day_of_week, format, strftime. cbn.
  unfold strftime_directive. cbn.
  set (w := (PyDatetime.weekday (fields (_datetime self)) + 1) mod 7).
  assert (Hw : 0 <= w < 7) by (apply Z.mod_pos_bound; lia).
  replace (w / 1) with w by (symmetry; apply Z.div_1_r).
  rewrite Z.mod_small by lia.
  rewrite digit_value_digit by lia. cbn.
  f_equal. subst w. unfold PyDatetime.weekday, ordinal.
  Z.to_euclidean_division_equations; lia.
Qed.

Lemma set_time_spec self h mi s :
  valid_fields self -> 0 <= h <= 23 -> 0 <= mi <= 59 -> 0 <= s <= 59 ->
  set_time h mi s self =
  (with_fields self
     (let f := fields (_datetime self) in
      mknaive (PyDatetime.year f) (PyDatetime.month f) (PyDatetime.day f)
        h mi s (PyDatetime.microsecond f)), Ok tt).
Proof.
  intros Hv Hh Hmi Hs. apply valid_naive_bounds in Hv.
  unfold set_time, set_datetime, replace, datetime_new. cbn [or_default].
  replace (_check_date_fields _ _ _ && _check_time_fields h mi s _) with true.
  - reflexivity.
  - unfold _check_date_fields, _check_time_fields, MINYEAR, MAXYEAR. lia.
Qed.

Lemma start_of_day_spec self :
  valid_fields self ->
  start_of_day self =
  (with_fields self (at_midnight (fields (_datetime self))), Ok tt).
Proof. intros Hv. unfold start_of_day. rewrite set_time_spec by (auto; lia). reflexivity. Qed.

Lemma at_midnight_valid f : valid_naive f -> valid_naive (at_midnight f).
Proof.
  intros Hv. apply valid_naive_bounds in Hv. apply valid_naive_intro; simpl; lia.
Qed.

Lemma monthrange_valid y m :
  1 <= y <= 9999 -> 1 <= m <= 12 ->
  exists day1, PyCalendar.monthrange y m = Ok (day1, _days_in_month y m)
    /\ day1 = (_ymd2ord y m 1 + 6) mod 7.
Proof.
  intros Hy Hm. unfold PyCalendar.monthrange, PyCalendar.weekday.
  replace (_check_date_fields y m 1) with true.
  - eexists. split; [|reflexivity]. cbn [rbind]. f_equal. f_equal.
    unfold _days_in_month, PyCalendar.isleap.
    destruct ((m =? 2) && _is_leap y) eqn:E; [|lia].
    assert (m = 2) by lia. subst m. reflexivity.
  - unfold _check_date_fields, MINYEAR, MAXYEAR, _days_in_month.
    pose proof Hm as Hm2. month_split Hm2; destruct (_is_leap y); cal_simpl; lia.
Qed.

Lemma replace_same dt :
  valid_naive (fields dt) ->
  replace dt (Some (PyDatetime.year (fields dt))) (Some (PyDatetime.month (fields dt)))
    (Some (PyDatetime.day (fields dt))) None None None = Ok dt.
Proof.
  intros Hv. unfold replace, datetime_new. cbn [or_default].
  unfold valid_naive in Hv. rewrite Hv. destruct dt as [[] ?]. reflexivity.
Qed.

(** A delta without years, months or weekday is a plain [timedelta]. *)
Lemma radd_plain r dt :
  valid_naive (fields dt) ->
  Relativedelta.years r = 0 -> Relativedelta.months r = 0 ->
  Relativedelta.rd_weekday r = None ->
  Relativedelta.radd r dt =
  (td <- timedelta_new (Relativedelta.days r) (Relativedelta.hours r)
           (Relativedelta.minutes r) (Relativedelta.seconds r)
           (Relativedelta.microseconds r) ;;
   add_timedelta dt td).
Proof.
  intros Hv Ey Em Ew. pose proof (valid_naive_bounds _ Hv) as (Hy & Hm & Hd & _).
  unfold Relativedelta.radd. rewrite Ey, Em, Ew. cbn [Z.eqb].
  rewrite Z.add_0_r.
  destruct (monthrange_valid _ _ Hy Hm) as (day1 & -> & _). cbn [rbind snd].
  rewrite Z.min_r by lia. rewrite replace_same by assumption. cbn [rbind].
  destruct (timedelta_new _ _ _ _ _); cbn [rbind]; try reflexivity.
  destruct (add_timedelta dt a); reflexivity.
Qed.

Lemma add_day_spec self :
  valid_fields self -> ordinal self + 1 <= _MAXORDINAL ->
  add_day self =
  (with_fields self (on_ordinal (fields (_datetime self)) (ordinal self + 1)), Ok tt).
Proof.
  intros Hv Hr. pose proof (toordinal_range _ Hv).
  unfold add_day, add_days, add, set_datetime.
  change (Relativedelta.new 0 0 0 1 0 0 0 0 None)
    with (Ok (Relativedelta.mkrelativedelta 0 0 1 0 0 0 0 None)).
  cbn [rbind]. rewrite radd_plain by (auto; reflexivity).
  cbn [Relativedelta.days Relativedelta.hours Relativedelta.minutes
       Relativedelta.seconds Relativedelta.microseconds].
  change (timedelta_new 1 0 0 0 0) with (Ok (mktimedelta 1 0 0)).
  cbn [rbind]. unfold add_timedelta. unfold ordinal in *.
  rewrite naive_add_days by (auto; lia). reflexivity.
Qed.

Lemma add_day_overflow self :
  valid_fields self -> _MAXORDINAL < ordinal self + 1 ->
  add_day self = (self, Raise OverflowError).
Proof.
  intros Hv Hr.
  unfold add_day, add_days, add, set_datetime.
  change (Relativedelta.new 0 0 0 1 0 0 0 0 None)
    with (Ok (Relativedelta.mkrelativedelta 0 0 1 0 0 0 0 None)).
  cbn [rbind]. rewrite radd_plain by (auto; reflexivity).
  cbn [Relativedelta.days Relativedelta.hours Relativedelta.minutes
       Relativedelta.seconds Relativedelta.microseconds].
  change (timedelta_new 1 0 0 0 0) with (Ok (mktimedelta 1 0 0)).
  cbn [rbind]. unfold add_timedelta. unfold ordinal in *.
  rewrite naive_add_days_overflow by (auto; lia). reflexivity.
Qed.

Lemma ordinal_with_fields self n : ordinal (with_fields self n) = toordinal n.
Proof. reflexivity. Qed.

Lemma fields_with_fields self n : fields (_datetime (with_fields self n)) = n.
Proof. reflexivity. Qed.

Lemma with_fields_twice self a b :
  with_fields (with_fields self a) b = with_fields self b.
Proof. reflexivity. Qed.

Lemma toordinal_at_midnight f : toordinal (at_midnight f) = toordinal f.
Proof. reflexivity. Qed.


(** The loop of [next] stops on the first day from the receiver's on whose
    weekday is the target, given fuel for the days in between. *)
Lemma next_loop_spec platform fuel t :
  forall self j,
  valid_fields self -> 0 <= t <= 6 ->
  j = (t - ordinal self) mod 7 ->
  (Z.to_nat j <= fuel)%nat ->
  ordinal self + j <= _MAXORDINAL ->
  next_loop platform fuel t self =
  (with_fields self (on_ordinal (fields (_datetime self)) (ordinal self + j)), Ok tt).
Proof.
  induction fuel as [|fuel IH]; intros self j Hv Ht Ej Hfuel Hr;
    pose proof (toordinal_range _ Hv) as Ho; fold (ordinal self) in Ho;
    assert (Hj : 0 <= j < 7) by (subst j; apply Z.mod_pos_bound; lia);
    cbn [next_loop]; rewrite day_of_week_ordinal.
  - assert (j = 0) by lia. subst j.
    replace (ordinal self mod 7 =? t) with true
      by (Z.to_euclidean_division_equations; lia).
    rewrite H, Z.add_0_r. unfold ordinal.
    rewrite on_ordinal_same by exact Hv. rewrite with_fields_same. reflexivity.
  - destruct (ordinal self mod 7 =? t) eqn:E.
    + assert (j = 0) by (subst j; Z.to_euclidean_division_equations; lia).
      rewrite H, Z.add_0_r. unfold ordinal.
      rewrite on_ordinal_same by exact Hv. rewrite with_fields_same. reflexivity.
    + assert (Hj1 : 1 <= j) by (subst j; Z.to_euclidean_division_equations; lia).
      unfold mbind. rewrite add_day_spec by (auto; lia).
      set (self1 := with_fields self _).
      destruct (on_ordinal_valid (fields (_datetime self)) (ordinal self + 1))
        as [Hv1 Ho1]; [exact Hv|lia|].
      assert (Hvs : valid_fields self1) by exact Hv1.
      assert (Eo : ordinal self1 = ordinal self + 1) by exact Ho1.
      assert (Ej1 : j - 1 = (t - ordinal self1) mod 7)
        by (rewrite Eo; subst j; Z.to_euclidean_division_equations; lia).
      rewrite (IH self1 (j - 1)); auto; rewrite ?Eo; try lia.
      subst self1. rewrite with_fields_twice, fields_with_fields, on_ordinal_twice.
      do 3 f_equal. lia.
Qed.

Lemma at_midnight_on_ordinal f o :
  at_midnight (on_ordinal f o) = on_ordinal (at_midnight f) o.
Proof. unfold on_ordinal, at_midnight. destruct (_ord2ymd o) as [[? ?] ?]. reflexivity. Qed.

(** [next(target)]: midnight of the first day after the receiver's whose
    weekday is the target. *)
Lemma next_spec platform fuel t self :
  valid_fields self -> 0 <= t <= 6 -> (6 <= fuel)%nat ->
  next_ordinal (ordinal self) t <= _MAXORDINAL ->
  next platform fuel (Some t) self =
  (with_fields self
     (on_ordinal (at_midnight (fields (_datetime self)))
        (next_ordinal (ordinal self) t)), Ok tt).
Proof.
  intros Hv Ht Hfuel Hr. unfold next_ordinal in *.
  pose proof (toordinal_range _ Hv) as Ho. fold (ordinal self) in Ho.
  assert (Hj : 0 <= (t - (ordinal self + 1)) mod 7 < 7) by (apply Z.mod_pos_bound; lia).
  unfold next, mbind, this, mret.
  rewrite start_of_day_spec by assumption.
  set (self0 := with_fields self _).
  assert (Hv0 : valid_fields self0) by (apply at_midnight_valid, Hv).
  assert (Eo0 : ordinal self0 = ordinal self) by reflexivity.
  rewrite add_day_spec by (auto; lia).
  set (self1 := with_fields self0 _).
  destruct (on_ordinal_valid (fields (_datetime self0)) (ordinal self0 + 1))
    as [Hv1 Ho1]; [exact Hv0|lia|].
  assert (Hvs : valid_fields self1) by exact Hv1.
  assert (Eo : ordinal self1 = ordinal self + 1) by (rewrite <- Eo0; exact Ho1).
  rewrite (next_loop_spec platform fuel t self1 ((t - (ordinal self + 1)) mod 7));
    auto; rewrite ?Eo; try lia.
  subst self1 self0.
  rewrite !with_fields_twice, !fields_with_fields, on_ordinal_twice.
  reflexivity.
Qed.

Lemma next_overflow platform fuel t self :
  valid_fields self -> 0 <= t <= 6 -> (6 <= fuel)%nat ->
  _MAXORDINAL < next_ordinal (ordinal self) t ->
  exists self', next platform fuel (Some t) self = (self', Raise OverflowError).
Proof.
  intros Hv Ht Hfuel Hr. unfold next_ordinal in *.
  pose proof (toordinal_range _ Hv) as Ho. fold (ordinal self) in Ho.
  unfold next, mbind, this, mret.
  rewrite start_of_day_spec by assumption.
  set (self0 := with_fields self _).
  assert (Hv0 : valid_fields self0) by (apply at_midnight_valid, Hv).
  assert (Eo0 : ordinal self0 = ordinal self) by reflexivity.
  clearbody self0.
  assert (Hgen : forall fuel self1, valid_fields self1 ->
            (Z.to_nat ((t - ordinal self1) mod 7) <= fuel)%nat ->
            _MAXORDINAL < ordinal self1 + (t - ordinal self1) mod 7 ->
            exists self', next_loop platform fuel t self1 = (self', Raise OverflowError)).
  { clear. intros fuel. induction fuel as [|fuel IH]; intros self1 Hv1 Hf Hr1;
      pose proof (toordinal_range _ Hv1) as Ho1; fold (ordinal self1) in Ho1;
      assert (Hj : 0 <= (t - ordinal self1) mod 7 < 7) by (apply Z.mod_pos_bound; lia).
    - exfalso. lia.
    - cbn [next_loop]. rewrite day_of_week_ordinal.
      destruct (ordinal self1 mod 7 =? t) eqn:E.
      + exfalso. assert ((t - ordinal self1) mod 7 = 0)
          by (Z.to_euclidean_division_equations; lia). lia.
      + unfold mbind.
        destruct (Z_le_gt_dec (ordinal self1 + 1) _MAXORDINAL) as [Hle|Hgt].
        * rewrite add_day_spec by (auto; lia).
          destruct (on_ordinal_valid (fields (_datetime self1)) (ordinal self1 + 1))
            as [Hv2 Ho2]; [exact Hv1|lia|].
          assert (E1 : (t - (ordinal self1 + 1)) mod 7 = (t - ordinal self1) mod 7 - 1)
            by (Z.to_euclidean_division_equations; lia).
          apply IH.
          -- exact Hv2.
          -- rewrite ordinal_with_fields, Ho2, E1. lia.
          -- rewrite ordinal_with_fields, Ho2, E1. lia.
        * rewrite add_day_overflow by (auto; lia). eexists; reflexivity. }
  destruct (Z_le_gt_dec (ordinal self0 + 1) _MAXORDINAL) as [Hle|Hgt].
  - rewrite add_day_spec by (auto; lia).
    destruct (on_ordinal_valid (fields (_datetime self0)) (ordinal self0 + 1))
      as [Hv1 Ho1]; [exact Hv0|lia|].
    apply Hgen.
    + exact Hv1.
    + rewrite ordinal_with_fields, Ho1, Eo0.
      assert (0 <= (t - (ordinal self + 1)) mod 7 < 7) by (apply Z.mod_pos_bound; lia). lia.
    + rewrite ordinal_with_fields, Ho1, Eo0. lia.
  - rewrite add_day_overflow by (auto; lia). eexists; reflexivity.
Qed.

(** [count] calls of [next(target)] in a row, [count] being at least 1: the
    first reaches the next day of that weekday, each later one the same
    weekday a week on. *)
Lemma next_times_spec platform fuel t count :
  forall self,
  valid_fields self -> 0 <= t <= 6 -> (6 <= fuel)%nat ->
  next_ordinal (ordinal self) t + 7 * Z.of_nat count <= _MAXORDINAL ->
  next_times platform fuel (S count) (Some t) self =
  (with_fields self
     (on_ordinal (at_midnight (fields (_datetime self)))
        (next_ordinal (ordinal self) t + 7 * Z.of_nat count)), Ok tt).
Proof.
  induction count as [|count IH]; intros self Hv Ht Hfuel Hr.
  - cbn [next_times]. unfold mbind. rewrite next_spec by (auto; lia).
    unfold mret. rewrite Z.mul_0_r, Z.add_0_r. reflexivity.
  - change (next_times platform fuel (S (S count)) (Some t))
      with (next platform fuel (Some t) ;;; next_times platform fuel (S count) (Some t)).
    unfold mbind at 1.
    pose proof (toordinal_range _ Hv) as Ho. fold (ordinal self) in Ho.
    assert (Hn : ordinal self < next_ordinal (ordinal self) t <= ordinal self + 7).
    { unfold next_ordinal.
      assert (0 <= (t - (ordinal self + 1)) mod 7 < 7) by (apply Z.mod_pos_bound; lia). lia. }
    rewrite next_spec by (auto; lia).
    set (self1 := with_fields self _).
    destruct (on_ordinal_valid (at_midnight (fields (_datetime self)))
                (next_ordinal (ordinal self) t)) as [Hv1 Ho1];
      [apply at_midnight_valid, Hv|lia|].
    assert (Hvs : valid_fields self1) by exact Hv1.
    assert (Eo : ordinal self1 = next_ordinal (ordinal self) t) by exact Ho1.
    assert (En : next_ordinal (ordinal self1) t = next_ordinal (ordinal self) t + 7).
    { rewrite Eo. unfold next_ordinal. Z.to_euclidean_division_equations; lia. }
    rewrite IH; auto; rewrite ?En; try lia.
    subst self1. rewrite with_fields_twice, fields_with_fields.
    rewrite at_midnight_on_ordinal, on_ordinal_twice.
    replace (at_midnight (at_midnight (fields (_datetime self))))
      with (at_midnight (fields (_datetime self))) by reflexivity.
    do 3 f_equal. lia.
Qed.

(** When the last of [count] calls of [next(target)] would pass the end of
    the calendar, [OverflowError] is raised on the way. *)
Lemma next_times_overflow platform fuel t count :
  forall self,
  valid_fields self -> 0 <= t <= 6 -> (6 <= fuel)%nat ->
  _MAXORDINAL < next_ordinal (ordinal self) t + 7 * Z.of_nat count ->
  exists self',
    next_times platform fuel (S count) (Some t) self = (self', Raise OverflowError).
Proof.
  induction count as [|count IH]; intros self Hv Ht Hfuel Hr.
  - cbn [next_times]. unfold mbind.
    destruct (next_overflow platform fuel t self Hv Ht Hfuel) as [self' ->]; [lia|].
    eexists; reflexivity.
  - change (next_times platform fuel (S (S count)) (Some t))
      with (next platform fuel (Some t) ;;; next_times platform fuel (S count) (Some t)).
    unfold mbind at 1.
    pose proof (toordinal_range _ Hv) as Ho. fold (ordinal self) in Ho.
    destruct (Z_le_gt_dec (next_ordinal (ordinal self) t) _MAXORDINAL) as [Hle|Hgt].
    + assert (Hn : ordinal self < next_ordinal (ordinal self) t).
      { unfold next_ordinal.
        pose proof (Z.mod_pos_bound (t - (ordinal self + 1)) 7 ltac:(lia)). lia. }
      rewrite next_spec by (auto; lia).
      destruct (on_ordinal_valid (at_midnight (fields (_datetime self)))
                  (next_ordinal (ordinal self) t)) as [Hv1 Ho1];
        [apply at_midnight_valid, Hv|lia|].
      apply IH; auto.
      rewrite ordinal_with_fields, Ho1.
      assert (En : next_ordinal (next_ordinal (ordinal self) t) t
                   = next_ordinal (ordinal self) t + 7).
      { unfold next_ordinal. Z.to_euclidean_division_equations; lia. }
      rewrite En. lia.
    + destruct (next_overflow platform fuel t self Hv Ht Hfuel) as [self' ->]; [lia|].
      eexists; reflexivity.
Qed.

Lemma set_day_spec self v :
  valid_fields self ->
  1 <= v <= _days_in_month (year self) (month self) ->
  set_day v self =
  (with_fields self
     (let f := fields (_datetime self) in
      mknaive (PyDatetime.year f) (PyDatetime.month f) v (PyDatetime.hour f)
        (PyDatetime.minute f) (PyDatetime.second f) (PyDatetime.microsecond f)),
   Ok tt).
Proof.
  intros Hv Hd. apply valid_naive_bounds in Hv.
  unfold set_day, set_datetime, replace, datetime_new. cbn [or_default].
  unfold year, month in Hd.
  replace (_check_date_fields _ _ v && _check_time_fields _ _ _ _) with true.
  - reflexivity.
  - unfold _check_date_fields, _check_time_fields, MINYEAR, MAXYEAR. lia.
Qed.

Lemma seven_cases x : 0 <= x <= 6 ->
  x = 0 \/ x = 1 \/ x = 2 \/ x = 3 \/ x = 4 \/ x = 5 \/ x = 6.
Proof. lia. Qed.

Lemma month_length_cases n : 28 <= n <= 31 -> n = 28 \/ n = 29 \/ n = 30 \/ n = 31.
Proof. lia. Qed.

(** The rows of a month: the column of a weekday holds, in the first two
    rows, the first day of the month on that weekday, and in the last two
    rows the last one. *)
Lemma pick_day_rows day1 ndays c :
  0 <= day1 <= 6 -> 28 <= ndays <= 31 -> 0 <= c <= 6 ->
  let days := (PyCalendar.zeros ((day1 - 0) mod 7) ++ PyCalendar.days_1_to ndays
               ++ PyCalendar.zeros ((0 - day1 - ndays) mod 7))%list in
  let rows := PyCalendar.weeks (Z.to_nat ((Z.of_nat (List.length days) + 6) / 7)) days in
  pick_day rows 0 1 c = Ok ((c - day1) mod 7 + 1) /\
  pick_day rows (-1) (-2) c = Ok (ndays - (day1 + ndays - 1 - c) mod 7).
Proof.
  intros Hd Hn Hc.
  apply seven_cases in Hd. apply month_length_cases in Hn. apply seven_cases in Hc.
  repeat (destruct Hd as [->|Hd]); try subst day1;
    repeat (destruct Hn as [->|Hn]); try subst ndays;
    repeat (destruct Hc as [->|Hc]); try subst c;
    split; vm_compute; reflexivity.
Qed.

Lemma days_in_month_range y m : 1 <= m <= 12 -> 28 <= _days_in_month y m <= 31.
Proof.
  intros Hm. unfold _days_in_month.
  month_split Hm; destruct (_is_leap y); cal_simpl; lia.
Qed.

Lemma monthcalendar_rows y m :
  1 <= y <= 9999 -> 1 <= m <= 12 ->
  forall c, 0 <= c <= 6 ->
  exists rows, PyCalendar.monthcalendar y m = Ok rows /\
    pick_day rows 0 1 c = Ok ((c - (_ymd2ord y m 1 + 6) mod 7) mod 7 + 1) /\
    pick_day rows (-1) (-2) c =
      Ok (_days_in_month y m
          - ((_ymd2ord y m 1 + 6) mod 7 + _days_in_month y m - 1 - c) mod 7).
Proof.
  intros Hy Hm c Hc.
  destruct (monthrange_valid y m Hy Hm) as (day1 & Emr & Eday1).
  unfold PyCalendar.monthcalendar, PyCalendar.itermonthdays. rewrite Emr.
  cbn [rbind]. eexists. split; [reflexivity|].
  rewrite <- Eday1.
  apply pick_day_rows; auto.
  - subst day1. assert (0 <= (_ymd2ord y m 1 + 6) mod 7 < 7) by (apply Z.mod_pos_bound; lia). lia.
  - apply days_in_month_range; assumption.
Qed.

Lemma toordinal_day y m d h mi s us :
  toordinal (mknaive y m d h mi s us) = _ymd2ord y m 1 + d - 1.
Proof. unfold toordinal, _ymd2ord. simpl. lia. Qed.

Lemma digit_inj a b : 0 <= a <= 9 -> 0 <= b <= 9 -> digit a = digit b -> a = b.
Proof.
  intros Ha Hb E. apply (f_equal digit_value) in E.
  rewrite !digit_value_digit in E by assumption. congruence.
Qed.

Lemma format_year_month platform self :
  format platform self "%Y-%m" = Ok (year_month_label (year self) (month self)).
Proof. reflexivity. Qed.

Lemma year_month_label_inj y m y' m' :
  0 <= y <= 9999 -> 0 <= y' <= 9999 -> 0 <= m <= 99 -> 0 <= m' <= 99 ->
  year_month_label y m = year_month_label y' m' -> y = y' /\ m = m'.
Proof.
  intros Hy Hy' Hm Hm'. unfold year_month_label. cbn [zero_padded String.append].
  change (10 ^ Z.of_nat 3) with 1000. change (10 ^ Z.of_nat 2) with 100.
  change (10 ^ Z.of_nat 1) with 10. change (10 ^ Z.of_nat 0) with 1.
  intros E. injection E as E1 E2 E3 E4 E5 E6.
  apply digit_inj in E1, E2, E3, E4, E5, E6;
    try (apply Z.mod_pos_bound; lia);
    try (assert (forall x, 0 <= x mod 10 <= 9)
           by (intros x; pose proof (Z.mod_pos_bound x 10); lia); auto).
  clear - Hy Hy' Hm Hm' E1 E2 E3 E4 E5 E6.
  split; Z.to_euclidean_division_equations; lia.
Qed.

Lemma year_month_label_eqb y m y' m' :
  0 <= y <= 9999 -> 0 <= y' <= 9999 -> 0 <= m <= 99 -> 0 <= m' <= 99 ->
  String.eqb (year_month_label y m) (year_month_label y' m')
  = (y =? y') && (m =? m').
Proof.
  intros Hy Hy' Hm Hm'.
  destruct (String.eqb_spec (year_month_label y m) (year_month_label y' m')) as [E|E].
  - apply year_month_label_inj in E; auto. lia.
  - destruct ((y =? y') && (m =? m')) eqn:B; auto.
    exfalso. apply E. assert (y = y' /\ m = m') as [-> ->] by lia. reflexivity.
Qed.

Lemma first_of_month_none self :
  valid_fields self ->
  first_of_month None self =
  (with_fields self
     (let f := fields (_datetime self) in
      mknaive (PyDatetime.year f) (PyDatetime.month f) 1 0 0 0
        (PyDatetime.microsecond f)), Ok tt).
Proof.
  intros Hv. pose proof (valid_naive_bounds _ Hv) as (Hy & Hm & Hd & _).
  unfold first_of_month, mbind. rewrite start_of_day_spec by assumption.
  rewrite set_day_spec.
  - reflexivity.
  - apply at_midnight_valid, Hv.
  - pose proof (days_in_month_range (PyDatetime.year (fields (_datetime self))) _ Hm).
    unfold year, month. simpl. lia.
Qed.

Lemma first_of_month_some self t :
  valid_fields self -> 0 <= t <= 6 ->
  first_of_month (Some t) self =
  (with_fields self
     (let f := fields (_datetime self) in
      mknaive (PyDatetime.year f) (PyDatetime.month f)
        ((t - _ymd2ord (PyDatetime.year f) (PyDatetime.month f) 1) mod 7 + 1)
        0 0 0 (PyDatetime.microsecond f)), Ok tt).
Proof.
  intros Hv Ht. pose proof (valid_naive_bounds _ Hv) as (Hy & Hm & Hd & _).
  unfold first_of_month, mbind, this, lift. rewrite start_of_day_spec by assumption.
  set (self0 := with_fields self _).
  assert (Hc : 0 <= (t - 1) mod 7 <= 6)
    by (pose proof (Z.mod_pos_bound (t - 1) 7); lia).
  destruct (monthcalendar_rows (year self0) (month self0) Hy Hm _ Hc)
    as (rows & -> & -> & _).
  pose proof (days_in_month_range (PyDatetime.year (fields (_datetime self))) _ Hm) as Hdim.
  set (o1 := _ymd2ord (year self0) (month self0) 1).
  assert (E : ((t - 1) mod 7 - (o1 + 6) mod 7) mod 7 + 1 = (t - o1) mod 7 + 1)
    by (Z.to_euclidean_division_equations; lia).
  rewrite E.
  rewrite set_day_spec.
  - reflexivity.
  - apply at_midnight_valid, Hv.
  - change (year self0) with (PyDatetime.year (fields (_datetime self))).
    change (month self0) with (PyDatetime.month (fields (_datetime self))).
    pose proof (Z.mod_pos_bound (t - o1) 7). lia.
Qed.

Lemma last_of_month_some self t :
  valid_fields self -> 0 <= t <= 6 ->
  last_of_month (Some t) self =
  (with_fields self
     (let f := fields (_datetime self) in
      let dim := _days_in_month (PyDatetime.year f) (PyDatetime.month f) in
      mknaive (PyDatetime.year f) (PyDatetime.month f)
        (dim - (_ymd2ord (PyDatetime.year f) (PyDatetime.month f) 1 + dim - 1 - t) mod 7)
        0 0 0 (PyDatetime.microsecond f)), Ok tt).
Proof.
  intros Hv Ht. pose proof (valid_naive_bounds _ Hv) as (Hy & Hm & Hd & _).
  unfold last_of_month, mbind, this, lift. rewrite start_of_day_spec by assumption.
  set (self0 := with_fields self _).
  assert (Hc : 0 <= (t - 1) mod 7 <= 6)
    by (pose proof (Z.mod_pos_bound (t - 1) 7); lia).
  destruct (monthcalendar_rows (year self0) (month self0) Hy Hm _ Hc)
    as (rows & -> & _ & ->).
  pose proof (days_in_month_range (PyDatetime.year (fields (_datetime self))) _ Hm) as Hdim.
  set (o1 := _ymd2ord (year self0) (month self0) 1).
  set (dim := _days_in_month (year self0) (month self0)).
  assert (E : dim - ((o1 + 6) mod 7 + dim - 1 - (t - 1) mod 7) mod 7
              = dim - (o1 + dim - 1 - t) mod 7)
    by (Z.to_euclidean_division_equations; lia).
  rewrite E.
  rewrite set_day_spec.
  - reflexivity.
  - apply at_midnight_valid, Hv.
  - change (year self0) with (PyDatetime.year (fields (_datetime self))) in *.
    change (month self0) with (PyDatetime.month (fields (_datetime self))) in *.
    pose proof (Z.mod_pos_bound (o1 + dim - 1 - t) 7). subst dim. lia.
Qed.

Lemma copy_spec localize get_localzone timezone self :
  valid_fields self ->
  copy localize get_localzone timezone self =
  Ok (mkPendulum (dt_tzinfo (_datetime self))
        (mkdatetime (fields (_datetime self))
           (localize (dt_tzinfo (_datetime self)) (fields (_datetime self))))).
Proof.
  intros Hv. unfold copy, instance, __init__, _safe_create_datetime_zone, datetime_new.
  cbn [rbind]. unfold valid_naive in Hv. rewrite Hv.
  destruct (fields (_datetime self)). reflexivity.
Qed.

(** The days of a month are the ordinals from that of its first day on. *)
Lemma ord2ymd_in_month y m d :
  1 <= y -> 1 <= m <= 12 -> 1 <= d <= _days_in_month y m ->
  _ord2ymd (_ymd2ord y m 1 + d - 1) = (y, m, d).
Proof.
  intros Hy Hm Hd. replace (_ymd2ord y m 1 + d - 1) with (_ymd2ord y m d)
    by (unfold _ymd2ord; lia).
  apply ord2ymd_ymd2ord; assumption.
Qed.

(** An ordinal past the last day of a month is not in that month. *)
Lemma ord2ymd_past_month y m d :
  1 <= y -> 1 <= m <= 12 -> _days_in_month y m < d ->
  forall y' m' d', _ord2ymd (_ymd2ord y m 1 + d - 1) = (y', m', d') ->
  (y' =? y) && (m' =? m) = false.
Proof.
  intros Hy Hm Hd y' m' d' E.
  pose proof (days_in_month_range y m Hm) as Hdim.
  assert (H1 : 1 <= _ymd2ord y m 1).
  { destruct (ymd2ord_in_year y m 1 Hm ltac:(lia)) as (k & Hk & Ek & _).
    pose proof (dby_nonneg y Hy). lia. }
  destruct (ymd2ord_ord2ymd (_ymd2ord y m 1 + d - 1)) as (y2 & m2 & d2 & E2 & Hy2 & Hm2 & Hd2 & Eo);
    [lia|].
  rewrite E in E2. injection E2 as <- <- <-.
  destruct ((y' =? y) && (m' =? m)) eqn:B; auto. exfalso.
  assert (y' = y /\ m' = m) as [-> ->] by lia.
  unfold _ymd2ord in Eo. lia.
Qed.

(** [nth_of_month(nth, target)] for [nth] from 2 on: the day of the [nth]
    target weekday, counted from the first day of the month, is looked for by
    walking a copy; it is taken when it is in the month and given up
    otherwise. *)
Lemma nth_of_month_spec platform localize get_localzone timezone fuel nth t self :
  valid_fields self -> 0 <= t <= 6 -> 2 <= nth -> (6 <= fuel)%nat ->
  let f := fields (_datetime self) in
  let o1 := _ymd2ord (PyDatetime.year f) (PyDatetime.month f) 1 in
  let d := (t - o1) mod 7 + 1 + 7 * (nth - 1) in
  o1 + d - 1 <= _MAXORDINAL ->
  nth_of_month platform localize get_localzone timezone fuel nth (Some t) self =
  if d <=? _days_in_month (PyDatetime.year f) (PyDatetime.month f)
  then (with_fields self
          (mknaive (PyDatetime.year f) (PyDatetime.month f) d 0 0 0
             (PyDatetime.microsecond f)), Ok ReturnsSelf)
  else (self, Ok ReturnsFalse).
Proof.
  intros Hv Ht Hnth Hfuel f o1 d Hr.
  pose proof (valid_naive_bounds _ Hv) as (Hy & Hm & Hd & Hh & Hmi & Hs & Hus).
  fold f in Hy, Hm, Hd, Hh, Hmi, Hs, Hus.
  pose proof (days_in_month_range (PyDatetime.year f) _ Hm) as Hdim.
  pose proof (Z.mod_pos_bound (t - o1) 7 ltac:(lia)) as Hmod.
  unfold nth_of_month. replace (nth =? 1) with false by lia.
  unfold mbind at 1. unfold this at 1. unfold mbind at 1. unfold lift at 1.
  rewrite copy_spec by assumption. fold f.
  set (c := mkPendulum _ _).
  assert (Hvc : valid_fields c) by exact Hv.
  unfold on at 1. rewrite first_of_month_none by assumption.
  set (dt0 := with_fields c _).
  assert (Hv0 : valid_fields dt0).
  { subst dt0 c. cbn [with_fields _datetime fields dt_tzinfo _tz].
    apply valid_naive_intro; fold f; auto; try lia. }
  assert (Eo0 : ordinal dt0 = o1) by (unfold ordinal; simpl; unfold toordinal; simpl; reflexivity).
  unfold mbind at 1. unfold lift at 1. rewrite format_year_month.
  unfold mbind at 1. unfold lift at 1. rewrite day_of_week_ordinal.
  rewrite Eo0. cbn [option_Z_eqb].
  set (count := nth - (if o1 mod 7 =? t then 1 else 0)).
  assert (Hcount : 1 <= count) by (subst count; destruct (o1 mod 7 =? t); lia).
  destruct (Z.to_nat count) as [|count'] eqn:Ecount; [lia|].
  assert (Efinal : next_ordinal o1 t + 7 * Z.of_nat count' = o1 + d - 1).
  { assert (Z.of_nat count' = count - 1) by lia.
    unfold next_ordinal. subst count d.
    destruct (o1 mod 7 =? t) eqn:E; Z.to_euclidean_division_equations; lia. }
  unfold on at 1.
  rewrite next_times_spec; auto; rewrite ?Eo0, ?Efinal; try lia.
  set (dtN := with_fields dt0 _).
  unfold mbind at 1. unfold lift at 1. rewrite format_year_month.
  assert (Hy1 : 1 <= _ymd2ord (PyDatetime.year f) (PyDatetime.month f) 1).
  { destruct (ymd2ord_in_year (PyDatetime.year f) (PyDatetime.month f) 1 Hm ltac:(lia))
      as (k & Hk & Ek & _).
    pose proof (dby_nonneg (PyDatetime.year f) ltac:(lia)). lia. }
  fold o1 in Hy1.
  destruct (on_ordinal_valid (at_midnight (fields (_datetime dt0))) (o1 + d - 1))
    as [HvN EoN]; [apply at_midnight_valid, Hv0|lia|].
  pose proof (valid_naive_bounds _ HvN) as (HyN & HmN & _).
  change (year dt0) with (PyDatetime.year f). change (month dt0) with (PyDatetime.month f).
  assert (HyN' : 1 <= year dtN <= 9999) by exact HyN.
  assert (HmN' : 1 <= month dtN <= 12) by exact HmN.
  rewrite year_month_label_eqb by lia.
  destruct (d <=? _days_in_month (PyDatetime.year f) (PyDatetime.month f)) eqn:Ed.
  - assert (EN : fields (_datetime dtN)
                 = mknaive (PyDatetime.year f) (PyDatetime.month f) d 0 0 0
                     (PyDatetime.microsecond f)).
    { subst dtN. rewrite fields_with_fields. unfold on_ordinal.
      change (o1 + d - 1)
        with (_ymd2ord (PyDatetime.year f) (PyDatetime.month f) 1 + d - 1).
      rewrite ord2ymd_in_month by lia. reflexivity. }
    unfold year, month, day. rewrite EN. cbn [PyDatetime.year PyDatetime.month PyDatetime.day].
    rewrite !Z.eqb_refl. cbn [andb].
    unfold mbind, mret. rewrite set_day_spec; [|assumption|unfold year, month; fold f; lia].
    rewrite start_of_day_spec.
    + reflexivity.
    + apply valid_naive_intro; fold f; auto; lia.
  - destruct (_ord2ymd (o1 + d - 1)) as [[y' m'] d'] eqn:Eymd.
    assert (B : (y' =? PyDatetime.year f) && (m' =? PyDatetime.month f) = false).
    { apply (ord2ymd_past_month _ _ d) with (d' := d'); auto; lia. }
    assert (EN : year dtN = y' /\ month dtN = m').
    { subst dtN. unfold year, month. rewrite fields_with_fields. unfold on_ordinal.
      rewrite Eymd. split; reflexivity. }
    destruct EN as [-> ->]. rewrite B. reflexivity.
Qed.

(** [nth_of_month] on an occurrence past the end of the calendar: the walk
    of the copy raises, and the receiver is as it was. *)
Lemma nth_of_month_overflow platform localize get_localzone timezone fuel nth t self :
  valid_fields self -> 0 <= t <= 6 -> 2 <= nth -> (6 <= fuel)%nat ->
  let f := fields (_datetime self) in
  let o1 := _ymd2ord (PyDatetime.year f) (PyDatetime.month f) 1 in
  let d := (t - o1) mod 7 + 1 + 7 * (nth - 1) in
  _MAXORDINAL < o1 + d - 1 ->
  nth_of_month platform localize get_localzone timezone fuel nth (Some t) self
  = (self, Raise OverflowError).
Proof.
  intros Hv Ht Hnth Hfuel f o1 d Hr.
  pose proof (valid_naive_bounds _ Hv) as (Hy & Hm & Hd & Hh & Hmi & Hs & Hus).
  fold f in Hy, Hm, Hd, Hh, Hmi, Hs, Hus.
  pose proof (days_in_month_range (PyDatetime.year f) _ Hm) as Hdim.
  pose proof (Z.mod_pos_bound (t - o1) 7 ltac:(lia)) as Hmod.
  unfold nth_of_month. replace (nth =? 1) with false by lia.
  unfold mbind at 1. unfold this at 1. unfold mbind at 1. unfold lift at 1.
  rewrite copy_spec by assumption. fold f.
  set (c := mkPendulum _ _).
  assert (Hvc : valid_fields c) by exact Hv.
  unfold on at 1. rewrite first_of_month_none by assumption.
  set (dt0 := with_fields c _).
  assert (Hv0 : valid_fields dt0).
  { subst dt0 c. cbn [with_fields _datetime fields dt_tzinfo _tz].
    apply valid_naive_intro; fold f; auto; try lia. }
  assert (Eo0 : ordinal dt0 = o1) by reflexivity.
  unfold mbind at 1. unfold lift at 1. rewrite format_year_month.
  unfold mbind at 1. unfold lift at 1. rewrite day_of_week_ordinal.
  rewrite Eo0. cbn [option_Z_eqb].
  set (count := nth - (if o1 mod 7 =? t then 1 else 0)).
  assert (Hcount : 1 <= count) by (subst count; destruct (o1 mod 7 =? t); lia).
  destruct (Z.to_nat count) as [|count'] eqn:Ecount; [lia|].
  assert (Efinal : next_ordinal o1 t + 7 * Z.of_nat count' = o1 + d - 1).
  { assert (Z.of_nat count' = count - 1) by lia.
    unfold next_ordinal. subst count d.
    destruct (o1 mod 7 =? t) eqn:E; Z.to_euclidean_division_equations; lia. }
  unfold on at 1.
  destruct (next_times_overflow platform fuel t count' dt0 Hv0 Ht Hfuel) as [dt' ->].
  - rewrite Eo0, Efinal. exact Hr.
  - reflexivity.
Qed.

(** *** [relativedelta]: normalization and negation *)

Lemma carry_neg limit base lo hi :
  0 <= limit ->
  Relativedelta.carry limit base (- lo) (- hi) =
  (- fst (Relativedelta.carry limit base lo hi),
   - snd (Relativedelta.carry limit base lo hi)).
Proof.
  intros Hl. unfold Relativedelta.carry, Relativedelta._sign.
  rewrite Z.abs_opp.
  destruct (Z.abs lo >? limit) eqn:E; [|reflexivity].
  assert (lo <> 0) by lia.
  destruct (lo <? 0) eqn:E1, (- lo <? 0) eqn:E2; try lia; cbn [fst snd].
  - replace (- lo * 1) with (lo * -1) by lia. f_equal; lia.
  - replace (- lo * -1) with (lo * 1) by lia. f_equal; lia.
Qed.

Lemma carry_bounded base lo hi :
  0 < base ->
  Z.abs (fst (Relativedelta.carry (base - 1) base lo hi)) <= base - 1.
Proof.
  intros Hb. unfold Relativedelta.carry, Relativedelta._sign.
  destruct (Z.abs lo >? base - 1) eqn:E; cbn [fst]; [|lia].
  pose proof (Z.mod_pos_bound (lo * (if lo <? 0 then -1 else 1)) base Hb).
  destruct (lo <? 0); lia.
Qed.

Lemma carry_small limit base lo hi :
  Z.abs lo <= limit -> Relativedelta.carry limit base lo hi = (lo, hi).
Proof.
  intros H. unfold Relativedelta.carry.
  replace (Z.abs lo >? limit) with false by lia. reflexivity.
Qed.

(** Normalization commutes with negation and is idempotent. *)
Lemma fix_negated r :
  Relativedelta._fix (negated r) = negated (Relativedelta._fix r).
Proof.
  destruct r as [y mo d h mi s us wd]. unfold negated, Relativedelta._fix.
  cbn [Relativedelta.years Relativedelta.months Relativedelta.days
       Relativedelta.hours Relativedelta.minutes Relativedelta.seconds
       Relativedelta.microseconds Relativedelta.rd_weekday].
  rewrite (carry_neg 999999 1000000 us s) by lia.
  destruct (Relativedelta.carry 999999 1000000 us s) as [us1 s1]. cbn [fst snd].
  rewrite (carry_neg 59 60 s1 mi) by lia.
  destruct (Relativedelta.carry 59 60 s1 mi) as [s2 mi1]. cbn [fst snd].
  rewrite (carry_neg 59 60 mi1 h) by lia.
  destruct (Relativedelta.carry 59 60 mi1 h) as [mi2 h1]. cbn [fst snd].
  rewrite (carry_neg 23 24 h1 d) by lia.
  destruct (Relativedelta.carry 23 24 h1 d) as [h2 d1]. cbn [fst snd].
  rewrite (carry_neg 11 12 mo y) by lia.
  destruct (Relativedelta.carry 11 12 mo y) as [mo1 y1]. cbn [fst snd].
  reflexivity.
Qed.

Lemma fix_idempotent r :
  Relativedelta._fix (Relativedelta._fix r) = Relativedelta._fix r.
Proof.
  destruct r as [y mo d h mi s us wd]. unfold Relativedelta._fix at 2.
  cbn [Relativedelta.years Relativedelta.months Relativedelta.days
       Relativedelta.hours Relativedelta.minutes Relativedelta.seconds
       Relativedelta.microseconds Relativedelta.rd_weekday].
  pose proof (carry_bounded 1000000 us s ltac:(lia)) as B1.
  destruct (Relativedelta.carry 999999 1000000 us s) as [us1 s1] eqn:E1.
  pose proof (carry_bounded 60 s1 mi ltac:(lia)) as B2.
  destruct (Relativedelta.carry 59 60 s1 mi) as [s2 mi1] eqn:E2.
  pose proof (carry_bounded 60 mi1 h ltac:(lia)) as B3.
  destruct (Relativedelta.carry 59 60 mi1 h) as [mi2 h1] eqn:E3.
  pose proof (carry_bounded 24 h1 d ltac:(lia)) as B4.
  destruct (Relativedelta.carry 23 24 h1 d) as [h2 d1] eqn:E4.
  pose proof (carry_bounded 12 mo y ltac:(lia)) as B5.
  destruct (Relativedelta.carry 11 12 mo y) as [mo1 y1] eqn:E5.
  change (1000000 - 1) with 999999 in *. change (60 - 1) with 59 in *.
  change (24 - 1) with 23 in *. change (12 - 1) with 11 in *.
  rewrite E1 in B1. rewrite E2 in B2. rewrite E3 in B3. rewrite E4 in B4. rewrite E5 in B5.
  cbn [fst] in *.
  unfold Relativedelta._fix.
  cbn [Relativedelta.years Relativedelta.months Relativedelta.days
       Relativedelta.hours Relativedelta.minutes Relativedelta.seconds
       Relativedelta.microseconds Relativedelta.rd_weekday].
  rewrite E1, E2, E3, E4, E5.
  rewrite !carry_small by assumption. reflexivity.
Qed.

Lemma neg_fix r :
  Relativedelta.neg (Relativedelta._fix r) = Relativedelta._fix (negated r).
Proof.
  change (Relativedelta.neg (Relativedelta._fix r))
    with (Relativedelta._fix (negated (Relativedelta._fix r))).
  rewrite <- fix_negated, fix_idempotent. reflexivity.
Qed.

Lemma new_negated y mo w d h mi s us wd :
  Relativedelta.new (- y) (- mo) (- w) (- d) (- h) (- mi) (- s) (- us) wd =
  (r <- Relativedelta.new y mo w d h mi s us wd ;; Ok (Relativedelta.neg r)).
Proof.
  unfold Relativedelta.new.
  destruct (match wd with
            | Some i => _
            | None => Ok None
            end) as [wd'| |]; cbn [rbind]; try reflexivity.
  rewrite neg_fix. unfold negated.
  cbn [Relativedelta.years Relativedelta.months Relativedelta.days
       Relativedelta.hours Relativedelta.minutes Relativedelta.seconds
       Relativedelta.microseconds Relativedelta.rd_weekday].
  replace (- d + - w * 7) with (- (d + w * 7)) by lia. reflexivity.
Qed.

Lemma sub_is_add_negated y mo w d h mi s us wd self :
  sub y mo w d h mi s us wd self =
  add (- y) (- mo) (- w) (- d) (- h) (- mi) (- s) (- us) wd self.
Proof.
  unfold sub, add. rewrite new_negated.
  destruct (Relativedelta.new y mo w d h mi s us wd); reflexivity.
Qed.

Lemma set_date_spec self y m d :
  valid_fields self ->
  1 <= y <= 9999 -> 1 <= m <= 12 -> 1 <= d <= _days_in_month y m ->
  set_date y m d self =
  (with_fields self
     (let f := fields (_datetime self) in
      mknaive y m d (PyDatetime.hour f) (PyDatetime.minute f)
        (PyDatetime.second f) (PyDatetime.microsecond f)), Ok tt).
Proof.
  intros Hv Hy Hm Hd. apply valid_naive_bounds in Hv.
  unfold set_date, set_datetime, replace, datetime_new. cbn [or_default].
  replace (_check_date_fields y m d && _check_time_fields _ _ _ _) with true.
  - reflexivity.
  - unfold _check_date_fields, _check_time_fields, MINYEAR, MAXYEAR. lia.
Qed.

Lemma set_date_bad_year self y m d :
  ~ 1 <= y <= 9999 -> set_date y m d self = (self, Raise ValueError).
Proof.
  intros Hy. unfold set_date, set_datetime, replace, datetime_new. cbn [or_default].
  replace (_check_date_fields y m d) with false.
  - reflexivity.
  - unfold _check_date_fields, MINYEAR, MAXYEAR. lia.
Qed.

Lemma set_date_time_spec self y m d h mi s :
  valid_fields self ->
  1 <= y <= 9999 -> 1 <= m <= 12 -> 1 <= d <= _days_in_month y m ->
  0 <= h <= 23 -> 0 <= mi <= 59 -> 0 <= s <= 59 ->
  set_date_time y m d h mi s self =
  (with_fields self
     (mknaive y m d h mi s (PyDatetime.microsecond (fields (_datetime self)))),
   Ok tt).
Proof.
  intros Hv Hy Hm Hd Hh Hmi Hs.
  pose proof (valid_naive_bounds _ Hv) as (_ & _ & _ & Hh0 & Hmi0 & Hs0 & Hus0).
  unfold set_date_time, mbind. rewrite set_date_spec by assumption.
  rewrite set_time_spec; auto.
  apply valid_naive_intro; auto.
Qed.

Lemma set_date_time_bad_year self y m d h mi s :
  ~ 1 <= y <= 9999 -> set_date_time y m d h mi s self = (self, Raise ValueError).
Proof.
  intros Hy. unfold set_date_time, mbind. rewrite set_date_bad_year by assumption.
  reflexivity.
Qed.

(** *** Adding a month to a January 31 *)

Lemma february_length y : _days_in_month y 2 = if _is_leap y then 29 else 28.
Proof. unfold _days_in_month. destruct (_is_leap y); reflexivity. Qed.

Lemma add_month_jan31 self :
  valid_fields self -> month self = 1 -> day self = 31 ->
  add 0 1 0 0 0 0 0 0 None self =
  (with_fields self
     (let f := fields (_datetime self) in
      mknaive (PyDatetime.year f) 2 (_days_in_month (PyDatetime.year f) 2)
        (PyDatetime.hour f) (PyDatetime.minute f) (PyDatetime.second f)
        (PyDatetime.microsecond f)), Ok tt).
Proof.
  intros Hv Em Ed. unfold month, day in *.
  pose proof (valid_naive_bounds _ Hv) as (Hy & Hm & Hd & Hh & Hmi & Hs & Hus).
  unfold add, set_datetime.
  change (Relativedelta.new 0 1 0 0 0 0 0 0 None)
    with (Ok (Relativedelta.mkrelativedelta 0 1 0 0 0 0 0 None)).
  cbn [rbind]. unfold Relativedelta.radd.
  cbn [Relativedelta.years Relativedelta.months Relativedelta.days
       Relativedelta.hours Relativedelta.minutes Relativedelta.seconds
       Relativedelta.microseconds Relativedelta.rd_weekday].
  rewrite Em, Ed, Z.add_0_r.
  cbn [Z.eqb Z.add Pos.add Z.gtb Z.ltb Z.compare Pos.compare Pos.compare_cont].
  destruct (monthrange_valid (PyDatetime.year (fields (_datetime self))) 2 Hy ltac:(lia))
    as (day1 & -> & _).
  cbn [rbind snd].
  pose proof (days_in_month_range (PyDatetime.year (fields (_datetime self))) 2 ltac:(lia)) as Hdim.
  assert (Hfeb := february_length (PyDatetime.year (fields (_datetime self)))).
  rewrite Z.min_l by (destruct (_is_leap _); lia).
  unfold replace, datetime_new. cbn [or_default].
  replace (_check_date_fields _ 2 _ && _check_time_fields _ _ _ _) with true
    by (unfold _check_date_fields, _check_time_fields, MINYEAR, MAXYEAR; lia).
  cbn [rbind].
  change (timedelta_new 0 0 0 0 0) with (Ok (mktimedelta 0 0 0)).
  cbn [rbind]. unfold add_timedelta. cbn [fields dt_tzinfo].
  set (feb := mknaive _ 2 _ _ _ _ _).
  assert (Hvf : valid_naive feb) by (apply valid_naive_intro; auto; lia).
  pose proof (toordinal_range _ Hvf).
  rewrite naive_add_days by (auto; lia).
  rewrite Z.add_0_r, on_ordinal_same by assumption.
  reflexivity.
Qed.

Lemma add_day_after_february self :
  valid_fields self -> month self = 2 ->
  day self = _days_in_month (year self) 2 ->
  add 0 0 0 1 0 0 0 0 None self =
  (with_fields self
     (let f := fields (_datetime self) in
      mknaive (PyDatetime.year f) 3 1 (PyDatetime.hour f) (PyDatetime.minute f)
        (PyDatetime.second f) (PyDatetime.microsecond f)), Ok tt).
Proof.
  intros Hv Em Ed. unfold month, day, year in *.
  pose proof (valid_naive_bounds _ Hv) as (Hy & Hm & Hd & Hh & Hmi & Hs & Hus).
  assert (Eo : ordinal self + 1 = _ymd2ord (PyDatetime.year (fields (_datetime self))) 3 1).
  { unfold ordinal, toordinal, _ymd2ord, _days_before_month. rewrite Em, Ed.
    rewrite february_length. destruct (_is_leap _); cal_simpl; lia. }
  assert (Hv3 : valid_naive (mknaive (PyDatetime.year (fields (_datetime self))) 3 1 0 0 0 0))
    by (apply valid_naive_intro; try lia; unfold _days_in_month; simpl; lia).
  pose proof (toordinal_range _ Hv3) as Hr3. unfold toordinal in Hr3. simpl in Hr3.
  change (add 0 0 0 1 0 0 0 0 None) with add_day.
  rewrite add_day_spec by (auto; lia).
  rewrite Eo. unfold on_ordinal.
  rewrite ord2ymd_ymd2ord by (try lia; unfold _days_in_month; simpl; lia).
  reflexivity.
Qed.

(** *** Fixed-length units *)

Lemma timedelta_of_microseconds_total us td :
  timedelta_of_microseconds us = Ok td -> td_total_microseconds td = us.
Proof.
  unfold timedelta_of_microseconds. cbv zeta.
  destruct ((-999999999 <=? us / US_PER_DAY) && (us / US_PER_DAY <=? 999999999));
    [|discriminate].
  intros [= <-]. unfold td_total_microseconds, US_PER_DAY, US_PER_SECOND.
  cbn [td_days td_seconds td_microseconds].
  Z.to_euclidean_division_equations; lia.
Qed.

Lemma timedelta_of_microseconds_ok us :
  -999999999 <= us / US_PER_DAY <= 999999999 ->
  exists td, timedelta_of_microseconds us = Ok td.
Proof.
  intros H. unfold timedelta_of_microseconds. cbv zeta.
  replace ((-999999999 <=? us / US_PER_DAY) && (us / US_PER_DAY <=? 999999999))
    with true by lia.
  eexists. reflexivity.
Qed.

Lemma timedelta_of_microseconds_outcome us :
  (exists td, timedelta_of_microseconds us = Ok td) \/
  timedelta_of_microseconds us = Raise OverflowError.
Proof.
  unfold timedelta_of_microseconds. cbv zeta.
  destruct ((-999999999 <=? us / US_PER_DAY) && (us / US_PER_DAY <=? 999999999));
    [left; eexists; reflexivity|right; reflexivity].
Qed.

Lemma naive_add_outcome f td :
  (exists n, naive_add f td = Ok n) \/ naive_add f td = Raise OverflowError.
Proof.
  unfold naive_add.
  destruct (timedelta_of_microseconds_outcome
              (naive_microseconds f + td_total_microseconds td)) as [[d ->]| ->];
    cbn [rbind]; [|right; reflexivity].
  destruct ((0 <? td_days d) && (td_days d <=? _MAXORDINAL));
    [left; eexists; reflexivity|right; reflexivity].
Qed.

(** The microseconds a delta of fixed-length units stands for. *)
Lemma carry_total limit base lo hi :
  0 < base ->
  fst (Relativedelta.carry limit base lo hi)
  + base * snd (Relativedelta.carry limit base lo hi) = lo + base * hi.
Proof.
  intros Hb. unfold Relativedelta.carry, Relativedelta._sign.
  destruct (Z.abs lo >? limit); cbn [fst snd]; [|reflexivity].
  destruct (lo <? 0).
  - pose proof (Z.div_mod (lo * -1) base ltac:(lia)). nia.
  - pose proof (Z.div_mod (lo * 1) base ltac:(lia)). nia.
Qed.

Lemma fix_fixed_length d h mi s us :
  exists d' h' mi' s' us',
    Relativedelta._fix (Relativedelta.mkrelativedelta 0 0 d h mi s us None)
    = Relativedelta.mkrelativedelta 0 0 d' h' mi' s' us' None /\
    (((d' * 24 + h') * 60 + mi') * 60 + s') * US_PER_SECOND + us'
    = (((d * 24 + h) * 60 + mi) * 60 + s) * US_PER_SECOND + us.
Proof.
  unfold Relativedelta._fix.
  cbn [Relativedelta.years Relativedelta.months Relativedelta.days
       Relativedelta.hours Relativedelta.minutes Relativedelta.seconds
       Relativedelta.microseconds Relativedelta.rd_weekday].
  pose proof (carry_total 999999 1000000 us s ltac:(lia)) as T1.
  destruct (Relativedelta.carry 999999 1000000 us s) as [us1 s1].
  pose proof (carry_total 59 60 s1 mi ltac:(lia)) as T2.
  destruct (Relativedelta.carry 59 60 s1 mi) as [s2 mi1].
  pose proof (carry_total 59 60 mi1 h ltac:(lia)) as T3.
  destruct (Relativedelta.carry 59 60 mi1 h) as [mi2 h1].
  pose proof (carry_total 23 24 h1 d ltac:(lia)) as T4.
  destruct (Relativedelta.carry 23 24 h1 d) as [h2 d1].
  change (Relativedelta.carry 11 12 0 0) with (0, 0).
  cbn [fst snd] in *. cbv iota beta.
  exists d1, h2, mi2, s2, us1. split; [reflexivity|].
  unfold US_PER_SECOND. lia.
Qed.

(** [add] with fixed-length units only: the civil fields move by the elapsed
    time and the [tzinfo] instance is the one the receiver had. *)
Lemma add_fixed_length self h mi s us :
  valid_fields self ->
  let elapsed := ((h * 60 + mi) * 60 + s) * US_PER_SECOND + us in
  1 <= (naive_microseconds (fields (_datetime self)) + elapsed) / US_PER_DAY
    <= _MAXORDINAL ->
  exists n,
    add 0 0 0 0 h mi s us None self = (with_fields self n, Ok tt) /\
    naive_microseconds n = naive_microseconds (fields (_datetime self)) + elapsed.
Proof.
  intros Hv elapsed Hr.
  pose proof (toordinal_range _ Hv) as Ho.
  pose proof (time_of_day_range _ Hv) as Ht.
  unfold add, set_datetime, Relativedelta.new. cbn [rbind].
  destruct (fix_fixed_length (0 + 0 * 7) h mi s us)
    as (d' & h' & mi' & s' & us' & -> & Etotal).
  rewrite radd_plain by (auto; reflexivity).
  cbn [Relativedelta.days Relativedelta.hours Relativedelta.minutes
       Relativedelta.seconds Relativedelta.microseconds].
  unfold timedelta_new. rewrite Etotal.
  replace ((((0 + 0 * 7) * 24 + h) * 60 + mi) * 60 + s) with ((h * 60 + mi) * 60 + s) by lia.
  fold elapsed.
  destruct (timedelta_of_microseconds_ok elapsed) as [td Etd].
  { rewrite naive_microseconds_split in Hr. revert Hr.
    unfold US_PER_DAY, US_PER_SECOND, _MAXORDINAL in *.
    generalize (time_of_day (fields (_datetime self))) Ht.
    generalize (toordinal (fields (_datetime self))) Ho.
    clear. intros o Ho t Ht Hr.
    Z.to_euclidean_division_equations; lia. }
  rewrite Etd. cbn [rbind]. unfold add_timedelta.
  pose proof (timedelta_of_microseconds_total _ _ Etd) as Etot.
  assert (Esum : naive_microseconds (fields (_datetime self)) + td_total_microseconds td
                 = naive_microseconds (fields (_datetime self)) + elapsed) by lia.
  rewrite (naive_add_total _ _ _ Esum) by assumption.
  cbn [rbind]. eexists. split; [reflexivity|].
  rewrite <- Esum.
  apply naive_add_microseconds.
  rewrite (naive_add_total _ _ _ Esum) by assumption. rewrite Esum. reflexivity.
Qed.

Lemma since_epoch_with_fields self n :
  since_epoch (with_fields self n) - naive_microseconds n
  = since_epoch self - naive_microseconds (fields (_datetime self)).
Proof.
  unfold since_epoch, aware_sub, with_fields.
  cbn [_datetime fields dt_tzinfo]. lia.
Qed.

Lemma since_epoch_whole_seconds self :
  since_epoch self - microsecond self
  = ((((ordinal self * 24 + hour self) * 60 + minute self) * 60 + second self)
     - tz_utcoffset (dt_tzinfo (_datetime self)) * 60 - 62135683200)
    * US_PER_SECOND.
Proof.
  unfold since_epoch, aware_sub, _EPOCH, naive_microseconds, toordinal, ordinal,
    microsecond, hour, minute, second, UTC, US_PER_SECOND.
  cbn [fields dt_tzinfo tz_utcoffset PyDatetime.year PyDatetime.month
       PyDatetime.day PyDatetime.hour PyDatetime.minute PyDatetime.second
       PyDatetime.microsecond].
  change (_ymd2ord 1970 1 1) with 719163. unfold toordinal. lia.
Qed.

(** *** The [float] arithmetic of [timestamp] *)

Lemma nearest_even_exact n q : 0 < q -> PyFloat.nearest_even (n * q) q = n.
Proof.
  intros Hq. unfold PyFloat.nearest_even.
  rewrite Z.mod_mul, Z.div_mul by lia.
  replace (2 * 0 <? q) with true by lia. reflexivity.
Qed.

(** A number [n * 2 ^ c] with a mantissa of 53 bits is a [float]: rounding
    gives it back. *)
Lemma round_exact p q n c :
  0 < q -> -1074 <= c < 0 -> 2 ^ 52 <= Z.abs n < 2 ^ 53 ->
  p * 2 ^ (- c) = n * q ->
  PyFloat.round p q = PyFloat.mkfloat n c.
Proof.
  intros Hq Hc Hn E.
  assert (Hpow : 0 < 2 ^ (- c)) by (apply Z.pow_pos_nonneg; lia).
  assert (Ea : Z.abs p * 2 ^ (- c) = Z.abs n * q).
  { apply (f_equal Z.abs) in E. rewrite !Z.abs_mul in E.
    rewrite (Z.abs_eq (2 ^ (- c))), (Z.abs_eq q) in E by lia. exact E. }
  assert (Es : Z.sgn p = Z.sgn n).
  { apply (f_equal Z.sgn) in E. rewrite !Z.sgn_mul in E.
    rewrite (Z.sgn_pos (2 ^ (- c))), (Z.sgn_pos q) in E by lia. lia. }
  assert (Elog : Z.log2 (Z.abs p * 2 ^ 1200 / q) = 1252 + c).
  { replace (2 ^ 1200) with (2 ^ (- c) * 2 ^ (1200 + c))
      by (rewrite <- Z.pow_add_r by lia; f_equal; lia).
    rewrite Z.mul_assoc, Ea.
    replace (Z.abs n * q * 2 ^ (1200 + c)) with (Z.abs n * 2 ^ (1200 + c) * q) by lia.
    rewrite Z.div_mul by lia.
    rewrite Z.log2_mul_pow2 by lia.
    rewrite (Z.log2_unique (Z.abs n) 52) by (change (Z.succ 52) with 53; lia).
    lia. }
  unfold PyFloat.round. rewrite Elog.
  replace (Z.max (1252 + c - 1252) (-1074)) with c by lia.
  replace (0 <=? c) with false by lia.
  rewrite Ea, nearest_even_exact by lia.
  rewrite Es. f_equal. rewrite Z.mul_comm. apply Z.abs_sgn.
Qed.

Lemma round_zero q : 0 < q -> PyFloat.round 0 q = PyFloat.mkfloat 0 (-1074).
Proof.
  intros Hq. unfold PyFloat.round. cbn [Z.abs Z.sgn]. rewrite !Z.mul_0_l.
  rewrite Z.div_0_l by lia. reflexivity.
Qed.

(** A whole number below [2 ^ 52] in magnitude goes through the division,
    the subtraction of a zero and [int()] unchanged. *)
Lemma float_whole_seconds s q :
  0 < q -> Z.abs s < 2 ^ 52 ->
  PyFloat.to_int
    (PyFloat.sub (PyFloat.round (s * q) q) (PyFloat.round 0 1000000)) = s.
Proof.
  intros Hq Hs. rewrite (round_zero 1000000) by lia.
  destruct (Z.eq_dec s 0) as [->|Hne].
  - rewrite Z.mul_0_l, round_zero by lia.
    unfold PyFloat.sub. cbn [PyFloat.mantissa PyFloat.exponent].
    rewrite Z.min_id, Z.sub_diag.
    change (0 <=? -1074) with false. cbv iota.
    change (0 * 2 ^ 0 - 0 * 2 ^ 0) with 0.
    rewrite round_zero by (apply Z.pow_pos_nonneg; lia).
    reflexivity.
  - set (L := Z.log2 (Z.abs s)).
    assert (Ha : 0 < Z.abs s) by lia.
    destruct (Z.log2_spec (Z.abs s) Ha) as [Hlo Hhi]. fold L in Hlo, Hhi.
    assert (HL0 : 0 <= L) by apply Z.log2_nonneg.
    assert (HL : L < 52).
    { apply (Z.pow_lt_mono_r_iff 2); lia. }
    set (k := 52 - L).
    assert (Hk : 1 <= k <= 52) by lia.
    assert (Hpk : 0 < 2 ^ k) by (apply Z.pow_pos_nonneg; lia).
    assert (Hn : 2 ^ 52 <= Z.abs (s * 2 ^ k) < 2 ^ 53).
    { rewrite Z.abs_mul, (Z.abs_eq (2 ^ k)) by lia.
      replace (2 ^ 52) with (2 ^ L * 2 ^ k)
        by (rewrite <- Z.pow_add_r by lia; f_equal; lia).
      replace (2 ^ 53) with (2 ^ Z.succ L * 2 ^ k)
        by (rewrite <- Z.pow_add_r by lia; f_equal; lia).
      split; [apply Z.mul_le_mono_nonneg_r; lia|apply Z.mul_lt_mono_pos_r; lia]. }
    assert (Ex : PyFloat.round (s * q) q = PyFloat.mkfloat (s * 2 ^ k) (- k)).
    { apply round_exact; [exact Hq|lia|exact Hn|].
      rewrite Z.opp_involutive. lia. }
    rewrite Ex. unfold PyFloat.sub. cbn [PyFloat.mantissa PyFloat.exponent].
    replace (Z.min (- k) (-1074)) with (-1074) by lia.
    change (0 <=? -1074) with false. cbv iota.
    rewrite Z.sub_diag, Z.mul_0_l, Z.sub_0_r.
    assert (Ey : PyFloat.round (s * 2 ^ k * 2 ^ (- k - -1074)) (2 ^ (- -1074))
                 = PyFloat.mkfloat (s * 2 ^ k) (- k)).
    { apply round_exact; [apply Z.pow_pos_nonneg; lia|lia|exact Hn|].
      rewrite Z.opp_involutive. rewrite <- !Z.mul_assoc. f_equal. f_equal.
      rewrite <- Z.pow_add_r by lia. f_equal. lia. }
    rewrite Ey. unfold PyFloat.to_int. cbn [PyFloat.mantissa PyFloat.exponent].
    replace (0 <=? - k) with false by lia.
    rewrite Z.opp_involutive. apply Z.quot_mul. lia.
Qed.

(** With no microseconds, the [float] arithmetic of [timestamp] is exact:
    the whole seconds since the epoch are a [float], and so is the zero
    taken off them. *)
Lemma timestamp_whole_seconds self s :
  since_epoch self = s * US_PER_SECOND -> microsecond self = 0 ->
  Z.abs s < 2 ^ 52 ->
  timestamp self = s.
Proof.
  intros Es Eus Hs. unfold timestamp, float_timestamp. rewrite Es, Eus.
  apply float_whole_seconds; [unfold US_PER_SECOND; lia|exact Hs].
Qed.

(** The seconds since the epoch of a valid Moment are far below [2 ^ 52]. *)
Lemma since_epoch_seconds self :
  valid self -> microsecond self = 0 ->
  exists s, since_epoch self = s * US_PER_SECOND /\ Z.abs s < 2 ^ 51.
Proof.
  intros [Hv Htz] Eus.
  pose proof (since_epoch_whole_seconds self) as E. rewrite Eus, Z.sub_0_r in E.
  eexists. split; [exact E|].
  pose proof (toordinal_range _ Hv) as Ho. fold (ordinal self) in Ho.
  pose proof (valid_naive_bounds _ Hv) as (_ & _ & _ & Hh & Hmi & Hs & _).
  fold (hour self) in Hh. fold (minute self) in Hmi. fold (second self) in Hs.
  unfold valid_tzinfo in Htz. unfold _MAXORDINAL in Ho.
  revert Ho Hh Hmi Hs Htz.
  generalize (ordinal self) (hour self) (minute self) (second self)
    (tz_utcoffset (dt_tzinfo (_datetime self))).
  intros o h mi sec z Ho Hh Hmi Hs Hz. lia.
Qed.

Lemma add_24_hours_is_add_1_day self :
  add 0 0 0 0 24 0 0 0 None self = add 0 0 0 1 0 0 0 0 None self.
Proof. reflexivity. Qed.

(** *** [astimezone] *)

Lemma tzinfo_eqb_eq a b : tzinfo_eqb a b = true -> a = b.
Proof.
  unfold tzinfo_eqb. intros H. apply andb_true_iff in H. destruct H as [Hz Ho].
  apply String.eqb_eq in Hz. apply Z.eqb_eq in Ho.
  destruct a, b. simpl in *. congruence.
Qed.

Lemma utcoffset_total dt td :
  utcoffset dt = Ok td ->
  td_total_microseconds td = tz_utcoffset (dt_tzinfo dt) * 60 * US_PER_SECOND.
Proof.
  unfold utcoffset, timedelta_new. intros H.
  apply timedelta_of_microseconds_total in H. rewrite H. unfold US_PER_SECOND. lia.
Qed.

(** Whatever [astimezone] returns is the same instant; when the zone
    changes, its [tzinfo] is the instance the zone has at that instant and
    its civil fields are the UTC ones moved by the offset of that
    instance. *)
Lemma astimezone_instant fromutc dt tz dt' :
  astimezone fromutc dt tz = Ok dt' ->
  utc_microseconds dt' = utc_microseconds dt /\
  (tzinfo_eqb tz (dt_tzinfo dt) = false ->
   exists utc, naive_microseconds utc = utc_microseconds dt /\
               dt_tzinfo dt' = fromutc tz utc /\
               naive_microseconds (fields dt')
               = naive_microseconds utc
                 + tz_utcoffset (fromutc tz utc) * 60 * US_PER_SECOND).
Proof.
  unfold astimezone.
  destruct (tzinfo_eqb tz (dt_tzinfo dt)) eqn:E.
  - intros [= <-]. split; [reflexivity|discriminate].
  - destruct (utcoffset dt) as [off| |] eqn:Eoff; cbn [rbind]; try discriminate.
    unfold timedelta_neg.
    destruct (timedelta_of_microseconds (- td_total_microseconds off))
      as [minus| |] eqn:Eminus; cbn [rbind]; try discriminate.
    destruct (naive_add (fields dt) minus) as [utc| |] eqn:Eutc; cbn [rbind];
      try discriminate.
    destruct (timedelta_new 0 0 (tz_utcoffset (fromutc tz utc)) 0 0)
      as [shift| |] eqn:Eshift; cbn [rbind]; try discriminate.
    destruct (naive_add utc shift) as [loc| |] eqn:Eloc; cbn [rbind];
      try discriminate.
    intros [= <-].
    apply utcoffset_total in Eoff.
    apply timedelta_of_microseconds_total in Eminus.
    apply naive_add_microseconds in Eutc, Eloc.
    unfold timedelta_new in Eshift. apply timedelta_of_microseconds_total in Eshift.
    unfold utc_microseconds. cbn [fields dt_tzinfo].
    assert (Hloc : naive_microseconds loc
                   = naive_microseconds utc
                     + tz_utcoffset (fromutc tz utc) * 60 * US_PER_SECOND).
    { rewrite Eloc, Eshift. unfold US_PER_SECOND. ring. }
    assert (Hutc : naive_microseconds utc
                   = naive_microseconds (fields dt)
                     - tz_utcoffset (dt_tzinfo dt) * 60 * US_PER_SECOND).
    { rewrite Eutc, Eminus, Eoff. ring. }
    split.
    + rewrite Hloc, Hutc. ring.
    + intros _. exists utc. split; [exact Hutc|]. split; [reflexivity|exact Hloc].
Qed.

Lemma astimezone_outcome fromutc dt tz :
  (exists dt', astimezone fromutc dt tz = Ok dt') \/
  astimezone fromutc dt tz = Raise OverflowError.
Proof.
  unfold astimezone.
  destruct (tzinfo_eqb tz (dt_tzinfo dt)); [left; eexists; reflexivity|].
  unfold utcoffset, timedelta_new, timedelta_neg.
  destruct (timedelta_of_microseconds_outcome
              ((((0 * 24 + 0) * 60 + tz_utcoffset (dt_tzinfo dt)) * 60 + 0)
               * US_PER_SECOND + 0)) as [[off ->]| ->];
    cbn [rbind]; [|right; reflexivity].
  destruct (timedelta_of_microseconds_outcome (- td_total_microseconds off))
    as [[minus ->]| ->]; cbn [rbind]; [|right; reflexivity].
  destruct (naive_add_outcome (fields dt) minus) as [[utc ->]| ->];
    cbn [rbind]; [|right; reflexivity].
  destruct (timedelta_of_microseconds_outcome
              ((((0 * 24 + 0) * 60 + tz_utcoffset (fromutc tz utc)) * 60 + 0)
               * US_PER_SECOND + 0)) as [[shift ->]| ->];
    cbn [rbind]; [|right; reflexivity].
  destruct (naive_add_outcome utc shift) as [[loc ->]| ->];
    cbn [rbind]; [left; eexists; reflexivity|right; reflexivity].
Qed.

(** Two days or more from the two ends of the calendar, a change of zone
    succeeds. *)
Lemma astimezone_succeeds fromutc dt tz :
  valid_naive (fields dt) -> valid_tzinfo (dt_tzinfo dt) ->
  (forall z n, valid_tzinfo (fromutc z n)) ->
  3 <= toordinal (fields dt) <= _MAXORDINAL - 2 ->
  exists dt', astimezone fromutc dt tz = Ok dt'.
Proof.
  intros Hv Htz Hfrom Hr. unfold astimezone.
  destruct (tzinfo_eqb tz (dt_tzinfo dt)); [eexists; reflexivity|].
  pose proof (time_of_day_range _ Hv) as Ht.
  unfold valid_tzinfo in *.
  unfold utcoffset, timedelta_new, timedelta_neg.
  destruct (timedelta_of_microseconds_ok
              ((((0 * 24 + 0) * 60 + tz_utcoffset (dt_tzinfo dt)) * 60 + 0)
               * US_PER_SECOND + 0)) as [off Eoff].
  { unfold US_PER_DAY, US_PER_SECOND. Z.to_euclidean_division_equations; lia. }
  rewrite Eoff. cbn [rbind]. apply timedelta_of_microseconds_total in Eoff.
  destruct (timedelta_of_microseconds_ok (- td_total_microseconds off)) as [minus Eminus].
  { rewrite Eoff. unfold US_PER_DAY, US_PER_SECOND. Z.to_euclidean_division_equations; lia. }
  rewrite Eminus. cbn [rbind]. apply timedelta_of_microseconds_total in Eminus.
  assert (Eutc : exists utc, naive_add (fields dt) minus = Ok utc).
  { eexists. apply (naive_add_total _ _ _ eq_refl).
    rewrite Eminus, Eoff, naive_microseconds_split.
    revert Hr Ht Htz.
    generalize (toordinal (fields dt)) (time_of_day (fields dt))
      (tz_utcoffset (dt_tzinfo dt)).
    clear. intros o t x Hr Ht Htz.
    unfold US_PER_DAY, US_PER_SECOND, _MAXORDINAL in *.
    Z.to_euclidean_division_equations; lia. }
  destruct Eutc as [utc Eutc]. rewrite Eutc. cbn [rbind].
  apply naive_add_microseconds in Eutc.
  specialize (Hfrom tz utc).
  destruct (timedelta_of_microseconds_ok
              ((((0 * 24 + 0) * 60 + tz_utcoffset (fromutc tz utc)) * 60 + 0)
               * US_PER_SECOND + 0)) as [shift Eshift].
  { unfold US_PER_DAY, US_PER_SECOND. Z.to_euclidean_division_equations; lia. }
  rewrite Eshift. cbn [rbind]. apply timedelta_of_microseconds_total in Eshift.
  assert (Eloc : exists loc, naive_add utc shift = Ok loc).
  { eexists. apply (naive_add_total _ _ _ eq_refl).
    rewrite Eshift, Eutc, Eminus, Eoff, naive_microseconds_split.
    revert Hr Ht Htz Hfrom.
    generalize (toordinal (fields dt)) (time_of_day (fields dt))
      (tz_utcoffset (dt_tzinfo dt)) (tz_utcoffset (fromutc tz utc)).
    clear. intros o t x x' Hr Ht Htz Hfrom.
    unfold US_PER_DAY, US_PER_SECOND, _MAXORDINAL in *.
    Z.to_euclidean_division_equations; lia. }
  destruct Eloc as [loc ->]. cbn [rbind]. eexists. reflexivity.
Qed.

Lemma since_epoch_utc self :
  since_epoch self = utc_microseconds (_datetime self) - utc_microseconds _EPOCH.
Proof. reflexivity. Qed.

(** *** The custom formatter *)

Lemma format_02d_two_digits n :
  0 <= n <= 99 -> format_02d n = two_digits n.
Proof.
  intros Hn. unfold format_02d, two_digits.
  assert (Hw : Nat.max 2 (decimal_width (Z.to_nat n) n) = 2%nat).
  { destruct (Z.to_nat n) as [|f] eqn:E; [reflexivity|].
    cbn [decimal_width]. destruct (n <? 10) eqn:E10; [reflexivity|].
    destruct f as [|f']; [lia|]. cbn [decimal_width].
    replace (n / 10 <? 10) with true
      by (Z.to_euclidean_division_equations; lia).
    reflexivity. }
  rewrite Hw. cbn [zero_padded].
  change (10 ^ Z.of_nat 1) with 10. change (10 ^ Z.of_nat 0) with 1.
  rewrite Z.div_1_r. rewrite (Z.mod_small (n / 10)) by (Z.to_euclidean_division_equations; lia).
  reflexivity.
Qed.

Lemma _strftime_P self :
  valid_tzinfo (dt_tzinfo (_datetime self)) ->
  let offset := tz_utcoffset (dt_tzinfo (_datetime self)) in
  _strftime self "P" = Ok (offset_text offset).
Proof.
  intros Hv offset. unfold valid_tzinfo in Hv. fold offset in Hv.
  unfold _strftime. cbn [String.eqb Ascii.eqb Bool.eqb andb].
  destruct (timedelta_of_microseconds_ok
              ((((0 * 24 + 0) * 60 + offset) * 60 + 0) * US_PER_SECOND + 0)) as [off Eoff].
  { unfold US_PER_DAY, US_PER_SECOND. Z.to_euclidean_division_equations; lia. }
  unfold utcoffset, timedelta_new. fold offset. rewrite Eoff. cbn [rbind].
  apply timedelta_of_microseconds_total in Eoff. rewrite Eoff.
  replace ((((0 * 24 + 0) * 60 + offset) * 60 + 0) * US_PER_SECOND + 0)
    with (offset * (60 * US_PER_SECOND)) by (unfold US_PER_SECOND; lia).
  rewrite Z.quot_mul by (unfold US_PER_SECOND; lia).
  replace (0 <? offset * (60 * US_PER_SECOND)) with (0 <? offset)
    by (unfold US_PER_SECOND; lia).
  rewrite !format_02d_two_digits by (Z.to_euclidean_division_equations; lia).
  reflexivity.
Qed.

Lemma _strftime_unknown self fmt :
  fmt <> "P"%string ->
  _strftime self fmt = Raise (PendulumException ("Unknown formatter %" ++ fmt)).
Proof.
  intros H. unfold _strftime.
  destruct (String.eqb_spec fmt "P"); [contradiction|reflexivity].
Qed.

(** *** [strftime] *)

(** An outcome that is neither the exception of [_strftime] nor a lack of
    fuel. *)
Lemma py_strftime_outcome platform dt fmt :
  delegated (PyDatetime.strftime platform dt fmt).
Proof.
  remember (String.length fmt) as n eqn:En.
  assert (Hn : (String.length fmt <= n)%nat) by lia. clear En.
  revert fmt Hn. induction n as [|n IH]; intros fmt Hn.
  - destruct fmt; [exact I|simpl in Hn; lia].
  - destruct fmt as [|c rest]; [exact I|]. simpl in Hn.
    assert (Hrest : delegated (PyDatetime.strftime platform dt rest))
      by (apply IH; lia).
    assert (Hplain : delegated
              (t <- PyDatetime.strftime platform dt rest ;; Ok (String c t))).
    { destruct (PyDatetime.strftime platform dt rest) as [t|[]|]; simpl in *; auto. }
    destruct rest as [|c' rest'].
    + cbn [PyDatetime.strftime]. destruct (Ascii.eqb_spec c "%"%char) as [->|Hc].
      * exact Hplain.
      * destruct c as [[] [] [] [] [] [] [] []]; exact Hplain.
    + assert (Hrest' : delegated (PyDatetime.strftime platform dt rest'))
        by (apply IH; simpl in Hn; lia).
      destruct (Ascii.eqb_spec c "%"%char) as [->|Hc].
      * cbn [PyDatetime.strftime].
        assert (Hdir : delegated (strftime_directive platform dt c')).
        { unfold strftime_directive.
          destruct (platform dt c') as [s|];
            destruct c' as [[] [] [] [] [] [] [] []]; exact I. }
        destruct (strftime_directive platform dt c') as [s|[]|]; simpl in *; auto.
        destruct (PyDatetime.strftime platform dt rest') as [t|[]|]; simpl in *; auto.
      * replace (PyDatetime.strftime platform dt (String c (String c' rest')))
          with (t <- PyDatetime.strftime platform dt (String c' rest') ;; Ok (String c t)).
        -- exact Hplain.
        -- destruct c as [[] [] [] [] [] [] [] []]; try reflexivity.
           exfalso. apply Hc. reflexivity.
Qed.

Lemma first_line_length s : (String.length (first_line s) <= String.length s)%nat.
Proof.
  induction s as [|c s IH]; simpl; [lia|].
  destruct (Ascii.eqb c NEWLINE); simpl; lia.
Qed.

(** The two sides of a custom formatter are shorter than the template. *)
Lemma match_formatters_shorter fmt g1 g3 :
  match_formatters fmt = Some (g1, g3) ->
  (String.length g1 < String.length fmt)%nat /\
  (String.length g3 < String.length fmt)%nat.
Proof.
  revert g1 g3. induction fmt as [|c rest IH]; intros g1 g3; [discriminate|].
  cbn [match_formatters]. destruct (Ascii.eqb c NEWLINE); [discriminate|].
  destruct (match_formatters rest) as [[a b]|].
  - intros [= <- <-]. destruct (IH a b eq_refl). simpl. lia.
  - destruct (Ascii.eqb_spec c "%"%char) as [->|Hc].
    + destruct rest as [|c' tail]; [discriminate|].
      destruct (Ascii.eqb_spec c' "P"%char) as [->|Hc'].
      * intros [= <- <-]. pose proof (first_line_length tail). simpl. lia.
      * destruct c' as [[] [] [] [] [] [] [] []]; try discriminate.
        exfalso. apply Hc'. reflexivity.
    + destruct c as [[] [] [] [] [] [] [] []]; try discriminate.
      exfalso. apply Hc. reflexivity.
Qed.

Lemma _strftime_P_outcome self : delegated (_strftime self "P").
Proof.
  unfold _strftime. cbn [String.eqb Ascii.eqb Bool.eqb andb].
  unfold utcoffset, timedelta_new.
  destruct (timedelta_of_microseconds_outcome
              ((((0 * 24 + 0) * 60 + tz_utcoffset (dt_tzinfo (_datetime self))) * 60 + 0)
               * US_PER_SECOND + 0)) as [[off ->]| ->]; exact I.
Qed.

Lemma strftime_rec_outcome platform self depth :
  forall fmt, (String.length fmt <= depth)%nat ->
  delegated (strftime_rec platform depth self fmt).
Proof.
  induction depth as [|depth IH]; intros fmt Hlen.
  - destruct fmt; [exact I|simpl in Hlen; lia].
  - destruct fmt as [|c rest]; [exact I|].
    cbn [strftime_rec].
    destruct (match_formatters (String c rest)) as [[g1 g3]|] eqn:Em.
    + apply match_formatters_shorter in Em. destruct Em as [H1 H3].
      pose proof (IH g1 ltac:(lia)) as D1. pose proof (IH g3 ltac:(lia)) as D3.
      pose proof (_strftime_P_outcome self) as DP.
      destruct (strftime_rec platform depth self g1) as [a|[]|]; simpl in *; auto.
      destruct (_strftime self "P") as [b|[]|]; simpl in *; auto.
      destruct (strftime_rec platform depth self g3) as [x|[]|]; simpl in *; auto.
    + apply py_strftime_outcome.
Qed.

Lemma strftime_outcome platform self fmt : delegated (strftime platform self fmt).
Proof. apply strftime_rec_outcome. lia. Qed.

Lemma strftime_delegates platform self fmt :
  fmt <> EmptyString -> match_formatters fmt = None ->
  strftime platform self fmt = PyDatetime.strftime platform (_datetime self) fmt.
Proof.
  intros Hne Hm. unfold strftime. destruct fmt as [|c rest]; [contradiction|].
  destruct (String.length (String c rest)); cbn [strftime_rec]; rewrite Hm; reflexivity.
Qed.

(** ** The claims *)

(** Claim C1.  On a January 31, [add(months=1)] leaves February 28 of the
    same year when the year is not a leap year and February 29 when it is,
    the day being cut down to the length of the month reached; a following
    [add(days=1)] leaves March 1 of that year in both cases, so never
    March 3. *)
Theorem C1_jan31_add_month_then_day self :
  valid_fields self -> month self = 1 -> day self = 31 ->
  exists feb mar,
    add 0 1 0 0 0 0 0 0 None self = (feb, Ok tt) /\
    year feb = year self /\ month feb = 2 /\
    day feb = (if _is_leap (year self) then 29 else 28) /\
    add 0 0 0 1 0 0 0 0 None feb = (mar, Ok tt) /\
    year mar = year self /\ month mar = 3 /\ day mar = 1.
Proof.
  intros Hv Em Ed.
  pose proof (valid_naive_bounds _ Hv) as (Hy & Hm & Hd & Hh & Hmi & Hs & Hus).
  rewrite add_month_jan31 by assumption.
  set (feb := with_fields self _).
  assert (Hvf : valid_fields feb).
  { subst feb. cbn [with_fields _datetime fields].
    pose proof (february_length (PyDatetime.year (fields (_datetime self)))).
    apply valid_naive_intro; auto; try lia. destruct (_is_leap _); lia. }
  exists feb. eexists.
  split; [reflexivity|]. split; [reflexivity|]. split; [reflexivity|].
  split; [apply february_length|].
  rewrite add_day_after_february by (auto; reflexivity).
  repeat split.
Qed.

Lemma C1_witness :
  let self := Sample.utc 2024 1 31 10 20 30 5 in
  valid_fields self /\ month self = 1 /\ day self = 31 /\
  exists feb mar,
    add 0 1 0 0 0 0 0 0 None self = (feb, Ok tt) /\
    year feb = year self /\ month feb = 2 /\
    day feb = (if _is_leap (year self) then 29 else 28) /\
    add 0 0 0 1 0 0 0 0 None feb = (mar, Ok tt) /\
    year mar = year self /\ month mar = 3 /\ day mar = 1.
Proof.
  intros self. split; [reflexivity|]. split; [reflexivity|]. split; [reflexivity|].
  apply (C1_jan31_add_month_then_day self); reflexivity.
Defined.

(** Claim C2 fails as stated: in Paris, from noon on 2016-03-26 (the offset
    is one hour before the change to summer time of 2016-03-27 and two hours
    after it), [add(hours=24)] and [add(days=1)] leave the same state, noon
    on 2016-03-27 with the offset of one hour still: the civil fields are
    not taken back to the zone, and the two calls do not differ.  And from
    2038-01-18 03:14:08.000003 UTC, [add(hours=24)] moves the instant by
    86400 seconds, but [timestamp], which goes through [float], by 86399:
    from 2147397248 to 2147483647. *)
Lemma C2_counterexample :
  let self := Sample.paris 2016 3 26 12 0 0 0 Sample.CET in
  let after := Sample.paris 2016 3 27 12 0 0 0 Sample.CET in
  let eve := Sample.utc 2038 1 18 3 14 8 3 in
  let day := Sample.utc 2038 1 19 3 14 8 3 in
  Sample.paris_fromutc Sample.CET (mknaive 2016 3 26 11 0 0 0) = Sample.CET /\
  Sample.paris_fromutc Sample.CET (mknaive 2016 3 27 11 0 0 0) = Sample.CEST /\
  add 0 0 0 0 24 0 0 0 None self = (after, Ok tt) /\
  add 0 0 0 1 0 0 0 0 None self = (after, Ok tt) /\
  add 0 0 0 0 24 0 0 0 None eve = (day, Ok tt) /\
  since_epoch day = since_epoch eve + 86400 * US_PER_SECOND /\
  timestamp eve = 2147397248 /\
  timestamp day = 2147483647.
Proof. vm_compute. repeat split. Qed.

(** Claim C2, amended.  When the date reached is a date of the years 1 to
    9999, [add] with hours, minutes, seconds and microseconds only moves the
    instant of the receiver by exactly that elapsed time ([add(hours=24)]
    moves it by 86400 seconds, and moves the [timestamp] of a receiver
    without microseconds by exactly 86400); the civil fields move by the
    same amount, and the [tzinfo] instance, hence the offset, is the one the
    receiver had: nothing is taken back to the zone.  [add(hours=24)] is
    [add(days=1)] on every receiver. *)
Theorem C2_fixed_length_add self h mi s us :
  valid_fields self ->
  let elapsed := ((h * 60 + mi) * 60 + s) * US_PER_SECOND + us in
  1 <= (naive_microseconds (fields (_datetime self)) + elapsed) / US_PER_DAY
    <= _MAXORDINAL ->
  (exists self',
     add 0 0 0 0 h mi s us None self = (self', Ok tt) /\
     since_epoch self' = since_epoch self + elapsed /\
     dt_tzinfo (_datetime self') = dt_tzinfo (_datetime self) /\
     _tz self' = _tz self /\
     (h = 24 -> mi = 0 -> s = 0 -> us = 0 ->
      microsecond self = 0 -> valid_tzinfo (dt_tzinfo (_datetime self)) ->
      timestamp self' = timestamp self + 86400)) /\
  add 0 0 0 0 24 0 0 0 None self = add 0 0 0 1 0 0 0 0 None self.
Proof.
  intros Hv elapsed Hr. split; [|reflexivity].
  destruct (add_fixed_length self h mi s us Hv Hr) as (n & Eadd & En).
  fold elapsed in En.
  exists (with_fields self n). split; [exact Eadd|].
  pose proof (since_epoch_with_fields self n) as Es.
  split; [lia|]. split; [reflexivity|]. split; [reflexivity|].
  intros -> -> -> -> E0 Htz.
  assert (Eus : microsecond (with_fields self n) = microsecond self).
  { change (add 0 0 0 0 24 0 0 0 None self) with (add_day self) in Eadd.
    assert (Ho : ordinal self + 1 <= _MAXORDINAL).
    { pose proof (time_of_day_range _ Hv) as Ht.
      rewrite naive_microseconds_split in Hr. fold (ordinal self) in Hr.
      subst elapsed. revert Hr Ht.
      generalize (ordinal self) (time_of_day (fields (_datetime self))).
      clear. intros o t Hr Ht. unfold US_PER_DAY, US_PER_SECOND, _MAXORDINAL in *.
      Z.to_euclidean_division_equations; lia. }
    rewrite add_day_spec in Eadd by assumption.
    apply (f_equal (fun p => microsecond (fst p))) in Eadd.
    cbn [fst] in Eadd. rewrite <- Eadd.
    unfold microsecond. rewrite !fields_with_fields. unfold on_ordinal.
    destruct (_ord2ymd (ordinal self + 1)) as [[? ?] ?]. reflexivity. }
  destruct (since_epoch_seconds self (conj Hv Htz) E0) as (t & Et & Ht).
  rewrite (timestamp_whole_seconds self t Et E0) by lia.
  apply timestamp_whole_seconds; [|rewrite Eus; exact E0|lia].
  subst elapsed. unfold US_PER_SECOND in *. lia.
Qed.

Lemma C2_witness :
  let self := Sample.paris 2016 3 26 12 0 0 0 Sample.CET in
  valid_fields self /\
  1 <= (naive_microseconds (fields (_datetime self))
        + (((24 * 60 + 0) * 60 + 0) * US_PER_SECOND + 0)) / US_PER_DAY
    <= _MAXORDINAL /\
  (exists self',
     add 0 0 0 0 24 0 0 0 None self = (self', Ok tt) /\
     since_epoch self' = since_epoch self + (((24 * 60 + 0) * 60 + 0) * US_PER_SECOND + 0) /\
     dt_tzinfo (_datetime self') = dt_tzinfo (_datetime self) /\
     _tz self' = _tz self /\
     timestamp self' = timestamp self + 86400) /\
  add 0 0 0 0 24 0 0 0 None self = add 0 0 0 1 0 0 0 0 None self.
Proof.
  intros self. split; [reflexivity|].
  assert (Hr : 1 <= (naive_microseconds (fields (_datetime self))
        + (((24 * 60 + 0) * 60 + 0) * US_PER_SECOND + 0)) / US_PER_DAY
    <= _MAXORDINAL) by (vm_compute; split; discriminate).
  split; [exact Hr|].
  destruct (C2_fixed_length_add self 24 0 0 0 eq_refl Hr)
    as [(self' & Ea & Es & Et & Ez & Hts) Heq].
  split; [|exact Heq].
  exists self'. split; [exact Ea|]. split; [exact Es|]. split; [exact Et|].
  split; [exact Ez|].
  apply Hts; try reflexivity. unfold valid_tzinfo. cbn. lia.
Defined.

(** Claim C3.  [sub] with given years, months, weeks, days, hours,
    minutes, seconds, microseconds and weekday leaves what [add] leaves with
    the sign of each of these numbers inverted and the same weekday, on
    every receiver, whether the call returns or raises. *)
Theorem C3_sub_is_add_negated y mo w d h mi s us wd self :
  sub y mo w d h mi s us wd self =
  add (- y) (- mo) (- w) (- d) (- h) (- mi) (- s) (- us) wd self.
Proof. apply sub_is_add_negated. Qed.

(** Claim C4, where the code departs from it.  December 9999 has four
    Mondays, and the fifth would be on January 3 of the year 10000:
    [nth_of_month(5, MONDAY)] does not return [False] there, as the claim
    and the docstring of the method say, it raises [OverflowError] (the
    receiver is unchanged).  In December 2026, which has four Mondays as
    well, the same call returns [False] and leaves the receiver as it
    was. *)
Theorem C4_fifth_monday_of_december_9999 :
  let self := Sample.utc 9999 12 4 1 2 3 4 in
  let sibling := Sample.utc 2026 12 4 1 2 3 4 in
  nth_of_month Sample.echo Sample.fixed UTC Sample.no_zone 7 5 (Some MONDAY) self
  = (self, Raise OverflowError) /\
  nth_of_month Sample.echo Sample.fixed UTC Sample.no_zone 7 5 (Some MONDAY) sibling
  = (sibling, Ok ReturnsFalse).
Proof. vm_compute. split; reflexivity. Qed.

(** What [nth_of_month] does, for claim C4.  Let [d] be the day number,
    counted from the first day of the receiver's month, of the [nth] day
    whose weekday is the target, with [nth] at least 2.  When day [d] is in
    the month,
    [nth_of_month(nth, target)] returns the receiver, set to day [d] of its
    month at 00:00:00, a day of the target weekday.  When it is past the end
    of the month and no later than 9999-12-31, the call returns [False] and
    the receiver is left as it was, in every field.  When it is later than
    9999-12-31, the call raises [OverflowError], the receiver being left as
    it was: there the method does not do what its docstring says. *)
Theorem C4_nth_of_month platform localize get_localzone timezone fuel nth t self :
  valid_fields self -> 0 <= t <= 6 -> 2 <= nth -> (6 <= fuel)%nat ->
  let first := _ymd2ord (year self) (month self) 1 in
  let d := (t - first) mod 7 + 1 + 7 * (nth - 1) in
  (d <= _days_in_month (year self) (month self) ->
   exists self',
     nth_of_month platform localize get_localzone timezone fuel nth (Some t) self
     = (self', Ok ReturnsSelf) /\
     year self' = year self /\ month self' = month self /\ day self' = d /\
     day_of_week platform self' = Ok t /\
     hour self' = 0 /\ minute self' = 0 /\ second self' = 0 /\
     microsecond self' = microsecond self /\
     _tz self' = _tz self /\
     dt_tzinfo (_datetime self') = dt_tzinfo (_datetime self)) /\
  (_days_in_month (year self) (month self) < d ->
   first + d - 1 <= _MAXORDINAL ->
   nth_of_month platform localize get_localzone timezone fuel nth (Some t) self
   = (self, Ok ReturnsFalse)) /\
  (_MAXORDINAL < first + d - 1 ->
   nth_of_month platform localize get_localzone timezone fuel nth (Some t) self
   = (self, Raise OverflowError)).
Proof.
  intros Hv Ht Hnth Hfuel first d.
  pose proof (valid_naive_bounds _ Hv) as (Hy & Hm & _).
  pose proof (Z.mod_pos_bound (t - first) 7 ltac:(lia)) as Hmod.
  split; [|split].
  - intros Hd.
    assert (Hr : first + d - 1 <= _MAXORDINAL).
    { assert (Hvd : valid_naive (mknaive (year self) (month self) d 0 0 0 0))
        by (apply valid_naive_intro; auto; lia).
      pose proof (toordinal_range _ Hvd) as Hrd.
      rewrite toordinal_day in Hrd. fold first in Hrd. lia. }
    pose proof (nth_of_month_spec platform localize get_localzone timezone
                  fuel nth t self Hv Ht Hnth Hfuel Hr) as Hspec.
    cbv zeta in Hspec. fold (year self) (month self) in Hspec.
    fold first in Hspec. fold d in Hspec.
    rewrite Hspec.
    replace (d <=? _days_in_month (year self) (month self)) with true by lia.
    eexists. split; [reflexivity|].
    repeat (split; [reflexivity|]). split.
    + rewrite day_of_week_ordinal. f_equal.
      unfold ordinal. rewrite fields_with_fields, toordinal_day.
      fold first. subst d. Z.to_euclidean_division_equations; lia.
    + repeat split.
  - intros Hd Hr.
    pose proof (nth_of_month_spec platform localize get_localzone timezone
                  fuel nth t self Hv Ht Hnth Hfuel Hr) as Hspec.
    cbv zeta in Hspec. fold (year self) (month self) in Hspec.
    fold first in Hspec. fold d in Hspec.
    rewrite Hspec.
    replace (d <=? _days_in_month (year self) (month self)) with false by lia.
    reflexivity.
  - intros Hr.
    exact (nth_of_month_overflow platform localize get_localzone timezone
             fuel nth t self Hv Ht Hnth Hfuel Hr).
Qed.

Lemma C4_witness :
  let self := Sample.utc 2026 11 4 1 2 3 4 in
  let first := _ymd2ord (year self) (month self) 1 in
  let d := (FRIDAY - first) mod 7 + 1 + 7 * (5 - 1) in
  valid_fields self /\ 0 <= FRIDAY <= 6 /\ 2 <= 5 /\ (6 <= 6)%nat /\
  _days_in_month (year self) (month self) < d /\
  first + d - 1 <= _MAXORDINAL /\
  nth_of_month Sample.echo Sample.fixed UTC Sample.no_zone 6 5 (Some FRIDAY) self
  = (self, Ok ReturnsFalse).
Proof.
  intros self first d.
  assert (Hv : valid_fields self) by reflexivity.
  assert (Ht : 0 <= FRIDAY <= 6) by (split; discriminate).
  assert (Hn : 2 <= 5) by discriminate.
  assert (Hf : (6 <= 6)%nat) by apply le_n.
  assert (Hd : _days_in_month (year self) (month self) < d) by reflexivity.
  assert (Hr : first + d - 1 <= _MAXORDINAL) by discriminate.
  repeat (split; [assumption|]).
  exact (proj1 (proj2 (C4_nth_of_month Sample.echo Sample.fixed UTC Sample.no_zone
                         6 5 FRIDAY self Hv Ht Hn Hf)) Hd Hr).
Defined.

(** Claim C5 fails as stated: in the year 5 the decade starts in a year 0,
    which is no year of [datetime], and [start_of_decade] raises
    [ValueError]; in the year 9950 the century ends in the year 10000 and
    [end_of_century] raises [ValueError]. *)
Lemma C5_counterexample :
  let self := Sample.utc 5 6 15 12 0 0 0 in
  start_of_decade self = (self, Raise ValueError) /\
  end_of_century (Sample.utc 9950 6 15 12 0 0 0)
  = (Sample.utc 9950 6 15 12 0 0 0, Raise ValueError).
Proof. vm_compute. split; reflexivity. Qed.

(** Claim C5, amended.  [start_of_decade] sets January 1 00:00:00 of the
    year [year - year mod 10] when the receiver's year is 10 or more;
    [end_of_decade] sets December 31 23:59:59 of that year plus 9;
    [start_of_century] sets January 1 00:00:00 of the year
    [(year - 1) - (year - 1) mod 100 + 1]; [end_of_century] sets December 31
    23:59:59 of that year plus 99 when the receiver's year is 9900 or less.
    The microsecond is kept.  In the years 1 to 9 [start_of_decade], and in
    the years 9901 to 9999 [end_of_century], raise [ValueError] and leave
    the receiver as it was. *)
Theorem C5_decade_century self :
  valid_fields self ->
  let y := year self in
  let us := microsecond self in
  (10 <= y ->
   start_of_decade self
   = (with_fields self (mknaive (y - y mod 10) 1 1 0 0 0 us), Ok tt)) /\
  end_of_decade self
  = (with_fields self (mknaive (y - y mod 10 + 9) 12 31 23 59 59 us), Ok tt) /\
  start_of_century self
  = (with_fields self (mknaive ((y - 1) - (y - 1) mod 100 + 1) 1 1 0 0 0 us),
     Ok tt) /\
  (y <= 9900 ->
   end_of_century self
   = (with_fields self
        (mknaive ((y - 1) - (y - 1) mod 100 + 1 + 99) 12 31 23 59 59 us),
      Ok tt)) /\
  (y < 10 -> start_of_decade self = (self, Raise ValueError)) /\
  (9900 < y -> end_of_century self = (self, Raise ValueError)).
Proof.
  intros Hv y us.
  pose proof (valid_naive_bounds _ Hv) as (Hy & _). fold (year self) in Hy. fold y in Hy.
  unfold start_of_decade, end_of_decade, start_of_century, end_of_century,
    YEARS_PER_DECADE, YEARS_PER_CENTURY. fold y.
  assert (Hjan : forall z, 1 <= 1 <= _days_in_month z 1)
    by (intros; unfold _days_in_month; simpl; lia).
  assert (Hdec : forall z, 1 <= 31 <= _days_in_month z 12)
    by (intros; unfold _days_in_month; simpl; lia).
  repeat split.
  - intros H10. apply set_date_time_spec; auto; try lia.
    Z.to_euclidean_division_equations; lia.
  - replace (y - y mod 10 + 10 - 1) with (y - y mod 10 + 9) by lia.
    apply set_date_time_spec; auto; try lia.
    Z.to_euclidean_division_equations; lia.
  - replace (y - 1 - (y - 1) mod 100 + 1) with ((y - 1) - (y - 1) mod 100 + 1) by lia.
    apply set_date_time_spec; auto; try lia.
    Z.to_euclidean_division_equations; lia.
  - intros H9900.
    replace (y - 1 - (y - 1) mod 100 + 100)
      with ((y - 1) - (y - 1) mod 100 + 1 + 99) by lia.
    apply set_date_time_spec; auto; try lia.
    Z.to_euclidean_division_equations; lia.
  - intros H10. apply set_date_time_bad_year.
    Z.to_euclidean_division_equations; lia.
  - intros H9900. apply set_date_time_bad_year.
    Z.to_euclidean_division_equations; lia.
Qed.

Lemma C5_witness :
  let self := Sample.utc 2024 6 15 12 30 45 7 in
  valid_fields self /\
  start_of_decade self = (Sample.utc 2020 1 1 0 0 0 7, Ok tt) /\
  end_of_decade self = (Sample.utc 2029 12 31 23 59 59 7, Ok tt) /\
  start_of_century self = (Sample.utc 2001 1 1 0 0 0 7, Ok tt) /\
  end_of_century self = (Sample.utc 2100 12 31 23 59 59 7, Ok tt).
Proof.
  intros self.
  assert (Hv : valid_fields self) by reflexivity.
  destruct (C5_decade_century self Hv) as (H1 & H2 & H3 & H4 & _).
  split; [exact Hv|].
  split; [exact (H1 ltac:(discriminate))|].
  split; [exact H2|]. split; [exact H3|].
  exact (H4 ltac:(discriminate)).
Defined.

Lemma fromordinal_time_valid d s us :
  1 <= d <= _MAXORDINAL -> 0 <= s < 86400 -> 0 <= us <= 999999 ->
  valid_naive (fromordinal_time d s us) /\
  naive_microseconds (fromordinal_time d s us)
  = (d * 86400 + s) * US_PER_SECOND + us.
Proof.
  intros Hd Hs Hus.
  destruct (ymd2ord_ord2ymd d) as (y & m & dd & E & Hy & Hm & Hdd & Eo); [lia|].
  unfold fromordinal_time. rewrite E. split.
  - apply valid_naive_intro; auto; try (Z.to_euclidean_division_equations; lia).
    split; [lia|].
    destruct (Z_le_gt_dec y 9999) as [Hle|Hgt]; auto. exfalso.
    assert (Hlt : 9999 < y) by lia.
    pose proof (dby_mono _ _ Hlt) as Hmono.
    change (_days_before_year 9999) with 3651694 in Hmono.
    change (days_in_year 9999) with 365 in Hmono.
    destruct (ymd2ord_in_year _ _ _ Hm Hdd) as (k & Hk & E' & _).
    unfold _MAXORDINAL in Hd. lia.
  - unfold naive_microseconds, toordinal.
    cbn [PyDatetime.year PyDatetime.month PyDatetime.day PyDatetime.hour
         PyDatetime.minute PyDatetime.second PyDatetime.microsecond].
    rewrite Eo. unfold US_PER_SECOND.
    Z.to_euclidean_division_equations; lia.
Qed.

Lemma naive_add_valid f td n : naive_add f td = Ok n -> valid_naive n.
Proof.
  unfold naive_add, timedelta_of_microseconds.
  set (total := naive_microseconds f + td_total_microseconds td).
  cbv zeta.
  destruct ((-999999999 <=? total / US_PER_DAY) && (total / US_PER_DAY <=? 999999999));
    cbn [rbind]; [|discriminate].
  cbn [td_days td_seconds td_microseconds].
  destruct ((0 <? total / US_PER_DAY) && (total / US_PER_DAY <=? _MAXORDINAL)) eqn:Hr;
    [|discriminate].
  intros [= <-].
  apply fromordinal_time_valid; [lia| |].
  - generalize total. intros z. unfold US_PER_DAY, US_PER_SECOND.
    Z.to_euclidean_division_equations; lia.
  - generalize (total mod US_PER_DAY). intros z. unfold US_PER_SECOND.
    Z.to_euclidean_division_equations; lia.
Qed.

Lemma astimezone_valid fromutc dt tz dt' :
  valid_naive (fields dt) ->
  astimezone fromutc dt tz = Ok dt' -> valid_naive (fields dt').
Proof.
  intros Hv. unfold astimezone.
  destruct (tzinfo_eqb tz (dt_tzinfo dt)); [intros [= <-]; exact Hv|].
  destruct (utcoffset dt) as [off| |]; cbn [rbind]; try discriminate.
  destruct (timedelta_neg off) as [minus| |]; cbn [rbind]; try discriminate.
  destruct (naive_add (fields dt) minus) as [utc| |]; cbn [rbind]; try discriminate.
  destruct (timedelta_new 0 0 (tz_utcoffset (fromutc tz utc)) 0 0) as [shift| |];
    cbn [rbind]; try discriminate.
  destruct (naive_add utc shift) as [loc| |] eqn:E; cbn [rbind]; try discriminate.
  intros [= <-]. cbn [fields]. exact (naive_add_valid _ _ _ E).
Qed.

Lemma naive_microseconds_mod f :
  valid_naive f -> naive_microseconds f mod US_PER_SECOND = PyDatetime.microsecond f.
Proof.
  intros Hv. apply valid_naive_bounds in Hv. destruct Hv as (_ & _ & _ & _ & _ & _ & Hus).
  unfold naive_microseconds.
  generalize (((toordinal f * 24 + PyDatetime.hour f) * 60 + PyDatetime.minute f) * 60
              + PyDatetime.second f).
  intros z. unfold US_PER_SECOND. Z.to_euclidean_division_equations; lia.
Qed.

Lemma naive_microseconds_utc dt :
  naive_microseconds (fields dt)
  = utc_microseconds dt + tz_utcoffset (dt_tzinfo dt) * 60 * US_PER_SECOND.
Proof. unfold utc_microseconds. generalize (naive_microseconds (fields dt)). intros. lia. Qed.

Lemma timestamp_same a b :
  since_epoch a = since_epoch b -> microsecond a = microsecond b ->
  timestamp a = timestamp b.
Proof. unfold timestamp, float_timestamp. intros -> ->. reflexivity. Qed.

(** Offsets are whole minutes: a change of zone keeps the microsecond. *)
Lemma astimezone_microsecond fromutc dt tz dt' :
  valid_naive (fields dt) ->
  astimezone fromutc dt tz = Ok dt' ->
  PyDatetime.microsecond (fields dt') = PyDatetime.microsecond (fields dt).
Proof.
  intros Hv E.
  pose proof (astimezone_valid _ _ _ _ Hv E) as Hv'.
  destruct (astimezone_instant _ _ _ _ E) as [Ei _].
  rewrite <- (naive_microseconds_mod _ Hv), <- (naive_microseconds_mod _ Hv').
  rewrite !naive_microseconds_utc, Ei.
  generalize (utc_microseconds dt) (tz_utcoffset (dt_tzinfo dt'))
    (tz_utcoffset (dt_tzinfo dt)).
  intros u z z'. unfold US_PER_SECOND. Z.to_euclidean_division_equations; lia.
Qed.

Lemma since_epoch_datetime a b :
  _datetime a = _datetime b -> since_epoch a = since_epoch b.
Proof. unfold since_epoch. intros ->. reflexivity. Qed.

Lemma since_epoch_of_utc a b :
  utc_microseconds (_datetime a) = utc_microseconds (_datetime b) ->
  since_epoch a = since_epoch b.
Proof. rewrite !since_epoch_utc. intros ->. reflexivity. Qed.

(** [set_timezone] with a zone that resolves: the zone is set, then the
    datetime is, unless [astimezone] raises. *)
Lemma set_timezone_run fromutc get_localzone timezone value tz self :
  _safe_create_datetime_zone get_localzone timezone value = Ok tz ->
  set_timezone fromutc get_localzone timezone value self =
  match astimezone fromutc (_datetime self) tz with
  | Ok dt' => (mkPendulum tz dt', Ok tt)
  | Raise e => (mkPendulum tz (_datetime self), Raise e)
  | OutOfFuel => (mkPendulum tz (_datetime self), OutOfFuel)
  end.
Proof.
  intros Hz. unfold set_timezone. rewrite Hz. unfold set_datetime.
  cbn [_datetime _tz]. destruct (astimezone fromutc (_datetime self) tz); reflexivity.
Qed.

(** Claim C6 fails as stated: half an hour before the end of 9999-12-31 in
    UTC, the civil time one hour east is in the year 10000, which
    [datetime] does not hold.  [set_timezone(1)] raises [OverflowError]; the
    civil fields and the [tzinfo] are still those of UTC, not those of the
    new zone, which the receiver now names as its zone. *)
Lemma C6_counterexample :
  let self := Sample.utc 9999 12 31 23 30 0 0 in
  let east := mktzinfo "" 60 in
  _safe_create_datetime_zone UTC Sample.no_zone (ZoneHours 1) = Ok east /\
  set_timezone Sample.fixed UTC Sample.no_zone (ZoneHours 1) self
  = (Pendulum.mkPendulum east (_datetime self), Raise OverflowError) /\
  fields (_datetime self) = mknaive 9999 12 31 23 30 0 0 /\
  dt_tzinfo (_datetime self) = UTC.
Proof. vm_compute. repeat split. Qed.

(** Claim C6, amended.  For a zone that resolves, [set_timezone] leaves the
    instant of the receiver, and its [timestamp], as they were, whatever the
    outcome of the call, and makes the zone the receiver's; the call returns
    or raises [OverflowError], and it returns when the receiver is two days
    or more from both ends of the calendar.  When it returns and the zone
    was another one, the [tzinfo] is the instance of the zone at that
    instant and the civil fields are those of the instant in UTC moved by
    the offset of that instance.  When it raises, the civil fields and the
    [tzinfo] are as they were. *)
Theorem C6_set_timezone fromutc get_localzone timezone value tz self self' r :
  _safe_create_datetime_zone get_localzone timezone value = Ok tz ->
  set_timezone fromutc get_localzone timezone value self = (self', r) ->
  since_epoch self' = since_epoch self /\
  (valid_fields self -> timestamp self' = timestamp self) /\
  _tz self' = tz /\
  (r = Ok tt \/ r = Raise OverflowError) /\
  (r = Ok tt ->
   tzinfo_eqb tz (dt_tzinfo (_datetime self)) = false ->
   exists utc,
     naive_microseconds utc = utc_microseconds (_datetime self) /\
     dt_tzinfo (_datetime self') = fromutc tz utc /\
     naive_microseconds (fields (_datetime self'))
     = naive_microseconds utc
       + tz_utcoffset (fromutc tz utc) * 60 * US_PER_SECOND) /\
  (r = Raise OverflowError -> _datetime self' = _datetime self) /\
  (valid self -> (forall z n, valid_tzinfo (fromutc z n)) ->
   3 <= ordinal self <= _MAXORDINAL - 2 -> r = Ok tt).
Proof.
  intros Hz. rewrite (set_timezone_run _ _ _ _ _ _ Hz).
  destruct (astimezone_outcome fromutc (_datetime self) tz) as [[dt' E]|E];
    rewrite E; intros [= <- <-].
  - destruct (astimezone_instant _ _ _ _ E) as (Hi & Hfrom).
    assert (Es : since_epoch (Pendulum.mkPendulum tz dt') = since_epoch self)
      by (apply since_epoch_of_utc; exact Hi).
    split; [exact Es|].
    split.
    { intros Hv. apply timestamp_same; [exact Es|].
      exact (astimezone_microsecond _ _ _ _ Hv E). }
    split; [reflexivity|]. split; [left; reflexivity|].
    split; [|split; [discriminate|reflexivity]].
    intros _ Hne. exact (Hfrom Hne).
  - split; [apply since_epoch_datetime; reflexivity|].
    split.
    { intros _. apply timestamp_same;
        [apply since_epoch_datetime; reflexivity|reflexivity]. }
    split; [reflexivity|]. split; [right; reflexivity|]. split; [discriminate|].
    split; [reflexivity|].
    intros [Hv Htz] Hfrom Hr.
    destruct (astimezone_succeeds fromutc (_datetime self) tz Hv Htz Hfrom Hr) as [dt' E''].
    rewrite E in E''. discriminate.
Qed.

Lemma C6_witness :
  let self := Sample.paris 2016 7 14 12 0 0 0 Sample.CEST in
  let there := Pendulum.mkPendulum UTC (mkdatetime (mknaive 2016 7 14 10 0 0 0) UTC) in
  _safe_create_datetime_zone UTC Sample.no_zone (ZoneHours 0) = Ok UTC /\
  set_timezone Sample.fixed UTC Sample.no_zone (ZoneHours 0) self = (there, Ok tt) /\
  since_epoch there = since_epoch self /\
  timestamp there = timestamp self /\
  _tz there = UTC.
Proof.
  intros self there.
  assert (Hz : _safe_create_datetime_zone UTC Sample.no_zone (ZoneHours 0) = Ok UTC)
    by reflexivity.
  assert (Hs : set_timezone Sample.fixed UTC Sample.no_zone (ZoneHours 0) self
               = (there, Ok tt)) by (vm_compute; reflexivity).
  split; [exact Hz|]. split; [exact Hs|].
  destruct (C6_set_timezone Sample.fixed UTC Sample.no_zone (ZoneHours 0) UTC
              self there (Ok tt) Hz Hs) as (H1 & H2 & H3 & _).
  split; [exact H1|]. split; [exact (H2 eq_refl)|exact H3].
Defined.

Lemma append_empty s : String.append s EmptyString = s.
Proof. induction s as [|c s IH]; [reflexivity|]. cbn [String.append]. now rewrite IH. Qed.

(** A template that is the custom formatter alone. *)
Lemma format_P platform self :
  format platform self "%P" = _strftime self "P".
Proof.
  unfold format, strftime. cbn [String.length strftime_rec match_formatters
    Ascii.eqb Bool.eqb NEWLINE first_line rbind String.append].
  destruct (_strftime self "P") as [b| |]; cbn [rbind]; try reflexivity.
  now rewrite append_empty.
Qed.

(** Claim C7.  At an offset of zero, formatting with the custom formatter
    [%P] prints [-00:00].  At any offset of less than a day, it prints [+]
    when the offset in minutes is greater than 0 and [-] otherwise, then the
    hours of the absolute offset on two digits, a colon, and its minutes on
    two digits. *)
Theorem C7_offset_formatter platform self :
  let offset := tz_utcoffset (dt_tzinfo (_datetime self)) in
  (offset = 0 -> format platform self "%P" = Ok "-00:00"%string) /\
  (valid_tzinfo (dt_tzinfo (_datetime self)) ->
   format platform self "%P" = Ok (offset_text offset) /\
   _strftime self "P" = Ok (offset_text offset)).
Proof.
  intros offset. rewrite format_P. split.
  - intros E. rewrite _strftime_P.
    + fold offset. rewrite E. reflexivity.
    + unfold valid_tzinfo. fold offset. lia.
  - intros Hv. split; apply _strftime_P; exact Hv.
Qed.

Lemma C7_witness :
  let tz := mktzinfo "Asia/Kolkata" 330 in
  let self := Pendulum.mkPendulum tz (mkdatetime (mknaive 2016 7 14 12 0 0 0) tz) in
  valid_tzinfo (dt_tzinfo (_datetime self)) /\
  tz_utcoffset (dt_tzinfo (_datetime (Sample.utc 2016 7 14 12 0 0 0))) = 0 /\
  format Sample.echo self "%P" = Ok "+05:30"%string /\
  format Sample.echo (Sample.utc 2016 7 14 12 0 0 0) "%P" = Ok "-00:00"%string.
Proof.
  intros tz self.
  assert (Hv : valid_tzinfo (dt_tzinfo (_datetime self))) by (split; reflexivity).
  split; [exact Hv|]. split; [reflexivity|].
  split.
  - exact (proj1 (proj2 (C7_offset_formatter Sample.echo self) Hv)).
  - exact (proj1 (C7_offset_formatter Sample.echo (Sample.utc 2016 7 14 12 0 0 0))
             eq_refl).
Defined.

(** Claim C8 fails as stated: from Wednesday 2026-11-04, seven calls of
    [next(MONDAY)] reach Monday 2026-12-21, which is 47 days later and not a
    Wednesday. *)
Lemma C8_counterexample :
  let self := Sample.utc 2026 11 4 9 30 0 0 in
  let there := Sample.utc 2026 12 21 0 0 0 0 in
  next_times Sample.echo 6 7 (Some MONDAY) self = (there, Ok tt) /\
  day_of_week Sample.echo self = Ok WEDNESDAY /\
  day_of_week Sample.echo there = Ok MONDAY /\
  ordinal there = ordinal self + 47.
Proof. vm_compute. repeat split. Qed.

(** Claim C8, amended.  From a date 49 days or more before 9999-12-31,
    seven calls of [next(MONDAY)] in a row leave a Monday at 00:00:00, 42
    days after the first Monday that follows the receiver's date, that is
    between 43 and 49 days after that date; it is exactly 49 days after it
    if and only if the receiver's date is itself a Monday, the only case
    where the weekday is the one the receiver had. *)
Theorem C8_next_monday_seven_times platform fuel self :
  valid_fields self -> (6 <= fuel)%nat ->
  ordinal self + 49 <= _MAXORDINAL ->
  exists self',
    next_times platform fuel 7 (Some MONDAY) self = (self', Ok tt) /\
    day_of_week platform self' = Ok MONDAY /\
    ordinal self' = next_ordinal (ordinal self) MONDAY + 42 /\
    ordinal self + 43 <= ordinal self' <= ordinal self + 49 /\
    (day_of_week platform self = Ok MONDAY <->
     ordinal self' = ordinal self + 49) /\
    hour self' = 0 /\ minute self' = 0 /\ second self' = 0.
Proof.
  intros Hv Hfuel Hr.
  pose proof (toordinal_range _ Hv) as Ho. fold (ordinal self) in Ho.
  assert (Hn : ordinal self < next_ordinal (ordinal self) MONDAY <= ordinal self + 7).
  { unfold next_ordinal.
    pose proof (Z.mod_pos_bound (MONDAY - (ordinal self + 1)) 7 ltac:(lia)). lia. }
  rewrite (next_times_spec platform fuel MONDAY 6 self Hv)
    by (auto; solve [lia | unfold MONDAY; lia]).
  change (7 * Z.of_nat 6) with 42.
  destruct (on_ordinal_valid (at_midnight (fields (_datetime self)))
              (next_ordinal (ordinal self) MONDAY + 42)) as [Hv' Eo'];
    [apply at_midnight_valid, Hv|lia|].
  eexists. split; [reflexivity|].
  assert (Eord : ordinal (with_fields self
            (on_ordinal (at_midnight (fields (_datetime self)))
               (next_ordinal (ordinal self) MONDAY + 42)))
          = next_ordinal (ordinal self) MONDAY + 42) by exact Eo'.
  rewrite !day_of_week_ordinal, Eord.
  split.
  { f_equal. unfold next_ordinal, MONDAY. Z.to_euclidean_division_equations; lia. }
  split; [reflexivity|]. split; [lia|].
  split.
  { unfold next_ordinal, MONDAY. split.
    - intros [= E]. Z.to_euclidean_division_equations; lia.
    - intros E. f_equal. Z.to_euclidean_division_equations; lia. }
  unfold hour, minute, second. rewrite fields_with_fields. unfold on_ordinal.
  destruct (_ord2ymd _) as [[? ?] ?]. repeat split.
Qed.

Lemma C8_witness :
  let self := Sample.utc 2026 11 2 9 30 0 0 in
  valid_fields self /\ (6 <= 6)%nat /\ ordinal self + 49 <= _MAXORDINAL /\
  exists self',
    next_times Sample.echo 6 7 (Some MONDAY) self = (self', Ok tt) /\
    day_of_week Sample.echo self' = Ok MONDAY /\
    ordinal self' = next_ordinal (ordinal self) MONDAY + 42 /\
    ordinal self + 43 <= ordinal self' <= ordinal self + 49 /\
    (day_of_week Sample.echo self = Ok MONDAY <->
     ordinal self' = ordinal self + 49) /\
    hour self' = 0 /\ minute self' = 0 /\ second self' = 0.
Proof.
  intros self.
  assert (Hv : valid_fields self) by reflexivity.
  assert (Hf : (6 <= 6)%nat) by apply le_n.
  assert (Hr : ordinal self + 49 <= _MAXORDINAL) by discriminate.
  split; [exact Hv|]. split; [exact Hf|]. split; [exact Hr|].
  exact (C8_next_monday_seven_times Sample.echo 6 self Hv Hf Hr).
Defined.

(** Claim C9 fails as stated: a template with the directive [%Q], which is
    no custom formatter, does not fail with the exception of [_strftime]; it
    is rendered by [datetime.strftime], which prints what the platform
    prints for [%Q] or raises [ValueError] when the platform rejects it. *)
Lemma C9_counterexample :
  strftime Sample.echo (Sample.utc 2016 7 14 12 0 0 0) "%Y at %Q"
  = Ok "2016 at %Q"%string /\
  strftime (fun _ _ => None) (Sample.utc 2016 7 14 12 0 0 0) "%Y at %Q"
  = Raise ValueError.
Proof. vm_compute. split; reflexivity. Qed.

(** Claim C9, amended.  [_strftime], called with a formatter other than
    [P], raises [PendulumException] with the message [Unknown formatter %]
    followed by the formatter.  [strftime] and [format] never raise it: the
    template is split at the custom formatter [%P] only, and a template
    without [%P] on its first line is rendered by [datetime.strftime] as it
    is, so that the outcome is a string or an exception of [datetime]. *)
Theorem C9_unknown_formatter platform self fmt :
  (fmt <> "P"%string ->
   _strftime self fmt = Raise (PendulumException ("Unknown formatter %" ++ fmt))) /\
  delegated (strftime platform self fmt) /\
  (forall msg, strftime platform self fmt <> Raise (PendulumException msg)) /\
  (fmt <> EmptyString -> match_formatters fmt = None ->
   strftime platform self fmt = PyDatetime.strftime platform (_datetime self) fmt).
Proof.
  split; [apply _strftime_unknown|].
  pose proof (strftime_outcome platform self fmt) as D.
  split; [exact D|]. split.
  - intros msg E. rewrite E in D. exact D.
  - apply strftime_delegates.
Qed.

Lemma C9_witness :
  let self := Sample.utc 2016 7 14 12 0 0 0 in
  "Q"%string <> "P"%string /\
  _strftime self "Q" = Raise (PendulumException "Unknown formatter %Q") /\
  "%Q"%string <> EmptyString /\ match_formatters "%Q" = None /\
  strftime Sample.echo self "%Q"
  = PyDatetime.strftime Sample.echo (_datetime self) "%Q".
Proof.
  intros self.
  assert (H1 : "Q"%string <> "P"%string) by discriminate.
  assert (H2 : "%Q"%string <> EmptyString) by discriminate.
  assert (H3 : match_formatters "%Q" = None) by reflexivity.
  split; [exact H1|].
  split; [exact (proj1 (C9_unknown_formatter Sample.echo self "Q") H1)|].
  split; [exact H2|]. split; [exact H3|].
  exact (proj2 (proj2 (proj2 (C9_unknown_formatter Sample.echo self "%Q"))) H2 H3).
Defined.

(** Claim C10.  For a target weekday from 0 to 6, [first_of_month(target)]
    leaves the receiver in its year and month, on a day of the month from 1
    to 7 whose weekday is the target, at 00:00:00; [last_of_month(target)]
    leaves it in its year and month, on a day from [days_in_month - 6] to
    [days_in_month] whose weekday is the target, at 00:00:00. *)
Theorem C10_first_last_of_month platform self t :
  valid_fields self -> 0 <= t <= 6 ->
  (exists self',
     first_of_month (Some t) self = (self', Ok tt) /\
     year self' = year self /\ month self' = month self /\
     1 <= day self' <= 7 /\
     day_of_week platform self' = Ok t /\
     hour self' = 0 /\ minute self' = 0 /\ second self' = 0) /\
  (exists self' dim,
     days_in_month self = Ok dim /\
     last_of_month (Some t) self = (self', Ok tt) /\
     year self' = year self /\ month self' = month self /\
     dim - 6 <= day self' <= dim /\
     day_of_week platform self' = Ok t /\
     hour self' = 0 /\ minute self' = 0 /\ second self' = 0).
Proof.
  intros Hv Ht.
  pose proof (valid_naive_bounds _ Hv) as (Hy & Hm & _).
  split.
  - rewrite first_of_month_some by assumption. eexists. split; [reflexivity|].
    split; [reflexivity|]. split; [reflexivity|].
    unfold day. rewrite fields_with_fields. cbn [PyDatetime.day].
    set (o1 := _ymd2ord _ _ 1).
    pose proof (Z.mod_pos_bound (t - o1) 7 ltac:(lia)).
    split; [lia|]. split; [|repeat split].
    rewrite day_of_week_ordinal. f_equal. unfold ordinal.
    rewrite fields_with_fields. cbv zeta. rewrite toordinal_day. fold o1.
    Z.to_euclidean_division_equations; lia.
  - rewrite last_of_month_some by assumption.
    destruct (monthrange_valid _ _ Hy Hm) as (day1 & Emr & _).
    eexists. eexists. split.
    { unfold days_in_month, year, month. rewrite Emr. reflexivity. }
    split; [reflexivity|].
    split; [reflexivity|]. split; [reflexivity|].
    unfold day. rewrite fields_with_fields. cbn [PyDatetime.day snd].
    set (o1 := _ymd2ord _ _ 1). set (dim := _days_in_month _ _).
    pose proof (Z.mod_pos_bound (o1 + dim - 1 - t) 7 ltac:(lia)).
    split; [lia|]. split; [|repeat split].
    rewrite day_of_week_ordinal. f_equal. unfold ordinal.
    rewrite fields_with_fields. cbv zeta. rewrite toordinal_day. fold o1 dim.
    Z.to_euclidean_division_equations; lia.
Qed.

Lemma C10_witness :
  let self := Sample.utc 2026 11 4 9 30 0 0 in
  valid_fields self /\ 0 <= FRIDAY <= 6 /\
  (exists self',
     first_of_month (Some FRIDAY) self = (self', Ok tt) /\
     year self' = year self /\ month self' = month self /\
     1 <= day self' <= 7 /\
     day_of_week Sample.echo self' = Ok FRIDAY /\
     hour self' = 0 /\ minute self' = 0 /\ second self' = 0) /\
  (exists self' dim,
     days_in_month self = Ok dim /\
     last_of_month (Some FRIDAY) self = (self', Ok tt) /\
     year self' = year self /\ month self' = month self /\
     dim - 6 <= day self' <= dim /\
     day_of_week Sample.echo self' = Ok FRIDAY /\
     hour self' = 0 /\ minute self' = 0 /\ second self' = 0).
Proof.
  intros self.
  assert (Hv : valid_fields self) by reflexivity.
  assert (Ht : 0 <= FRIDAY <= 6) by (split; discriminate).
  split; [exact Hv|]. split; [exact Ht|].
  exact (C10_first_last_of_month Sample.echo self FRIDAY Hv Ht).
Defined.

(** * Further properties of the class

    What the code shows of the methods the claims leave out. *)

(** ** Weekday navigation: [previous] and the week *)

Lemma naive_add_days_underflow f k :
  Pendulum.valid_naive f ->
  toordinal f + k < 1 ->
  naive_add f (mktimedelta k 0 0) = Raise OverflowError.
Proof.
  intros Hv Hr.
  pose proof (time_of_day_range f Hv) as Ht.
  assert (E : naive_microseconds f + td_total_microseconds (mktimedelta k 0 0)
              = US_PER_DAY * (toordinal f + k) + time_of_day f).
  { rewrite naive_microseconds_split.
    unfold td_total_microseconds, US_PER_DAY, US_PER_SECOND.
    cbn [td_days td_seconds td_microseconds]. lia. }
  destruct (div_mod_pos US_PER_DAY (toordinal f + k) (time_of_day f) Ht) as [Ed Em].
  unfold naive_add, timedelta_of_microseconds. rewrite E, Ed, Em. cbv zeta.
  destruct ((-999999999 <=? toordinal f + k) && (toordinal f + k <=? 999999999)); simpl; auto.
  replace ((0 <? toordinal f + k) && (toordinal f + k <=? _MAXORDINAL)) with false by lia.
  reflexivity.
Qed.

Lemma sub_day_spec self :
  valid_fields self -> 1 <= ordinal self - 1 ->
  sub_day self =
  (with_fields self (on_ordinal (fields (_datetime self)) (ordinal self - 1)), Ok tt).
Proof.
  intros Hv Hr. pose proof (toordinal_range _ Hv).
  unfold sub_day, sub_days. rewrite sub_is_add_negated.
  unfold add, set_datetime.
  change (Relativedelta.new (- 0) (- 0) (- 0) (- (1)) (- 0) (- 0) (- 0) (- 0) None)
    with (Ok (Relativedelta.mkrelativedelta 0 0 (-1) 0 0 0 0 None)).
  cbn [rbind]. rewrite radd_plain by (auto; reflexivity).
  cbn [Relativedelta.days Relativedelta.hours Relativedelta.minutes
       Relativedelta.seconds Relativedelta.microseconds].
  change (timedelta_new (-1) 0 0 0 0) with (Ok (mktimedelta (-1) 0 0)).
  cbn [rbind]. unfold add_timedelta. unfold ordinal in *.
  rewrite naive_add_days by (auto; lia). reflexivity.
Qed.

Lemma sub_day_underflow self :
  valid_fields self -> ordinal self - 1 < 1 ->
  sub_day self = (self, Raise OverflowError).
Proof.
  intros Hv Hr.
  unfold sub_day, sub_days. rewrite sub_is_add_negated.
  unfold add, set_datetime.
  change (Relativedelta.new (- 0) (- 0) (- 0) (- (1)) (- 0) (- 0) (- 0) (- 0) None)
    with (Ok (Relativedelta.mkrelativedelta 0 0 (-1) 0 0 0 0 None)).
  cbn [rbind]. rewrite radd_plain by (auto; reflexivity).
  cbn [Relativedelta.days Relativedelta.hours Relativedelta.minutes
       Relativedelta.seconds Relativedelta.microseconds].
  change (timedelta_new (-1) 0 0 0 0) with (Ok (mktimedelta (-1) 0 0)).
  cbn [rbind]. unfold add_timedelta. unfold ordinal in *.
  rewrite naive_add_days_underflow by (auto; lia). reflexivity.
Qed.

Lemma previous_loop_spec platform fuel t :
  forall self j,
  valid_fields self -> 0 <= t <= 6 ->
  j = (ordinal self - t) mod 7 ->
  (Z.to_nat j <= fuel)%nat ->
  1 <= ordinal self - j ->
  previous_loop platform fuel t self =
  (with_fields self (on_ordinal (fields (_datetime self)) (ordinal self - j)), Ok tt).
Proof.
  induction fuel as [|fuel IH]; intros self j Hv Ht Ej Hfuel Hr;
    pose proof (toordinal_range _ Hv) as Ho; fold (ordinal self) in Ho;
    assert (Hj : 0 <= j < 7) by (subst j; apply Z.mod_pos_bound; lia);
    cbn [previous_loop]; rewrite day_of_week_ordinal.
  - assert (j = 0) by lia. subst j.
    replace (ordinal self mod 7 =? t) with true
      by (Z.to_euclidean_division_equations; lia).
    rewrite H, Z.sub_0_r. unfold ordinal.
    rewrite on_ordinal_same by exact Hv. rewrite with_fields_same. reflexivity.
  - destruct (ordinal self mod 7 =? t) eqn:E.
    + assert (j = 0) by (subst j; Z.to_euclidean_division_equations; lia).
      rewrite H, Z.sub_0_r. unfold ordinal.
      rewrite on_ordinal_same by exact Hv. rewrite with_fields_same. reflexivity.
    + assert (Hj1 : 1 <= j) by (subst j; Z.to_euclidean_division_equations; lia).
      unfold mbind. rewrite sub_day_spec by (auto; lia).
      set (self1 := with_fields self _).
      destruct (on_ordinal_valid (fields (_datetime self)) (ordinal self - 1))
        as [Hv1 Ho1]; [exact Hv|lia|].
      assert (Hvs : valid_fields self1) by exact Hv1.
      assert (Eo : ordinal self1 = ordinal self - 1) by exact Ho1.
      assert (Ej1 : j - 1 = (ordinal self1 - t) mod 7)
        by (rewrite Eo; subst j; Z.to_euclidean_division_equations; lia).
      rewrite (IH self1 (j - 1)); auto; rewrite ?Eo; try lia.
      subst self1. rewrite with_fields_twice, fields_with_fields, on_ordinal_twice.
      do 3 f_equal. lia.
Qed.

Lemma previous_spec platform fuel t self :
  valid_fields self -> 0 <= t <= 6 -> (6 <= fuel)%nat ->
  1 <= previous_ordinal (ordinal self) t ->
  previous platform fuel (Some t) self =
  (with_fields self
     (on_ordinal (at_midnight (fields (_datetime self)))
        (previous_ordinal (ordinal self) t)), Ok tt).
Proof.
  intros Hv Ht Hfuel Hr. unfold previous_ordinal in *.
  pose proof (toordinal_range _ Hv) as Ho. fold (ordinal self) in Ho.
  assert (Hj : 0 <= (ordinal self - 1 - t) mod 7 < 7) by (apply Z.mod_pos_bound; lia).
  unfold previous, mbind, this, mret.
  rewrite start_of_day_spec by assumption.
  set (self0 := with_fields self _).
  assert (Hv0 : valid_fields self0) by (apply at_midnight_valid, Hv).
  assert (Eo0 : ordinal self0 = ordinal self) by reflexivity.
  rewrite sub_day_spec by (auto; lia).
  set (self1 := with_fields self0 _).
  destruct (on_ordinal_valid (fields (_datetime self0)) (ordinal self0 - 1))
    as [Hv1 Ho1]; [exact Hv0|lia|].
  assert (Hvs : valid_fields self1) by exact Hv1.
  assert (Eo : ordinal self1 = ordinal self - 1) by (rewrite <- Eo0; exact Ho1).
  rewrite (previous_loop_spec platform fuel t self1 ((ordinal self - 1 - t) mod 7));
    auto; rewrite ?Eo; try lia.
  subst self1 self0.
  rewrite !with_fields_twice, !fields_with_fields, on_ordinal_twice.
  reflexivity.
Qed.

Lemma previous_loop_underflow platform t :
  forall fuel self1, valid_fields self1 -> 0 <= t <= 6 ->
    (Z.to_nat ((ordinal self1 - t) mod 7) <= fuel)%nat ->
    ordinal self1 - (ordinal self1 - t) mod 7 < 1 ->
    exists self', previous_loop platform fuel t self1 = (self', Raise OverflowError).
Proof.
  intros fuel. induction fuel as [|fuel IH]; intros self1 Hv1 Ht Hf Hr1;
    pose proof (toordinal_range _ Hv1) as Ho1; fold (ordinal self1) in Ho1;
    assert (Hj : 0 <= (ordinal self1 - t) mod 7 < 7) by (apply Z.mod_pos_bound; lia).
  - exfalso. lia.
  - cbn [previous_loop]. rewrite day_of_week_ordinal.
    destruct (ordinal self1 mod 7 =? t) eqn:E.
    + exfalso. assert ((ordinal self1 - t) mod 7 = 0)
        by (Z.to_euclidean_division_equations; lia). lia.
    + unfold mbind.
      destruct (Z_le_gt_dec 1 (ordinal self1 - 1)) as [Hle|Hgt].
      * rewrite sub_day_spec by (auto; lia).
        destruct (on_ordinal_valid (fields (_datetime self1)) (ordinal self1 - 1))
          as [Hv2 Ho2]; [exact Hv1|lia|].
        assert (E1 : (ordinal self1 - 1 - t) mod 7 = (ordinal self1 - t) mod 7 - 1)
          by (Z.to_euclidean_division_equations; lia).
        apply IH.
        -- exact Hv2.
        -- exact Ht.
        -- rewrite ordinal_with_fields, Ho2, E1. lia.
        -- rewrite ordinal_with_fields, Ho2, E1. lia.
      * rewrite sub_day_underflow by (auto; lia). eexists; reflexivity.
Qed.

Lemma previous_underflow platform fuel t self :
  valid_fields self -> 0 <= t <= 6 -> (6 <= fuel)%nat ->
  previous_ordinal (ordinal self) t < 1 ->
  exists self', previous platform fuel (Some t) self = (self', Raise OverflowError).
Proof.
  intros Hv Ht Hfuel Hr. unfold previous_ordinal in *.
  pose proof (toordinal_range _ Hv) as Ho. fold (ordinal self) in Ho.
  unfold previous, mbind, this, mret.
  rewrite start_of_day_spec by assumption.
  set (self0 := with_fields self _).
  assert (Hv0 : valid_fields self0) by (apply at_midnight_valid, Hv).
  assert (Eo0 : ordinal self0 = ordinal self) by reflexivity.
  clearbody self0.
  destruct (Z_le_gt_dec 1 (ordinal self0 - 1)) as [Hle|Hgt].
  - rewrite sub_day_spec by (auto; lia).
    destruct (on_ordinal_valid (fields (_datetime self0)) (ordinal self0 - 1))
      as [Hv1 Ho1]; [exact Hv0|lia|].
    apply previous_loop_underflow.
    + exact Hv1.
    + exact Ht.
    + rewrite ordinal_with_fields, Ho1, Eo0.
      assert (0 <= (ordinal self - 1 - t) mod 7 < 7) by (apply Z.mod_pos_bound; lia). lia.
    + rewrite ordinal_with_fields, Ho1, Eo0. lia.
  - rewrite sub_day_underflow by (auto; lia). eexists; reflexivity.
Qed.

Lemma on_ordinal_time f o :
  PyDatetime.hour (on_ordinal f o) = PyDatetime.hour f /\
  PyDatetime.minute (on_ordinal f o) = PyDatetime.minute f /\
  PyDatetime.second (on_ordinal f o) = PyDatetime.second f /\
  PyDatetime.microsecond (on_ordinal f o) = PyDatetime.microsecond f.
Proof. unfold on_ordinal. destruct (_ord2ymd o) as [[? ?] ?]. repeat split. Qed.

Lemma next_none platform fuel self :
  next platform fuel None self = next platform fuel (Some (ordinal self mod 7)) self.
Proof. unfold next, mbind, this, lift, mret. rewrite day_of_week_ordinal. reflexivity. Qed.

Lemma previous_none platform fuel self :
  previous platform fuel None self
  = previous platform fuel (Some (ordinal self mod 7)) self.
Proof. unfold previous, mbind, this, lift, mret. rewrite day_of_week_ordinal. reflexivity. Qed.

(** Property X1.  [previous(target)], for a weekday [target] from 0 to 6,
    moves the receiver to the last day before its date whose [day_of_week]
    is the target, between 1 and 7 days back, at 00:00:00, the microsecond,
    the zone and the [tzinfo] kept.  When that day would be before
    0001-01-01, it raises [OverflowError]. *)
Theorem X1_previous platform fuel t self :
  valid_fields self -> 0 <= t <= 6 -> (6 <= fuel)%nat ->
  let o := previous_ordinal (ordinal self) t in
  ordinal self - 7 <= o <= ordinal self - 1 /\
  (1 <= o ->
   exists self',
     previous platform fuel (Some t) self = (self', Ok tt) /\
     ordinal self' = o /\
     day_of_week platform self' = Ok t /\
     hour self' = 0 /\ minute self' = 0 /\ second self' = 0 /\
     microsecond self' = microsecond self /\
     _tz self' = _tz self /\
     dt_tzinfo (_datetime self') = dt_tzinfo (_datetime self)) /\
  (o < 1 ->
   exists self',
     previous platform fuel (Some t) self = (self', Raise OverflowError)).
Proof.
  intros Hv Ht Hfuel o.
  pose proof (toordinal_range _ Hv) as Ho. fold (ordinal self) in Ho.
  assert (Hj : 0 <= (ordinal self - 1 - t) mod 7 < 7) by (apply Z.mod_pos_bound; lia).
  assert (Hoo : ordinal self - 7 <= o <= ordinal self - 1)
    by (subst o; unfold previous_ordinal; lia).
  split; [exact Hoo|]. split.
  - intros Hr. eexists. split; [apply previous_spec; assumption|].
    destruct (on_ordinal_valid (at_midnight (fields (_datetime self))) o)
      as [Hv1 Ho1]; [apply at_midnight_valid, Hv|lia|].
    destruct (on_ordinal_time (at_midnight (fields (_datetime self))) o)
      as (Eh & Emi & Es & Eus).
    fold o. rewrite day_of_week_ordinal, ordinal_with_fields, Ho1.
    unfold hour, minute, second, microsecond.
    rewrite fields_with_fields, Eh, Emi, Es, Eus.
    repeat split. f_equal. subst o. unfold previous_ordinal.
    Z.to_euclidean_division_equations; lia.
  - intros Hr. apply previous_underflow; assumption.
Qed.

Lemma X1_witness :
  let self := Sample.utc 2026 11 4 9 30 0 5 in
  valid_fields self /\ 0 <= FRIDAY <= 6 /\ (6 <= 6)%nat /\
  1 <= previous_ordinal (ordinal self) FRIDAY /\
  exists self',
    previous Sample.echo 6 (Some FRIDAY) self = (self', Ok tt) /\
    ordinal self' = previous_ordinal (ordinal self) FRIDAY /\
    day_of_week Sample.echo self' = Ok FRIDAY /\
    hour self' = 0 /\ minute self' = 0 /\ second self' = 0 /\
    microsecond self' = microsecond self /\
    _tz self' = _tz self /\
    dt_tzinfo (_datetime self') = dt_tzinfo (_datetime self).
Proof.
  intros self.
  assert (Hv : valid_fields self) by reflexivity.
  assert (Ht : 0 <= FRIDAY <= 6) by (split; discriminate).
  assert (Hf : (6 <= 6)%nat) by apply le_n.
  assert (Hr : 1 <= previous_ordinal (ordinal self) FRIDAY) by discriminate.
  split; [exact Hv|]. split; [exact Ht|]. split; [exact Hf|]. split; [exact Hr|].
  exact (proj1 (proj2 (X1_previous Sample.echo 6 FRIDAY self Hv Ht Hf)) Hr).
Defined.

(** Property X2.  [previous()] followed by [next()], and [next()] followed
    by [previous()], each called without a weekday, bring the receiver back
    to its own date: the outcome is that of [start_of_day()] alone.  The
    first needs a week of the calendar before the date, the second a week
    after it. *)
Theorem X2_previous_next_round_trip platform fuel self :
  valid_fields self -> (6 <= fuel)%nat ->
  (8 <= ordinal self ->
   (previous platform fuel None ;;; next platform fuel None) self
   = start_of_day self) /\
  (ordinal self + 7 <= _MAXORDINAL ->
   (next platform fuel None ;;; previous platform fuel None) self
   = start_of_day self).
Proof.
  intros Hv Hfuel.
  pose proof (toordinal_range _ Hv) as Ho. fold (ordinal self) in Ho.
  assert (Hm : 0 <= ordinal self mod 7 < 7) by (apply Z.mod_pos_bound; lia).
  assert (Ep : previous_ordinal (ordinal self) (ordinal self mod 7) = ordinal self - 7)
    by (unfold previous_ordinal; Z.to_euclidean_division_equations; lia).
  assert (En : next_ordinal (ordinal self) (ordinal self mod 7) = ordinal self + 7)
    by (unfold next_ordinal; Z.to_euclidean_division_equations; lia).
  rewrite start_of_day_spec by exact Hv.
  split; intros Hr; unfold mbind at 1.
  - rewrite previous_none, previous_spec by (auto; lia). rewrite Ep.
    set (self1 := with_fields self _).
    destruct (on_ordinal_valid (at_midnight (fields (_datetime self))) (ordinal self - 7))
      as [Hv1 Ho1]; [apply at_midnight_valid, Hv|lia|].
    assert (Hvs : valid_fields self1) by exact Hv1.
    assert (Eo : ordinal self1 = ordinal self - 7) by exact Ho1.
    assert (Hm1 : 0 <= ordinal self1 mod 7 < 7) by (apply Z.mod_pos_bound; lia).
    assert (En1 : next_ordinal (ordinal self1) (ordinal self1 mod 7) = ordinal self)
      by (rewrite Eo; unfold next_ordinal; Z.to_euclidean_division_equations; lia).
    rewrite next_none, next_spec by (auto; lia). rewrite En1.
    subst self1. rewrite with_fields_twice, fields_with_fields.
    rewrite at_midnight_on_ordinal, on_ordinal_twice.
    change (at_midnight (at_midnight ?f)) with (at_midnight f).
    change (ordinal self) with (toordinal (at_midnight (fields (_datetime self)))).
    rewrite on_ordinal_same by (apply at_midnight_valid, Hv). reflexivity.
  - rewrite next_none, next_spec by (auto; lia). rewrite En.
    set (self1 := with_fields self _).
    destruct (on_ordinal_valid (at_midnight (fields (_datetime self))) (ordinal self + 7))
      as [Hv1 Ho1]; [apply at_midnight_valid, Hv|lia|].
    assert (Hvs : valid_fields self1) by exact Hv1.
    assert (Eo : ordinal self1 = ordinal self + 7) by exact Ho1.
    assert (Hm1 : 0 <= ordinal self1 mod 7 < 7) by (apply Z.mod_pos_bound; lia).
    assert (En1 : previous_ordinal (ordinal self1) (ordinal self1 mod 7) = ordinal self)
      by (rewrite Eo; unfold previous_ordinal; Z.to_euclidean_division_equations; lia).
    rewrite previous_none, previous_spec by (auto; lia). rewrite En1.
    subst self1. rewrite with_fields_twice, fields_with_fields.
    rewrite at_midnight_on_ordinal, on_ordinal_twice.
    change (at_midnight (at_midnight ?f)) with (at_midnight f).
    change (ordinal self) with (toordinal (at_midnight (fields (_datetime self)))).
    rewrite on_ordinal_same by (apply at_midnight_valid, Hv). reflexivity.
Qed.

Lemma X2_witness :
  let self := Sample.utc 2026 11 4 9 30 0 5 in
  valid_fields self /\ (6 <= 6)%nat /\
  8 <= ordinal self /\ ordinal self + 7 <= _MAXORDINAL /\
  (previous Sample.echo 6 None ;;; next Sample.echo 6 None) self = start_of_day self /\
  (next Sample.echo 6 None ;;; previous Sample.echo 6 None) self = start_of_day self.
Proof.
  intros self.
  assert (Hv : valid_fields self) by reflexivity.
  assert (Hf : (6 <= 6)%nat) by apply le_n.
  assert (H1 : 8 <= ordinal self) by discriminate.
  assert (H2 : ordinal self + 7 <= _MAXORDINAL) by discriminate.
  split; [exact Hv|]. split; [exact Hf|]. split; [exact H1|]. split; [exact H2|].
  destruct (X2_previous_next_round_trip Sample.echo 6 self Hv Hf) as [A B].
  split; [exact (A H1)|exact (B H2)].
Defined.

(** The loops with a weekday that no day has. *)
Lemma next_loop_bad platform t :
  ~ 0 <= t <= 6 ->
  forall fuel self, valid_fields self ->
  (Z.to_nat (_MAXORDINAL - ordinal self) < fuel)%nat ->
  exists self',
    next_loop platform fuel t self = (self', Raise OverflowError) /\
    ordinal self' = _MAXORDINAL /\ valid_fields self'.
Proof.
  intros Ht fuel. induction fuel as [|fuel IH]; intros self Hv Hf;
    pose proof (toordinal_range _ Hv) as Ho; fold (ordinal self) in Ho.
  - exfalso. lia.
  - cbn [next_loop]. rewrite day_of_week_ordinal.
    assert (Hm : 0 <= ordinal self mod 7 < 7) by (apply Z.mod_pos_bound; lia).
    replace (ordinal self mod 7 =? t) with false by lia.
    unfold mbind.
    destruct (Z_le_gt_dec (ordinal self + 1) _MAXORDINAL) as [Hle|Hgt].
    + rewrite add_day_spec by (auto; lia).
      destruct (on_ordinal_valid (fields (_datetime self)) (ordinal self + 1))
        as [Hv2 Ho2]; [exact Hv|lia|].
      apply IH; [exact Hv2|]. rewrite ordinal_with_fields, Ho2. lia.
    + rewrite add_day_overflow by (auto; lia). exists self.
      split; [reflexivity|]. split; [lia|exact Hv].
Qed.

Lemma previous_loop_bad platform t :
  ~ 0 <= t <= 6 ->
  forall fuel self, valid_fields self ->
  (Z.to_nat (ordinal self - 1) < fuel)%nat ->
  exists self',
    previous_loop platform fuel t self = (self', Raise OverflowError) /\
    ordinal self' = 1 /\ valid_fields self'.
Proof.
  intros Ht fuel. induction fuel as [|fuel IH]; intros self Hv Hf;
    pose proof (toordinal_range _ Hv) as Ho; fold (ordinal self) in Ho.
  - exfalso. lia.
  - cbn [previous_loop]. rewrite day_of_week_ordinal.
    assert (Hm : 0 <= ordinal self mod 7 < 7) by (apply Z.mod_pos_bound; lia).
    replace (ordinal self mod 7 =? t) with false by lia.
    unfold mbind.
    destruct (Z_le_gt_dec 1 (ordinal self - 1)) as [Hle|Hgt].
    + rewrite sub_day_spec by (auto; lia).
      destruct (on_ordinal_valid (fields (_datetime self)) (ordinal self - 1))
        as [Hv2 Ho2]; [exact Hv|lia|].
      apply IH; [exact Hv2|]. rewrite ordinal_with_fields, Ho2. lia.
    + rewrite sub_day_underflow by (auto; lia). exists self.
      split; [reflexivity|]. split; [lia|exact Hv].
Qed.

(** Property X3.  [next(target)] with a [target] outside 0..6, which no
    day has as its [day_of_week], does not loop for ever: it walks to the
    end of the calendar and raises [OverflowError], and the receiver is left
    on 9999-12-31. *)
Theorem X3_next_no_such_weekday platform fuel t self :
  valid_fields self -> ~ 0 <= t <= 6 ->
  (Z.to_nat (_MAXORDINAL - ordinal self) <= fuel)%nat ->
  exists self',
    next platform fuel (Some t) self = (self', Raise OverflowError) /\
    ordinal self' = _MAXORDINAL.
Proof.
  intros Hv Ht Hf.
  pose proof (toordinal_range _ Hv) as Ho. fold (ordinal self) in Ho.
  unfold next, mbind, this, mret.
  rewrite start_of_day_spec by assumption.
  set (self0 := with_fields self _).
  assert (Hv0 : valid_fields self0) by (apply at_midnight_valid, Hv).
  assert (Eo0 : ordinal self0 = ordinal self) by reflexivity.
  clearbody self0.
  destruct (Z_le_gt_dec (ordinal self0 + 1) _MAXORDINAL) as [Hle|Hgt].
  - rewrite add_day_spec by (auto; lia).
    destruct (on_ordinal_valid (fields (_datetime self0)) (ordinal self0 + 1))
      as [Hv1 Ho1]; [exact Hv0|lia|].
    destruct (next_loop_bad platform t Ht fuel
                (with_fields self0 (on_ordinal (fields (_datetime self0)) (ordinal self0 + 1))))
      as (self' & E & Eo & _).
    + exact Hv1.
    + rewrite ordinal_with_fields, Ho1, Eo0. lia.
    + exists self'. split; assumption.
  - rewrite add_day_overflow by (auto; lia). exists self0. split; [reflexivity|lia].
Qed.

Lemma X3_witness :
  let self := Sample.utc 9999 12 29 9 30 0 5 in
  valid_fields self /\ ~ 0 <= 7 <= 6 /\
  (Z.to_nat (_MAXORDINAL - ordinal self) <= 2)%nat /\
  exists self',
    next Sample.echo 2 (Some 7) self = (self', Raise OverflowError) /\
    ordinal self' = _MAXORDINAL.
Proof.
  intros self.
  assert (Hv : valid_fields self) by reflexivity.
  assert (Ht : ~ 0 <= 7 <= 6) by (intros [_ H]; apply H; reflexivity).
  assert (Hf : (Z.to_nat (_MAXORDINAL - ordinal self) <= 2)%nat) by (vm_compute; apply le_n).
  split; [exact Hv|]. split; [exact Ht|]. split; [exact Hf|].
  exact (X3_next_no_such_weekday Sample.echo 2 7 self Hv Ht Hf).
Defined.

(** Property X4.  [previous(target)] with a [target] outside 0..6 walks
    back to the start of the calendar and raises [OverflowError], and the
    receiver is left on 0001-01-01. *)
Theorem X4_previous_no_such_weekday platform fuel t self :
  valid_fields self -> ~ 0 <= t <= 6 ->
  (Z.to_nat (ordinal self - 1) <= fuel)%nat ->
  exists self',
    previous platform fuel (Some t) self = (self', Raise OverflowError) /\
    ordinal self' = 1.
Proof.
  intros Hv Ht Hf.
  pose proof (toordinal_range _ Hv) as Ho. fold (ordinal self) in Ho.
  unfold previous, mbind, this, mret.
  rewrite start_of_day_spec by assumption.
  set (self0 := with_fields self _).
  assert (Hv0 : valid_fields self0) by (apply at_midnight_valid, Hv).
  assert (Eo0 : ordinal self0 = ordinal self) by reflexivity.
  clearbody self0.
  destruct (Z_le_gt_dec 1 (ordinal self0 - 1)) as [Hle|Hgt].
  - rewrite sub_day_spec by (auto; lia).
    destruct (on_ordinal_valid (fields (_datetime self0)) (ordinal self0 - 1))
      as [Hv1 Ho1]; [exact Hv0|lia|].
    destruct (previous_loop_bad platform t Ht fuel
                (with_fields self0 (on_ordinal (fields (_datetime self0)) (ordinal self0 - 1))))
      as (self' & E & Eo & _).
    + exact Hv1.
    + rewrite ordinal_with_fields, Ho1, Eo0. lia.
    + exists self'. split; assumption.
  - rewrite sub_day_underflow by (auto; lia). exists self0. split; [reflexivity|lia].
Qed.

Lemma X4_witness :
  let self := Sample.utc 1 1 3 9 30 0 5 in
  valid_fields self /\ ~ 0 <= -1 <= 6 /\
  (Z.to_nat (ordinal self - 1) <= 2)%nat /\
  exists self',
    previous Sample.echo 2 (Some (-1)) self = (self', Raise OverflowError) /\
    ordinal self' = 1.
Proof.
  intros self.
  assert (Hv : valid_fields self) by reflexivity.
  assert (Ht : ~ 0 <= -1 <= 6) by (intros [H _]; apply H; reflexivity).
  assert (Hf : (Z.to_nat (ordinal self - 1) <= 2)%nat) by (vm_compute; apply le_n).
  split; [exact Hv|]. split; [exact Ht|]. split; [exact Hf|].
  exact (X4_previous_no_such_weekday Sample.echo 2 (-1) self Hv Ht Hf).
Defined.

Lemma end_of_day_spec self :
  valid_fields self ->
  end_of_day self =
  (with_fields self (at_time (fields (_datetime self)) 23 59 59), Ok tt).
Proof. intros Hv. unfold end_of_day. rewrite set_time_spec by (auto; lia). reflexivity. Qed.

Lemma at_time_valid f h mi s :
  valid_naive f -> 0 <= h <= 23 -> 0 <= mi <= 59 -> 0 <= s <= 59 ->
  valid_naive (at_time f h mi s).
Proof.
  intros Hv Hh Hmi Hs. apply valid_naive_bounds in Hv.
  apply valid_naive_intro; simpl; lia.
Qed.

Lemma start_of_week_run platform fuel cls self :
  valid_fields self -> 0 <= _week_starts_at cls <= 6 -> (6 <= fuel)%nat ->
  let w := _week_starts_at cls in
  let o := week_start (ordinal self) w in
  (1 <= o ->
   start_of_week platform fuel cls self
   = (with_fields self (on_ordinal (at_midnight (fields (_datetime self))) o), Ok tt)) /\
  (o < 1 ->
   exists self', start_of_week platform fuel cls self = (self', Raise OverflowError)).
Proof.
  intros Hv Hw Hfuel w o. fold w in Hw.
  pose proof (toordinal_range _ Hv) as Ho. fold (ordinal self) in Ho.
  assert (Hj : 0 <= (ordinal self - w) mod 7 < 7) by (apply Z.mod_pos_bound; lia).
  assert (Hm : 0 <= ordinal self mod 7 < 7) by (apply Z.mod_pos_bound; lia).
  assert (Erun : start_of_week platform fuel cls self =
            if ordinal self mod 7 =? w then start_of_day self
            else (previous platform fuel (Some w) ;;; start_of_day) self).
  { unfold start_of_week, mbind, this, lift. rewrite day_of_week_ordinal.
    fold w. destruct (ordinal self mod 7 =? w); reflexivity. }
  rewrite Erun. clear Erun. unfold mbind.
  destruct (ordinal self mod 7 =? w) eqn:E.
  - assert (Eo : o = ordinal self)
      by (subst o; unfold week_start; Z.to_euclidean_division_equations; lia).
    split; intros Hr; [|exfalso; lia].
    rewrite start_of_day_spec by exact Hv.
    rewrite Eo. change (ordinal self) with (toordinal (at_midnight (fields (_datetime self)))).
    rewrite on_ordinal_same by (apply at_midnight_valid, Hv). reflexivity.
  - assert (Eo : o = previous_ordinal (ordinal self) w)
      by (subst o; unfold week_start, previous_ordinal;
          Z.to_euclidean_division_equations; lia).
    split; intros Hr.
    + assert (X : 1 <= previous_ordinal (ordinal self) w) by lia.
      rewrite (previous_spec platform fuel w self Hv Hw Hfuel X). rewrite <- Eo.
      destruct (on_ordinal_valid (at_midnight (fields (_datetime self))) o)
        as [Hv1 Ho1]; [apply at_midnight_valid, Hv|subst o; unfold week_start in *; lia|].
      rewrite start_of_day_spec by exact Hv1.
      rewrite with_fields_twice, fields_with_fields, at_midnight_on_ordinal.
      reflexivity.
    + destruct (previous_underflow platform fuel w self Hv Hw Hfuel) as [self' ->]; [lia|].
      eexists; reflexivity.
Qed.

(** Property X5.  After [set_week_starts_at(w)], with [w] from 0 to 6,
    [start_of_week()] moves the receiver to the day of weekday [w] among its
    date and the six days before it, at 00:00:00, the microsecond kept, and
    a second call changes nothing.  When that day would be before
    0001-01-01, it raises [OverflowError]. *)
Theorem X5_start_of_week platform fuel cls w self :
  valid_fields self -> 0 <= w <= 6 -> (6 <= fuel)%nat ->
  let cls' := set_week_starts_at w cls in
  let o := week_start (ordinal self) w in
  ordinal self - 6 <= o <= ordinal self /\
  (1 <= o ->
   exists self',
     start_of_week platform fuel cls' self = (self', Ok tt) /\
     ordinal self' = o /\
     day_of_week platform self' = Ok w /\
     hour self' = 0 /\ minute self' = 0 /\ second self' = 0 /\
     microsecond self' = microsecond self /\
     start_of_week platform fuel cls' self' = (self', Ok tt)) /\
  (o < 1 ->
   exists self', start_of_week platform fuel cls' self = (self', Raise OverflowError)).
Proof.
  intros Hv Hw Hfuel cls' o.
  pose proof (toordinal_range _ Hv) as Ho. fold (ordinal self) in Ho.
  assert (Hj : 0 <= (ordinal self - w) mod 7 < 7) by (apply Z.mod_pos_bound; lia).
  assert (Hoo : ordinal self - 6 <= o <= ordinal self)
    by (subst o; unfold week_start; lia).
  destruct (start_of_week_run platform fuel cls' self Hv Hw Hfuel) as [A B].
  change (_week_starts_at cls') with w in A, B. fold o in A, B.
  split; [exact Hoo|]. split; [|exact B].
  intros Hr. eexists. split; [exact (A Hr)|].
  destruct (on_ordinal_valid (at_midnight (fields (_datetime self))) o)
    as [Hv1 Ho1]; [apply at_midnight_valid, Hv|lia|].
  destruct (on_ordinal_time (at_midnight (fields (_datetime self))) o)
    as (Eh & Emi & Es & Eus).
  rewrite day_of_week_ordinal, ordinal_with_fields, Ho1.
  unfold hour, minute, second, microsecond.
  rewrite fields_with_fields, Eh, Emi, Es, Eus.
  assert (Ew : o mod 7 = w)
    by (subst o; unfold week_start; Z.to_euclidean_division_equations; lia).
  split; [reflexivity|]. split; [f_equal; exact Ew|].
  do 4 (split; [reflexivity|]).
  set (self1 := with_fields self _).
  destruct (start_of_week_run platform fuel cls' self1 Hv1 Hw Hfuel) as [A1 _].
  change (_week_starts_at cls') with w in A1.
  assert (Eo1 : ordinal self1 = o) by exact Ho1.
  assert (Ews : week_start (ordinal self1) w = o).
  { rewrite Eo1. revert Ew. generalize o. intros x Ex. unfold week_start.
    Z.to_euclidean_division_equations; lia. }
  rewrite Ews in A1. rewrite A1 by lia.
  subst self1. rewrite with_fields_twice, fields_with_fields.
  rewrite at_midnight_on_ordinal, on_ordinal_twice.
  reflexivity.
Qed.

Lemma X5_witness :
  let self := Sample.utc 2026 11 4 9 30 0 5 in
  let cls' := set_week_starts_at SUNDAY class_defaults in
  valid_fields self /\ 0 <= SUNDAY <= 6 /\ (6 <= 6)%nat /\
  1 <= week_start (ordinal self) SUNDAY /\
  exists self',
    start_of_week Sample.echo 6 cls' self = (self', Ok tt) /\
    ordinal self' = week_start (ordinal self) SUNDAY /\
    day_of_week Sample.echo self' = Ok SUNDAY /\
    hour self' = 0 /\ minute self' = 0 /\ second self' = 0 /\
    microsecond self' = microsecond self /\
    start_of_week Sample.echo 6 cls' self' = (self', Ok tt).
Proof.
  intros self cls'.
  assert (Hv : valid_fields self) by reflexivity.
  assert (Ht : 0 <= SUNDAY <= 6) by (split; discriminate).
  assert (Hf : (6 <= 6)%nat) by apply le_n.
  assert (Hr : 1 <= week_start (ordinal self) SUNDAY) by discriminate.
  split; [exact Hv|]. split; [exact Ht|]. split; [exact Hf|]. split; [exact Hr|].
  exact (proj1 (proj2 (X5_start_of_week Sample.echo 6 class_defaults SUNDAY self Hv Ht Hf)) Hr).
Defined.

Lemma at_time_on_ordinal f o h mi s :
  at_time (on_ordinal f o) h mi s = on_ordinal (at_time f h mi s) o.
Proof. unfold on_ordinal, at_time. destruct (_ord2ymd o) as [[? ?] ?]. reflexivity. Qed.

Lemma toordinal_at_time f h mi s : toordinal (at_time f h mi s) = toordinal f.
Proof. reflexivity. Qed.

Lemma end_of_week_run platform fuel cls self :
  valid_fields self -> 0 <= _week_ends_at cls <= 6 -> (6 <= fuel)%nat ->
  let w := _week_ends_at cls in
  let o := week_end (ordinal self) w in
  (o <= _MAXORDINAL ->
   end_of_week platform fuel cls self
   = (with_fields self (on_ordinal (at_time (fields (_datetime self)) 23 59 59) o), Ok tt)) /\
  (_MAXORDINAL < o ->
   exists self', end_of_week platform fuel cls self = (self', Raise OverflowError)).
Proof.
  intros Hv Hw Hfuel w o. fold w in Hw.
  pose proof (toordinal_range _ Hv) as Ho. fold (ordinal self) in Ho.
  assert (Hj : 0 <= (w - ordinal self) mod 7 < 7) by (apply Z.mod_pos_bound; lia).
  assert (Hm : 0 <= ordinal self mod 7 < 7) by (apply Z.mod_pos_bound; lia).
  assert (Erun : end_of_week platform fuel cls self =
            if ordinal self mod 7 =? w then end_of_day self
            else (next platform fuel (Some w) ;;; end_of_day) self).
  { unfold end_of_week, mbind, this, lift. rewrite day_of_week_ordinal.
    fold w. destruct (ordinal self mod 7 =? w); reflexivity. }
  rewrite Erun. clear Erun. unfold mbind.
  destruct (ordinal self mod 7 =? w) eqn:E.
  - assert (Eo : o = ordinal self)
      by (subst o; unfold week_end; Z.to_euclidean_division_equations; lia).
    split; intros Hr; [|exfalso; lia].
    rewrite end_of_day_spec by exact Hv.
    rewrite Eo.
    change (ordinal self) with (toordinal (at_time (fields (_datetime self)) 23 59 59)).
    rewrite on_ordinal_same by (apply at_time_valid; auto; lia). reflexivity.
  - assert (Eo : o = next_ordinal (ordinal self) w)
      by (subst o; unfold week_end, next_ordinal;
          Z.to_euclidean_division_equations; lia).
    split; intros Hr.
    + assert (X : next_ordinal (ordinal self) w <= _MAXORDINAL) by lia.
      rewrite (next_spec platform fuel w self Hv Hw Hfuel X). rewrite <- Eo.
      destruct (on_ordinal_valid (at_midnight (fields (_datetime self))) o)
        as [Hv1 Ho1]; [apply at_midnight_valid, Hv|subst o; unfold week_end in *; lia|].
      rewrite end_of_day_spec by exact Hv1.
      rewrite with_fields_twice, fields_with_fields, at_time_on_ordinal.
      reflexivity.
    + destruct (next_overflow platform fuel w self Hv Hw Hfuel) as [self' ->]; [lia|].
      eexists; reflexivity.
Qed.

(** Property X6.  After [set_week_ends_at(w)], with [w] from 0 to 6,
    [end_of_week()] moves the receiver to the day of weekday [w] among its
    date and the six days after it, at 23:59:59, the microsecond kept, and a
    second call changes nothing.  When that day would be after 9999-12-31,
    it raises [OverflowError]. *)
Theorem X6_end_of_week platform fuel cls w self :
  valid_fields self -> 0 <= w <= 6 -> (6 <= fuel)%nat ->
  let cls' := set_week_ends_at w cls in
  let o := week_end (ordinal self) w in
  ordinal self <= o <= ordinal self + 6 /\
  (o <= _MAXORDINAL ->
   exists self',
     end_of_week platform fuel cls' self = (self', Ok tt) /\
     ordinal self' = o /\
     day_of_week platform self' = Ok w /\
     hour self' = 23 /\ minute self' = 59 /\ second self' = 59 /\
     microsecond self' = microsecond self /\
     end_of_week platform fuel cls' self' = (self', Ok tt)) /\
  (_MAXORDINAL < o ->
   exists self', end_of_week platform fuel cls' self = (self', Raise OverflowError)).
Proof.
  intros Hv Hw Hfuel cls' o.
  pose proof (toordinal_range _ Hv) as Ho. fold (ordinal self) in Ho.
  assert (Hj : 0 <= (w - ordinal self) mod 7 < 7) by (apply Z.mod_pos_bound; lia).
  assert (Hoo : ordinal self <= o <= ordinal self + 6)
    by (subst o; unfold week_end; lia).
  destruct (end_of_week_run platform fuel cls' self Hv Hw Hfuel) as [A B].
  change (_week_ends_at cls') with w in A, B. fold o in A, B.
  split; [exact Hoo|]. split; [|exact B].
  intros Hr. eexists. split; [exact (A Hr)|].
  assert (Hvt : valid_naive (at_time (fields (_datetime self)) 23 59 59))
    by (apply at_time_valid; auto; lia).
  destruct (on_ordinal_valid (at_time (fields (_datetime self)) 23 59 59) o)
    as [Hv1 Ho1]; [exact Hvt|lia|].
  destruct (on_ordinal_time (at_time (fields (_datetime self)) 23 59 59) o)
    as (Eh & Emi & Es & Eus).
  rewrite day_of_week_ordinal, ordinal_with_fields, Ho1.
  unfold hour, minute, second, microsecond.
  rewrite fields_with_fields, Eh, Emi, Es, Eus.
  assert (Ew : o mod 7 = w)
    by (subst o; unfold week_end; Z.to_euclidean_division_equations; lia).
  split; [reflexivity|]. split; [f_equal; exact Ew|].
  do 4 (split; [reflexivity|]).
  set (self1 := with_fields self _).
  destruct (end_of_week_run platform fuel cls' self1 Hv1 Hw Hfuel) as [A1 _].
  change (_week_ends_at cls') with w in A1.
  assert (Eo1 : ordinal self1 = o) by exact Ho1.
  assert (Ews : week_end (ordinal self1) w = o).
  { rewrite Eo1. revert Ew. generalize o. intros x Ex. unfold week_end.
    Z.to_euclidean_division_equations; lia. }
  rewrite Ews in A1. rewrite A1 by lia.
  subst self1. rewrite with_fields_twice, fields_with_fields.
  rewrite at_time_on_ordinal, on_ordinal_twice.
  reflexivity.
Qed.

Lemma X6_witness :
  let self := Sample.utc 2026 11 4 9 30 0 5 in
  let cls' := set_week_ends_at SATURDAY class_defaults in
  valid_fields self /\ 0 <= SATURDAY <= 6 /\ (6 <= 6)%nat /\
  week_end (ordinal self) SATURDAY <= _MAXORDINAL /\
  exists self',
    end_of_week Sample.echo 6 cls' self = (self', Ok tt) /\
    ordinal self' = week_end (ordinal self) SATURDAY /\
    day_of_week Sample.echo self' = Ok SATURDAY /\
    hour self' = 23 /\ minute self' = 59 /\ second self' = 59 /\
    microsecond self' = microsecond self /\
    end_of_week Sample.echo 6 cls' self' = (self', Ok tt).
Proof.
  intros self cls'.
  assert (Hv : valid_fields self) by reflexivity.
  assert (Ht : 0 <= SATURDAY <= 6) by (split; discriminate).
  assert (Hf : (6 <= 6)%nat) by apply le_n.
  assert (Hr : week_end (ordinal self) SATURDAY <= _MAXORDINAL) by discriminate.
  split; [exact Hv|]. split; [exact Ht|]. split; [exact Hf|]. split; [exact Hr|].
  exact (proj1 (proj2 (X6_end_of_week Sample.echo 6 class_defaults SATURDAY self Hv Ht Hf)) Hr).
Defined.

(** Property X7.  With the attributes the class declares (weeks from
    Monday to Sunday), and a date at least six days from both ends of the
    calendar, [start_of_week()] gives a Monday on or before the receiver's
    date and [end_of_week()] a Sunday on or after it, and the two are six
    days apart. *)
Theorem X7_default_week platform fuel self :
  valid_fields self -> (6 <= fuel)%nat ->
  7 <= ordinal self <= _MAXORDINAL - 6 ->
  exists monday sunday,
    start_of_week platform fuel class_defaults self = (monday, Ok tt) /\
    end_of_week platform fuel class_defaults self = (sunday, Ok tt) /\
    day_of_week platform monday = Ok MONDAY /\
    day_of_week platform sunday = Ok SUNDAY /\
    ordinal monday <= ordinal self <= ordinal sunday /\
    ordinal sunday = ordinal monday + 6.
Proof.
  intros Hv Hfuel Hr.
  assert (Hm : 0 <= MONDAY <= 6) by (unfold MONDAY; lia).
  assert (Hs : 0 <= SUNDAY <= 6) by (unfold SUNDAY; lia).
  destruct (start_of_week_run platform fuel class_defaults self Hv Hm Hfuel) as [A _].
  destruct (end_of_week_run platform fuel class_defaults self Hv Hs Hfuel) as [B _].
  change (_week_starts_at class_defaults) with 1 in A.
  change (_week_ends_at class_defaults) with 0 in B.
  assert (H1 : 0 <= (ordinal self - 1) mod 7 < 7) by (apply Z.mod_pos_bound; lia).
  assert (H2 : 0 <= (0 - ordinal self) mod 7 < 7) by (apply Z.mod_pos_bound; lia).
  unfold week_start in A. unfold week_end in B.
  do 2 eexists. split; [apply A; lia|]. split; [apply B; lia|].
  destruct (on_ordinal_valid (at_midnight (fields (_datetime self)))
              (ordinal self - (ordinal self - 1) mod 7))
    as [_ Ho1]; [apply at_midnight_valid, Hv|lia|].
  destruct (on_ordinal_valid (at_time (fields (_datetime self)) 23 59 59)
              (ordinal self + (0 - ordinal self) mod 7))
    as [_ Ho2]; [apply at_time_valid; auto; lia|lia|].
  rewrite !day_of_week_ordinal, !ordinal_with_fields, Ho1, Ho2.
  unfold MONDAY, SUNDAY.
  split; [f_equal; Z.to_euclidean_division_equations; lia|].
  split; [f_equal; Z.to_euclidean_division_equations; lia|].
  split; [lia|]. Z.to_euclidean_division_equations; lia.
Qed.

Lemma X7_witness :
  let self := Sample.utc 2026 11 4 9 30 0 5 in
  valid_fields self /\ (6 <= 6)%nat /\
  7 <= ordinal self <= _MAXORDINAL - 6 /\
  exists monday sunday,
    start_of_week Sample.echo 6 class_defaults self = (monday, Ok tt) /\
    end_of_week Sample.echo 6 class_defaults self = (sunday, Ok tt) /\
    day_of_week Sample.echo monday = Ok MONDAY /\
    day_of_week Sample.echo sunday = Ok SUNDAY /\
    ordinal monday <= ordinal self <= ordinal sunday /\
    ordinal sunday = ordinal monday + 6.
Proof.
  intros self.
  assert (Hv : valid_fields self) by reflexivity.
  assert (Hf : (6 <= 6)%nat) by apply le_n.
  assert (Hr : 7 <= ordinal self <= _MAXORDINAL - 6) by (split; discriminate).
  split; [exact Hv|]. split; [exact Hf|]. split; [exact Hr|].
  exact (X7_default_week Sample.echo 6 self Hv Hf Hr).
Defined.

(** ** Days, months and years: arithmetic and bounds *)

Lemma timedelta_days k :
  -999999999 <= k <= 999999999 ->
  timedelta_new k 0 0 0 0 = Ok (mktimedelta k 0 0).
Proof.
  intros Hk. unfold timedelta_new, timedelta_of_microseconds.
  replace ((((k * 24 + 0) * 60 + 0) * 60 + 0) * US_PER_SECOND + 0)
    with (US_PER_DAY * k + 0) by (unfold US_PER_DAY, US_PER_SECOND; lia).
  destruct (div_mod_pos US_PER_DAY k 0) as [Ed Em];
    [unfold US_PER_DAY, US_PER_SECOND; lia|].
  cbv zeta. rewrite Ed, Em.
  replace ((-999999999 <=? k) && (k <=? 999999999)) with true by lia.
  reflexivity.
Qed.

Lemma timedelta_days_overflow k :
  ~ -999999999 <= k <= 999999999 ->
  timedelta_new k 0 0 0 0 = Raise OverflowError.
Proof.
  intros Hk. unfold timedelta_new, timedelta_of_microseconds.
  replace ((((k * 24 + 0) * 60 + 0) * 60 + 0) * US_PER_SECOND + 0)
    with (US_PER_DAY * k + 0) by (unfold US_PER_DAY, US_PER_SECOND; lia).
  destruct (div_mod_pos US_PER_DAY k 0) as [Ed Em];
    [unfold US_PER_DAY, US_PER_SECOND; lia|].
  cbv zeta. rewrite Ed.
  replace ((-999999999 <=? k) && (k <=? 999999999)) with false by lia.
  reflexivity.
Qed.

Lemma new_days k :
  Relativedelta.new 0 0 0 k 0 0 0 0 None
  = Ok (Relativedelta.mkrelativedelta 0 0 k 0 0 0 0 None).
Proof.
  unfold Relativedelta.new. cbn [rbind]. unfold Relativedelta._fix.
  cbn [Relativedelta.microseconds Relativedelta.seconds Relativedelta.minutes
       Relativedelta.hours Relativedelta.days Relativedelta.months
       Relativedelta.years Relativedelta.rd_weekday].
  change (Relativedelta.carry 999999 1000000 0 0) with (0, 0). cbv iota beta.
  change (Relativedelta.carry 59 60 0 0) with (0, 0). cbv iota beta.
  change (Relativedelta.carry 59 60 0 0) with (0, 0). cbv iota beta.
  assert (E : Relativedelta.carry 23 24 0 (k + 0 * 7) = (0, k)).
  { unfold Relativedelta.carry. cbn [Z.abs Z.gtb Z.compare]. f_equal. lia. }
  rewrite E.
  change (Relativedelta.carry 11 12 0 0) with (0, 0).
  reflexivity.
Qed.

Lemma add_days_run self k :
  valid_fields self ->
  add_days k self =
  if (1 <=? ordinal self + k) && (ordinal self + k <=? _MAXORDINAL)
  then (with_fields self (on_ordinal (fields (_datetime self)) (ordinal self + k)), Ok tt)
  else (self, Raise OverflowError).
Proof.
  intros Hv. pose proof (toordinal_range _ Hv) as Ho. fold (ordinal self) in Ho.
  unfold add_days, add, set_datetime. rewrite new_days.
  cbn [rbind]. rewrite radd_plain by (auto; reflexivity).
  cbn [Relativedelta.days Relativedelta.hours Relativedelta.minutes
       Relativedelta.seconds Relativedelta.microseconds].
  destruct ((1 <=? ordinal self + k) && (ordinal self + k <=? _MAXORDINAL)) eqn:E.
  - rewrite timedelta_days by (unfold _MAXORDINAL in *; lia).
    cbn [rbind]. unfold add_timedelta. unfold ordinal in *.
    rewrite naive_add_days by (auto; lia). reflexivity.
  - destruct (Z_le_gt_dec (-999999999) k) as [H1|H1];
      [destruct (Z_le_gt_dec k 999999999) as [H2|H2]|].
    + rewrite timedelta_days by lia. cbn [rbind]. unfold add_timedelta.
      unfold ordinal in *.
      destruct (Z_le_gt_dec 1 (toordinal (fields (_datetime self)) + k)).
      * rewrite naive_add_days_overflow by (auto; lia). reflexivity.
      * rewrite naive_add_days_underflow by (auto; lia). reflexivity.
    + rewrite timedelta_days_overflow by lia. reflexivity.
    + rewrite timedelta_days_overflow by lia. reflexivity.
Qed.

Lemma sub_days_is_add self k : sub_days k self = add_days (- k) self.
Proof. unfold sub_days, add_days. rewrite sub_is_add_negated. reflexivity. Qed.

(** Property X8.  [add_days(k)] moves the date by [k] days and keeps the
    time of day and the [tzinfo]; [sub_days(k)] then gives the receiver back
    as it was.  When the date reached is outside 0001-01-01..9999-12-31,
    [add_days(k)] raises [OverflowError] and the receiver is as it was. *)
Theorem X8_add_days_sub_days self k :
  valid_fields self ->
  (1 <= ordinal self + k <= _MAXORDINAL ->
   exists there,
     add_days k self = (there, Ok tt) /\
     ordinal there = ordinal self + k /\
     hour there = hour self /\ minute there = minute self /\
     second there = second self /\ microsecond there = microsecond self /\
     dt_tzinfo (_datetime there) = dt_tzinfo (_datetime self) /\
     sub_days k there = (self, Ok tt)) /\
  (~ 1 <= ordinal self + k <= _MAXORDINAL ->
   add_days k self = (self, Raise OverflowError)).
Proof.
  intros Hv. pose proof (toordinal_range _ Hv) as Ho. fold (ordinal self) in Ho.
  rewrite add_days_run by exact Hv. split; intros Hr.
  - replace ((1 <=? ordinal self + k) && (ordinal self + k <=? _MAXORDINAL))
      with true by lia.
    eexists. split; [reflexivity|].
    destruct (on_ordinal_valid (fields (_datetime self)) (ordinal self + k))
      as [Hv1 Ho1]; [exact Hv|lia|].
    destruct (on_ordinal_time (fields (_datetime self)) (ordinal self + k))
      as (Eh & Emi & Es & Eus).
    unfold hour, minute, second, microsecond.
    rewrite ordinal_with_fields, fields_with_fields, Ho1, Eh, Emi, Es, Eus.
    do 6 (split; [reflexivity|]).
    rewrite sub_days_is_add, add_days_run by exact Hv1.
    rewrite ordinal_with_fields, Ho1.
    replace (ordinal self + k + - k) with (ordinal self) by lia.
    replace ((1 <=? ordinal self) && (ordinal self <=? _MAXORDINAL)) with true by lia.
    rewrite with_fields_twice, fields_with_fields, on_ordinal_twice.
    unfold ordinal. rewrite on_ordinal_same by exact Hv.
    rewrite with_fields_same. reflexivity.
  - replace ((1 <=? ordinal self + k) && (ordinal self + k <=? _MAXORDINAL))
      with false by lia.
    reflexivity.
Qed.

Lemma X8_witness :
  let self := Sample.utc 2024 2 28 9 30 15 5 in
  valid_fields self /\ 1 <= ordinal self + 2 <= _MAXORDINAL /\
  exists there,
    add_days 2 self = (there, Ok tt) /\
    ordinal there = ordinal self + 2 /\
    hour there = hour self /\ minute there = minute self /\
    second there = second self /\ microsecond there = microsecond self /\
    dt_tzinfo (_datetime there) = dt_tzinfo (_datetime self) /\
    sub_days 2 there = (self, Ok tt).
Proof.
  intros self.
  assert (Hv : valid_fields self) by reflexivity.
  assert (Hr : 1 <= ordinal self + 2 <= _MAXORDINAL) by (split; discriminate).
  split; [exact Hv|]. split; [exact Hr|].
  exact (proj1 (X8_add_days_sub_days self 2 Hv) Hr).
Defined.

Lemma ymd2ord_next_month y m :
  1 <= m <= 12 ->
  _ymd2ord y m (_days_in_month y m) + 1
  = if m =? 12 then _ymd2ord (y + 1) 1 1 else _ymd2ord y (m + 1) 1.
Proof.
  intros Hm. unfold _ymd2ord, _days_before_month, _days_in_month.
  pose proof (dby_succ y) as Hs. rewrite is_leap_days_in_year in Hs.
  assert (E1 : _days_before_month (y + 1) 1 = 0) by reflexivity.
  unfold _days_before_month in E1.
  month_split Hm; destruct (_is_leap y);
    repeat match goal with
    | |- context [Z.add (Zpos ?a) 1] =>
        let v := eval vm_compute in (Z.add (Zpos a) 1) in
        change (Z.add (Zpos a) 1) with v
    end;
    cal_simpl; lia.
Qed.

Lemma days_in_month_valid self :
  valid_fields self ->
  days_in_month self = Ok (_days_in_month (year self) (month self)).
Proof.
  intros Hv. apply valid_naive_bounds in Hv. destruct Hv as (Hy & Hm & _).
  unfold days_in_month.
  destruct (monthrange_valid _ _ Hy Hm) as (day1 & E & _).
  unfold year, month. rewrite E. reflexivity.
Qed.

(** Property X9.  On a valid Moment [start_of_month()] and
    [end_of_month()] do not raise: they set day 1 at 00:00:00 and the last
    day of the month, which is [days_in_month], at 23:59:59, the microsecond
    kept.  The receiver's date lies between the two, and one day added to
    the end of the month gives day 1 of the month that follows (there is
    none after December 9999). *)
Theorem X9_month_bounds self :
  valid_fields self ->
  exists first last dim,
    days_in_month self = Ok dim /\
    start_of_month self = (first, Ok tt) /\
    end_of_month self = (last, Ok tt) /\
    fields (_datetime first)
    = mknaive (year self) (month self) 1 0 0 0 (microsecond self) /\
    fields (_datetime last)
    = mknaive (year self) (month self) dim 23 59 59 (microsecond self) /\
    ordinal first <= ordinal self <= ordinal last /\
    ordinal last = ordinal first + dim - 1 /\
    (ordinal last < _MAXORDINAL ->
     exists next,
       add_day last = (next, Ok tt) /\ day next = 1 /\
       month next = (if month self =? 12 then 1 else month self + 1) /\
       year next = (if month self =? 12 then year self + 1 else year self)).
Proof.
  intros Hv. pose proof (valid_naive_bounds _ Hv) as (Hy & Hm & Hd & Hrest).
  pose proof (days_in_month_range (year self) (month self) Hm) as Hdim.
  fold (year self) (month self) (day self) in Hy, Hm, Hd.
  set (dim := _days_in_month (year self) (month self)) in *.
  exists (with_fields self (mknaive (year self) (month self) 1 0 0 0 (microsecond self))).
  exists (with_fields self (mknaive (year self) (month self) dim 23 59 59 (microsecond self))).
  exists dim.
  split; [apply days_in_month_valid, Hv|].
  split; [unfold start_of_month; apply set_date_time_spec; auto; lia|].
  split.
  { unfold end_of_month, mbind, this, lift. rewrite days_in_month_valid by exact Hv.
    fold dim. apply set_date_time_spec; auto; lia. }
  split; [reflexivity|]. split; [reflexivity|].
  rewrite !ordinal_with_fields. unfold ordinal.
  assert (Es : toordinal (fields (_datetime self))
               = _ymd2ord (year self) (month self) 1 + day self - 1).
  { unfold toordinal, _ymd2ord, year, month, day. lia. }
  rewrite Es, !toordinal_day.
  split; [lia|]. split; [lia|].
  intros Hlt.
  set (last := with_fields self _).
  assert (Hvl : valid_fields last).
  { apply valid_naive_intro; try lia. unfold microsecond. lia. }
  assert (Eol : ordinal last = _ymd2ord (year self) (month self) dim).
  { unfold last. rewrite ordinal_with_fields. reflexivity. }
  assert (Eol' : _ymd2ord (year self) (month self) dim
                 = _ymd2ord (year self) (month self) 1 + dim - 1)
    by (unfold _ymd2ord; lia).
  eexists. split; [apply add_day_spec; [exact Hvl|lia]|].
  rewrite Eol. unfold dim. rewrite ymd2ord_next_month by exact Hm.
  unfold on_ordinal.
  destruct (month self =? 12) eqn:E12.
  - rewrite ord2ymd_ymd2ord; [repeat split|lia|lia|].
    change (_days_in_month (year self + 1) 1) with 31. lia.
  - rewrite ord2ymd_ymd2ord; [repeat split|lia|lia|].
    pose proof (days_in_month_range (year self) (month self + 1)). lia.
Qed.

Lemma X9_witness :
  let self := Sample.utc 2024 2 10 9 30 15 5 in
  valid_fields self /\
  exists first last dim,
    days_in_month self = Ok dim /\
    start_of_month self = (first, Ok tt) /\
    end_of_month self = (last, Ok tt) /\
    fields (_datetime first)
    = mknaive (year self) (month self) 1 0 0 0 (microsecond self) /\
    fields (_datetime last)
    = mknaive (year self) (month self) dim 23 59 59 (microsecond self) /\
    ordinal first <= ordinal self <= ordinal last /\
    ordinal last = ordinal first + dim - 1 /\
    (ordinal last < _MAXORDINAL ->
     exists next,
       add_day last = (next, Ok tt) /\ day next = 1 /\
       month next = (if month self =? 12 then 1 else month self + 1) /\
       year next = (if month self =? 12 then year self + 1 else year self)).
Proof.
  intros self.
  assert (Hv : valid_fields self) by reflexivity.
  split; [exact Hv|]. exact (X9_month_bounds self Hv).
Defined.

(** Property X10.  On a valid Moment [start_of_year()] and [end_of_year()]
    do not raise: they set January 1 at 00:00:00 and December 31 at
    23:59:59, the microsecond kept.  The receiver's date lies between the
    two, which span 366 days in a leap year and 365 otherwise. *)
Theorem X10_year_bounds self :
  valid_fields self ->
  exists first last,
    start_of_year self = (first, Ok tt) /\
    end_of_year self = (last, Ok tt) /\
    fields (_datetime first) = mknaive (year self) 1 1 0 0 0 (microsecond self) /\
    fields (_datetime last) = mknaive (year self) 12 31 23 59 59 (microsecond self) /\
    ordinal first <= ordinal self <= ordinal last /\
    ordinal last - ordinal first + 1 = (if _is_leap (year self) then 366 else 365).
Proof.
  intros Hv. pose proof (valid_naive_bounds _ Hv) as (Hy & Hm & Hd & Hrest).
  exists (with_fields self (mknaive (year self) 1 1 0 0 0 (microsecond self))).
  exists (with_fields self (mknaive (year self) 12 31 23 59 59 (microsecond self))).
  split; [unfold start_of_year; apply set_date_time_spec; auto; try lia;
          change (_days_in_month (year self) 1) with 31; lia|].
  split; [unfold end_of_year; apply set_date_time_spec; auto; try lia;
          change (_days_in_month (year self) 12) with 31; lia|].
  split; [reflexivity|]. split; [reflexivity|].
  rewrite !ordinal_with_fields.
  destruct (ymd2ord_in_year _ _ _ Hm Hd) as (k & Hk & Ek & _).
  rewrite is_leap_days_in_year in Hk.
  unfold ordinal, toordinal. cbn [PyDatetime.year PyDatetime.month PyDatetime.day].
  rewrite Ek. unfold _ymd2ord, _days_before_month. unfold year.
  destruct (_is_leap (PyDatetime.year (fields (_datetime self)))); cal_simpl; lia.
Qed.

Lemma X10_witness :
  let self := Sample.utc 2024 2 10 9 30 15 5 in
  valid_fields self /\
  exists first last,
    start_of_year self = (first, Ok tt) /\
    end_of_year self = (last, Ok tt) /\
    fields (_datetime first) = mknaive (year self) 1 1 0 0 0 (microsecond self) /\
    fields (_datetime last) = mknaive (year self) 12 31 23 59 59 (microsecond self) /\
    ordinal first <= ordinal self <= ordinal last /\
    ordinal last - ordinal first + 1 = (if _is_leap (year self) then 366 else 365).
Proof.
  intros self.
  assert (Hv : valid_fields self) by reflexivity.
  split; [exact Hv|]. exact (X10_year_bounds self Hv).
Defined.

(** Property X11.  [set_date_time] is not atomic.  With a date that is
    valid and a time that is out of range, it raises [ValueError] after the
    date has been set: the receiver has the new date and its old time.  With
    a date that is out of range, it raises [ValueError] and the receiver is
    as it was. *)
Theorem X11_set_date_time_not_atomic self y m d h mi s :
  valid_fields self ->
  (1 <= y <= 9999 -> 1 <= m <= 12 -> 1 <= d <= _days_in_month y m ->
   ~ (0 <= h <= 23 /\ 0 <= mi <= 59 /\ 0 <= s <= 59) ->
   set_date_time y m d h mi s self =
   (with_fields self
      (mknaive y m d (hour self) (minute self) (second self) (microsecond self)),
    Raise ValueError)) /\
  (~ (1 <= y <= 9999 /\ 1 <= m <= 12 /\ 1 <= d <= _days_in_month y m) ->
   set_date_time y m d h mi s self = (self, Raise ValueError)).
Proof.
  intros Hv. split.
  - intros Hy Hm Hd Ht. unfold set_date_time, mbind.
    rewrite set_date_spec by assumption. cbv zeta.
    unfold set_time, set_datetime, replace, datetime_new.
    rewrite fields_with_fields. cbn [or_default PyDatetime.year PyDatetime.month
      PyDatetime.day PyDatetime.hour PyDatetime.minute PyDatetime.second
      PyDatetime.microsecond].
    replace (_check_time_fields h mi s _) with false.
    + rewrite andb_false_r. reflexivity.
    + unfold _check_time_fields. lia.
  - intros Hd. unfold set_date_time, mbind, set_date, set_datetime, replace, datetime_new.
    cbn [or_default].
    replace (_check_date_fields y m d) with false.
    + reflexivity.
    + unfold _check_date_fields, MINYEAR, MAXYEAR. lia.
Qed.

Lemma X11_witness :
  let self := Sample.utc 2024 2 10 9 30 15 5 in
  valid_fields self /\ 1 <= 2025 <= 9999 /\ 1 <= 3 <= 12 /\
  1 <= 31 <= _days_in_month 2025 3 /\
  ~ (0 <= 24 <= 23 /\ 0 <= 0 <= 59 /\ 0 <= 0 <= 59) /\
  set_date_time 2025 3 31 24 0 0 self
  = (Sample.utc 2025 3 31 9 30 15 5, Raise ValueError).
Proof.
  intros self.
  assert (Hv : valid_fields self) by reflexivity.
  assert (Hy : 1 <= 2025 <= 9999) by (split; discriminate).
  assert (Hm : 1 <= 3 <= 12) by (split; discriminate).
  assert (Hd : 1 <= 31 <= _days_in_month 2025 3) by (split; discriminate).
  assert (Ht : ~ (0 <= 24 <= 23 /\ 0 <= 0 <= 59 /\ 0 <= 0 <= 59))
    by (intros [[_ H] _]; apply H; reflexivity).
  split; [exact Hv|]. split; [exact Hy|]. split; [exact Hm|]. split; [exact Hd|].
  split; [exact Ht|].
  exact (proj1 (X11_set_date_time_not_atomic self 2025 3 31 24 0 0 Hv) Hy Hm Hd Ht).
Defined.

(** Property X12.  On a valid Moment [start_of_day()] and [end_of_day()]
    do not raise and set the time to 00:00:00 and 23:59:59 without touching
    the microsecond: the start of the day is the receiver's microsecond
    after midnight, the receiver's instant lies between the two, and they
    are 86399 seconds apart. *)
Theorem X12_day_bounds self :
  valid_fields self ->
  exists first last,
    start_of_day self = (first, Ok tt) /\
    end_of_day self = (last, Ok tt) /\
    fields (_datetime first)
    = mknaive (year self) (month self) (day self) 0 0 0 (microsecond self) /\
    fields (_datetime last)
    = mknaive (year self) (month self) (day self) 23 59 59 (microsecond self) /\
    time_of_day (fields (_datetime first)) = microsecond self /\
    since_epoch first <= since_epoch self <= since_epoch last /\
    since_epoch last - since_epoch first = 86399 * US_PER_SECOND.
Proof.
  intros Hv. pose proof (valid_naive_bounds _ Hv) as (Hy & Hm & Hd & Hh & Hmi & Hs & Hus).
  do 2 eexists.
  split; [apply start_of_day_spec, Hv|].
  split; [apply end_of_day_spec, Hv|].
  split; [reflexivity|]. split; [reflexivity|].
  rewrite !fields_with_fields.
  split; [unfold time_of_day, at_midnight, microsecond;
          cbn [PyDatetime.hour PyDatetime.minute PyDatetime.second
               PyDatetime.microsecond]; lia|].
  pose proof (since_epoch_with_fields self (at_midnight (fields (_datetime self)))) as E1.
  pose proof (since_epoch_with_fields self (at_time (fields (_datetime self)) 23 59 59)) as E2.
  rewrite !naive_microseconds_split in E1, E2.
  rewrite toordinal_at_midnight in E1. rewrite toordinal_at_time in E2.
  assert (T1 : time_of_day (at_midnight (fields (_datetime self)))
               = PyDatetime.microsecond (fields (_datetime self)))
    by (unfold time_of_day, at_midnight;
        cbn [PyDatetime.hour PyDatetime.minute PyDatetime.second
             PyDatetime.microsecond]; lia).
  assert (T2 : time_of_day (at_time (fields (_datetime self)) 23 59 59)
               = 86399 * US_PER_SECOND + PyDatetime.microsecond (fields (_datetime self)))
    by (unfold time_of_day, at_time, US_PER_SECOND;
        cbn [PyDatetime.hour PyDatetime.minute PyDatetime.second
             PyDatetime.microsecond]; lia).
  rewrite T1 in E1. rewrite T2 in E2.
  assert (T : PyDatetime.microsecond (fields (_datetime self))
              <= time_of_day (fields (_datetime self))
              <= 86399 * US_PER_SECOND + PyDatetime.microsecond (fields (_datetime self))).
  { unfold time_of_day, US_PER_SECOND. lia. }
  revert E1 E2 T.
  generalize (since_epoch (with_fields self (at_midnight (fields (_datetime self))))).
  generalize (since_epoch (with_fields self (at_time (fields (_datetime self)) 23 59 59))).
  generalize (since_epoch self).
  generalize (time_of_day (fields (_datetime self))).
  generalize (toordinal (fields (_datetime self)) * US_PER_DAY).
  generalize (PyDatetime.microsecond (fields (_datetime self))).
  unfold US_PER_SECOND. intros. lia.
Qed.

Lemma X12_witness :
  let self := Sample.utc 2024 2 10 9 30 15 5 in
  valid_fields self /\
  exists first last,
    start_of_day self = (first, Ok tt) /\
    end_of_day self = (last, Ok tt) /\
    fields (_datetime first)
    = mknaive (year self) (month self) (day self) 0 0 0 (microsecond self) /\
    fields (_datetime last)
    = mknaive (year self) (month self) (day self) 23 59 59 (microsecond self) /\
    time_of_day (fields (_datetime first)) = microsecond self /\
    since_epoch first <= since_epoch self <= since_epoch last /\
    since_epoch last - since_epoch first = 86399 * US_PER_SECOND.
Proof.
  intros self.
  assert (Hv : valid_fields self) by reflexivity.
  split; [exact Hv|]. exact (X12_day_bounds self Hv).
Defined.

(** ** Months, years and weekdays added *)

Lemma new_years_months Y M wd :
  exists Y' M',
    Relativedelta._fix (Relativedelta.mkrelativedelta Y M 0 0 0 0 0 wd)
    = Relativedelta.mkrelativedelta Y' M' 0 0 0 0 0 wd /\
    Y' * 12 + M' = Y * 12 + M /\ -11 <= M' <= 11.
Proof.
  unfold Relativedelta._fix.
  cbn [Relativedelta.microseconds Relativedelta.seconds Relativedelta.minutes
       Relativedelta.hours Relativedelta.days Relativedelta.months
       Relativedelta.years Relativedelta.rd_weekday].
  change (Relativedelta.carry 999999 1000000 0 0) with (0, 0). cbv iota beta.
  change (Relativedelta.carry 59 60 0 0) with (0, 0). cbv iota beta.
  change (Relativedelta.carry 59 60 0 0) with (0, 0). cbv iota beta.
  change (Relativedelta.carry 23 24 0 0) with (0, 0). cbv iota beta.
  pose proof (carry_total 11 12 M Y ltac:(lia)) as Ht.
  pose proof (carry_bounded 12 M Y ltac:(lia)) as Hb.
  change (12 - 1) with 11 in Hb.
  destruct (Relativedelta.carry 11 12 M Y) as [mo y]. cbn [fst snd] in *.
  exists y, mo. split; [reflexivity|]. lia.
Qed.

Lemma naive_add_zero f :
  valid_naive f -> naive_add f (mktimedelta 0 0 0) = Ok f.
Proof.
  intros Hv. pose proof (toordinal_range _ Hv).
  rewrite naive_add_days by (auto; lia).
  rewrite Z.add_0_r, on_ordinal_same by exact Hv. reflexivity.
Qed.

Lemma monthrange_bad_year y m :
  ~ 1 <= y <= 9999 -> PyCalendar.monthrange y m = Raise ValueError.
Proof.
  intros Hy. unfold PyCalendar.monthrange, PyCalendar.weekday.
  replace (_check_date_fields y m 1) with false; [reflexivity|].
  unfold _check_date_fields, MINYEAR, MAXYEAR. lia.
Qed.

(** Years and months added to a date: the months are counted from year 0,
    and the day is cut down to the length of the month reached. *)
Lemma add_years_months self Y M :
  valid_fields self ->
  let total := (year self + Y) * 12 + (month self - 1) + M in
  let y := total / 12 in
  let m := total mod 12 + 1 in
  add Y M 0 0 0 0 0 0 None self =
  if (1 <=? y) && (y <=? 9999)
  then (with_fields self
          (mknaive y m (Z.min (_days_in_month y m) (day self))
             (hour self) (minute self) (second self) (microsecond self)),
        Ok tt)
  else (self, Raise ValueError).
Proof.
  intros Hv total y m.
  pose proof (valid_naive_bounds _ Hv) as (Hy & Hm & Hd & Hh & Hmi & Hs & Hus).
  fold (year self) (month self) (day self) in Hy, Hm, Hd.
  unfold add, set_datetime, Relativedelta.new. cbn [rbind].
  change (0 + 0 * 7) with 0.
  destruct (new_years_months Y M None) as (Y' & M' & -> & Et & Hb).
  unfold Relativedelta.radd.
  cbn [Relativedelta.years Relativedelta.months Relativedelta.days
       Relativedelta.hours Relativedelta.minutes Relativedelta.seconds
       Relativedelta.microseconds Relativedelta.rd_weekday].
  fold (year self) (month self) (day self).
  set (ym := if M' =? 0 then (year self + Y', month self)
             else if month self + M' >? 12 then (year self + Y' + 1, month self + M' - 12)
             else if month self + M' <? 1 then (year self + Y' - 1, month self + M' + 12)
             else (year self + Y', month self + M')).
  assert (Eym : ym = (y, m)).
  { subst ym y m total.
    destruct (M' =? 0) eqn:E0; [|destruct (month self + M' >? 12) eqn:E1;
                                  [|destruct (month self + M' <? 1) eqn:E2]];
      f_equal; Z.to_euclidean_division_equations; lia. }
  rewrite Eym. cbv iota beta.
  assert (Hmm : 1 <= m <= 12)
    by (subst m; pose proof (Z.mod_pos_bound total 12); lia).
  destruct ((1 <=? y) && (y <=? 9999)) eqn:Ey.
  - assert (Hyy : 1 <= y <= 9999) by lia.
    destruct (monthrange_valid y m Hyy Hmm) as (day1 & -> & _).
    cbn [rbind snd].
    pose proof (days_in_month_range y m Hmm) as Hdim.
    unfold replace, datetime_new. cbn [or_default rbind].
    replace (_check_date_fields y m (Z.min (_days_in_month y m) (day self))
             && _check_time_fields _ _ _ _) with true
      by (unfold _check_date_fields, _check_time_fields, MINYEAR, MAXYEAR; lia).
    cbn [rbind].
    change (timedelta_new 0 0 0 0 0) with (Ok (mktimedelta 0 0 0)).
    cbn [rbind]. unfold add_timedelta. cbn [fields dt_tzinfo].
    rewrite naive_add_zero; [reflexivity|].
    apply valid_naive_intro; lia.
  - rewrite monthrange_bad_year by lia. reflexivity.
Qed.

(** Property X13.  [add_months(v)] counts months across years: with the
    months numbered from year 0, the month reached is the receiver's plus
    [v]; the day is cut down to the length of that month and the time is
    kept.  When the year reached is outside 1..9999 it raises [ValueError]
    and the receiver is as it was.  [sub_months(v)] is [add_months(-v)]. *)
Theorem X13_add_months self v :
  valid_fields self ->
  let total := year self * 12 + (month self - 1) + v in
  let y := total / 12 in
  let m := total mod 12 + 1 in
  1 <= m <= 12 /\
  (1 <= y <= 9999 ->
   add_months v self =
   (with_fields self
      (mknaive y m (Z.min (_days_in_month y m) (day self))
         (hour self) (minute self) (second self) (microsecond self)),
    Ok tt)) /\
  (~ 1 <= y <= 9999 -> add_months v self = (self, Raise ValueError)) /\
  sub_months v self = add_months (- v) self.
Proof.
  intros Hv total y m.
  split; [subst m; pose proof (Z.mod_pos_bound total 12); lia|].
  unfold add_months. rewrite add_years_months by exact Hv.
  rewrite Z.add_0_r. fold total y m.
  split; [|split].
  - intros Hy. replace ((1 <=? y) && (y <=? 9999)) with true by lia. reflexivity.
  - intros Hy. replace ((1 <=? y) && (y <=? 9999)) with false by lia. reflexivity.
  - unfold sub_months. rewrite sub_is_add_negated. reflexivity.
Qed.

Lemma X13_witness :
  let self := Sample.utc 2023 11 30 9 30 15 5 in
  valid_fields self /\
  1 <= (year self * 12 + (month self - 1) + 3) / 12 <= 9999 /\
  add_months 3 self = (Sample.utc 2024 2 29 9 30 15 5, Ok tt).
Proof.
  intros self.
  assert (Hv : valid_fields self) by reflexivity.
  assert (Hy : 1 <= (year self * 12 + (month self - 1) + 3) / 12 <= 9999)
    by (split; discriminate).
  split; [exact Hv|]. split; [exact Hy|].
  exact (proj1 (proj2 (X13_add_months self 3 Hv)) Hy).
Defined.

(** Property X14.  [add_years(v)] changes the year alone, but for
    February 29, which becomes February 28 when the year reached is not a
    leap year.  When the year reached is outside 1..9999 it raises
    [ValueError] and the receiver is as it was.  Twelve months are a year:
    [add_months(12 * v)] does what [add_years(v)] does. *)
Theorem X14_add_years self v :
  valid_fields self ->
  let y := year self + v in
  (1 <= y <= 9999 ->
   add_years v self =
   (with_fields self
      (mknaive y (month self)
         (if (month self =? 2) && (day self =? 29) && negb (_is_leap y)
          then 28 else day self)
         (hour self) (minute self) (second self) (microsecond self)),
    Ok tt)) /\
  (~ 1 <= y <= 9999 -> add_years v self = (self, Raise ValueError)) /\
  add_months (12 * v) self = add_years v self.
Proof.
  intros Hv y.
  pose proof (valid_naive_bounds _ Hv) as (Hy & Hm & Hd & _).
  fold (year self) (month self) (day self) in Hy, Hm, Hd.
  assert (Et : ((year self + v) * 12 + (month self - 1) + 0) / 12 = y /\
               ((year self + v) * 12 + (month self - 1) + 0) mod 12 + 1 = month self)
    by (subst y; Z.to_euclidean_division_equations; lia).
  destruct Et as [Ey Em].
  assert (Er : add_years v self =
    if (1 <=? y) && (y <=? 9999)
    then (with_fields self
            (mknaive y (month self) (Z.min (_days_in_month y (month self)) (day self))
               (hour self) (minute self) (second self) (microsecond self)), Ok tt)
    else (self, Raise ValueError)).
  { unfold add_years. rewrite add_years_months by exact Hv. cbv zeta.
    rewrite Ey, Em. reflexivity. }
  split; [|split].
  - intros Hyy. rewrite Er.
    replace ((1 <=? y) && (y <=? 9999)) with true by lia.
    do 3 f_equal.
    unfold _days_in_month in *.
    destruct (month self =? 2) eqn:E2.
    + assert (E : month self = 2) by lia. rewrite E in *. cbn [andb] in *.
      destruct (_is_leap y), (_is_leap (year self)); cal_simpl;
        destruct (day self =? 29) eqn:E29; cbn [negb andb]; lia.
    + cbn [andb] in *. lia.
  - intros Hyy. rewrite Er.
    replace ((1 <=? y) && (y <=? 9999)) with false by lia. reflexivity.
  - rewrite Er. unfold add_months. rewrite add_years_months by exact Hv. cbv zeta.
    assert (Et : ((year self + 0) * 12 + (month self - 1) + 12 * v) / 12 = y /\
                 ((year self + 0) * 12 + (month self - 1) + 12 * v) mod 12 + 1 = month self)
      by (subst y; Z.to_euclidean_division_equations; lia).
    destruct Et as [-> ->]. reflexivity.
Qed.

Lemma X14_witness :
  let self := Sample.utc 2024 2 29 9 30 15 5 in
  valid_fields self /\ 1 <= year self + 1 <= 9999 /\
  add_years 1 self = (Sample.utc 2025 2 28 9 30 15 5, Ok tt).
Proof.
  intros self.
  assert (Hv : valid_fields self) by reflexivity.
  assert (Hy : 1 <= year self + 1 <= 9999) by (split; discriminate).
  split; [exact Hv|]. split; [exact Hy|].
  exact (proj1 (X14_add_years self 1 Hv) Hy).
Defined.

Lemma new_weekday v :
  Relativedelta.new 0 0 0 0 0 0 0 0 (Some v)
  = (w <- Relativedelta.weekdays_getitem v ;;
     Ok (Relativedelta.mkrelativedelta 0 0 0 0 0 0 0 (Some w))).
Proof.
  unfold Relativedelta.new.
  destruct (Relativedelta.weekdays_getitem v); reflexivity.
Qed.

Lemma radd_weekday dt w :
  valid_naive (fields dt) ->
  Relativedelta.radd (Relativedelta.mkrelativedelta 0 0 0 0 0 0 0 (Some w)) dt
  = (jump <- timedelta_new ((7 - PyDatetime.weekday (fields dt) + w) mod 7) 0 0 0 0 ;;
     add_timedelta dt jump).
Proof.
  intros Hv. pose proof (valid_naive_bounds _ Hv) as (Hy & Hm & Hd & _).
  unfold Relativedelta.radd.
  cbn [Relativedelta.years Relativedelta.months Relativedelta.days
       Relativedelta.hours Relativedelta.minutes Relativedelta.seconds
       Relativedelta.microseconds Relativedelta.rd_weekday Z.eqb].
  rewrite Z.add_0_r.
  destruct (monthrange_valid _ _ Hy Hm) as (day1 & -> & _). cbn [rbind snd].
  rewrite Z.min_r by lia. rewrite replace_same by assumption. cbn [rbind].
  change (timedelta_new 0 0 0 0 0) with (Ok (mktimedelta 0 0 0)).
  cbn [rbind]. unfold add_timedelta at 1. rewrite naive_add_zero by exact Hv.
  cbn [rbind fields]. destruct dt; reflexivity.
Qed.

(** Property X15.  [add_weekdays(v)], for [v] from -7 to 6, does not add a
    number of weekdays: it moves the receiver forward, by 0 to 6 days, to
    the first day whose [day_of_week] is [(v + 1) mod 7] (the weekday
    numbered [v] when Monday is 0), the time kept, or raises [OverflowError]
    past 9999-12-31; for any other [v] it raises [IndexError].
    [sub_weekdays(v)] and [sub_weekday(v)] do the same as [add_weekdays(v)],
    forward as well, and [add_weekday(v)] is [add_days(v)]. *)
Theorem X15_add_weekdays platform self v :
  valid_fields self ->
  let o := week_end (ordinal self) (v + 1) in
  ordinal self <= o <= ordinal self + 6 /\
  (-7 <= v < 7 -> o <= _MAXORDINAL ->
   exists there,
     add_weekdays v self = (there, Ok tt) /\
     ordinal there = o /\
     day_of_week platform there = Ok ((v + 1) mod 7) /\
     hour there = hour self /\ minute there = minute self /\
     second there = second self /\ microsecond there = microsecond self) /\
  (-7 <= v < 7 -> _MAXORDINAL < o ->
   add_weekdays v self = (self, Raise OverflowError)) /\
  (~ -7 <= v < 7 -> add_weekdays v self = (self, Raise IndexError)) /\
  sub_weekdays v self = add_weekdays v self /\
  sub_weekday v self = add_weekdays v self /\
  add_weekday v self = add_days v self.
Proof.
  intros Hv o.
  pose proof (toordinal_range _ Hv) as Ho. fold (ordinal self) in Ho.
  assert (Hj : 0 <= (v + 1 - ordinal self) mod 7 < 7) by (apply Z.mod_pos_bound; lia).
  assert (Hoo : ordinal self <= o <= ordinal self + 6) by (subst o; unfold week_end; lia).
  split; [exact Hoo|].
  assert (Erun : -7 <= v < 7 ->
            add_weekdays v self =
            set_datetime
              (add_timedelta (_datetime self) (mktimedelta (o - ordinal self) 0 0)) self).
  { intros Hr. unfold add_weekdays, add. rewrite new_weekday.
    unfold Relativedelta.weekdays_getitem.
    replace ((-7 <=? v) && (v <? 7)) with true by lia. cbn [rbind].
    rewrite radd_weekday by exact Hv.
    assert (Ej : (7 - PyDatetime.weekday (fields (_datetime self)) + v mod 7) mod 7
                 = o - ordinal self).
    { subst o. unfold week_end, PyDatetime.weekday. fold (ordinal self).
      Z.to_euclidean_division_equations; lia. }
    rewrite Ej. rewrite timedelta_days by lia. reflexivity. }
  split; [|split; [|split; [|split; [|split]]]].
  - intros Hr Hmax. rewrite (Erun Hr). unfold add_timedelta, set_datetime.
    unfold ordinal in *. rewrite naive_add_days by (auto; lia). cbn [rbind].
    eexists. split; [reflexivity|].
    replace (toordinal (fields (_datetime self)) + (o - toordinal (fields (_datetime self))))
      with o by lia.
    destruct (on_ordinal_valid (fields (_datetime self)) o) as [Hv1 Ho1]; [exact Hv|lia|].
    destruct (on_ordinal_time (fields (_datetime self)) o) as (Eh & Emi & Es & Eus).
    rewrite day_of_week_ordinal. unfold ordinal, hour, minute, second, microsecond.
    cbn [_datetime fields]. rewrite Ho1, Eh, Emi, Es, Eus.
    split; [reflexivity|]. split; [|repeat split].
    f_equal. subst o. unfold week_end. Z.to_euclidean_division_equations; lia.
  - intros Hr Hmax. rewrite (Erun Hr). unfold add_timedelta, set_datetime.
    unfold ordinal in *. rewrite naive_add_days_overflow by (auto; lia). reflexivity.
  - intros Hr. unfold add_weekdays, add. rewrite new_weekday.
    unfold Relativedelta.weekdays_getitem.
    replace ((-7 <=? v) && (v <? 7)) with false by lia. reflexivity.
  - unfold sub_weekdays. rewrite sub_is_add_negated. reflexivity.
  - unfold sub_weekday, sub_weekdays. rewrite sub_is_add_negated. reflexivity.
  - reflexivity.
Qed.

Lemma X15_witness :
  let self := Sample.utc 2026 11 4 9 30 15 5 in
  valid_fields self /\ -7 <= MONDAY < 7 /\
  week_end (ordinal self) (MONDAY + 1) <= _MAXORDINAL /\
  exists there,
    add_weekdays MONDAY self = (there, Ok tt) /\
    ordinal there = week_end (ordinal self) (MONDAY + 1) /\
    day_of_week Sample.echo there = Ok ((MONDAY + 1) mod 7) /\
    hour there = hour self /\ minute there = minute self /\
    second there = second self /\ microsecond there = microsecond self.
Proof.
  intros self.
  assert (Hv : valid_fields self) by reflexivity.
  assert (Hr : -7 <= MONDAY < 7) by (split; [discriminate|reflexivity]).
  assert (Hm : week_end (ordinal self) (MONDAY + 1) <= _MAXORDINAL) by discriminate.
  split; [exact Hv|]. split; [exact Hr|]. split; [exact Hm|].
  exact (proj1 (proj2 (X15_add_weekdays Sample.echo self MONDAY Hv)) Hr Hm).
Defined.

(** ** Quarters and years: first, last and nth weekday *)

Lemma quarter_range self :
  valid_fields self ->
  1 <= quarter self <= 4 /\ 3 * quarter self - 2 <= month self <= 3 * quarter self.
Proof.
  intros Hv. pose proof (valid_naive_bounds _ Hv) as (_ & Hm & _).
  fold (month self) in Hm. unfold quarter, ceil_div.
  Z.to_euclidean_division_equations; lia.
Qed.

Lemma set_month_spec self v :
  valid_fields self -> 1 <= v <= 12 ->
  day self <= _days_in_month (year self) v ->
  set_month v self =
  (with_fields self
     (let f := fields (_datetime self) in
      mknaive (PyDatetime.year f) v (PyDatetime.day f) (PyDatetime.hour f)
        (PyDatetime.minute f) (PyDatetime.second f) (PyDatetime.microsecond f)),
   Ok tt).
Proof.
  intros Hv Hm Hd. apply valid_naive_bounds in Hv.
  unfold set_month, set_datetime, replace, datetime_new. cbn [or_default].
  unfold year, day in Hd.
  replace (_check_date_fields _ v _ && _check_time_fields _ _ _ _) with true.
  - reflexivity.
  - unfold _check_date_fields, _check_time_fields, MINYEAR, MAXYEAR. lia.
Qed.

Lemma last_of_month_none self :
  valid_fields self ->
  last_of_month None self =
  (with_fields self
     (let f := fields (_datetime self) in
      mknaive (PyDatetime.year f) (PyDatetime.month f)
        (_days_in_month (PyDatetime.year f) (PyDatetime.month f)) 0 0 0
        (PyDatetime.microsecond f)), Ok tt).
Proof.
  intros Hv. pose proof (valid_naive_bounds _ Hv) as (Hy & Hm & Hd & _).
  unfold last_of_month, mbind, this, lift. rewrite start_of_day_spec by assumption.
  set (self0 := with_fields self _).
  assert (Hv0 : valid_fields self0) by (apply at_midnight_valid, Hv).
  rewrite days_in_month_valid by exact Hv0.
  pose proof (days_in_month_range (PyDatetime.year (fields (_datetime self))) _ Hm).
  rewrite set_day_spec.
  - reflexivity.
  - exact Hv0.
  - change (year self0) with (PyDatetime.year (fields (_datetime self))).
    change (month self0) with (PyDatetime.month (fields (_datetime self))). lia.
Qed.

Lemma first_of_quarter_run target self :
  valid_fields self ->
  first_of_quarter target self =
  first_of_month target
    (with_fields self
       (mknaive (year self) (3 * quarter self - 2) 1 (hour self) (minute self)
          (second self) (microsecond self))).
Proof.
  intros Hv. pose proof (valid_naive_bounds _ Hv) as (Hy & Hm & Hd & _).
  destruct (quarter_range self Hv) as [Hq _].
  unfold first_of_quarter, mbind at 1, this. unfold mbind.
  replace (quarter self * 3 - 2) with (3 * quarter self - 2) by lia.
  rewrite set_date_spec; auto; try lia.
  pose proof (days_in_month_range (year self) (3 * quarter self - 2)). lia.
Qed.

Lemma last_of_quarter_run target self :
  valid_fields self ->
  last_of_quarter target self =
  last_of_month target
    (with_fields self
       (mknaive (year self) (3 * quarter self) 1 (hour self) (minute self)
          (second self) (microsecond self))).
Proof.
  intros Hv. pose proof (valid_naive_bounds _ Hv) as (Hy & Hm & Hd & _).
  destruct (quarter_range self Hv) as [Hq _].
  unfold last_of_quarter, mbind at 1, this. unfold mbind.
  replace (quarter self * 3) with (3 * quarter self) by lia.
  rewrite set_date_spec; auto; try lia.
  pose proof (days_in_month_range (year self) (3 * quarter self)). lia.
Qed.

Lemma valid_on_date self y m d :
  valid_fields self -> 1 <= y <= 9999 -> 1 <= m <= 12 ->
  1 <= d <= _days_in_month y m ->
  valid_naive (mknaive y m d (hour self) (minute self) (second self) (microsecond self)).
Proof.
  intros Hv Hy Hm Hd. pose proof (valid_naive_bounds _ Hv) as (_ & _ & _ & Hh & Hmi & Hs & Hus).
  apply valid_naive_intro; auto.
Qed.

Lemma ymd2ord_mod7 y m t :
  0 <= t <= 6 ->
  (_ymd2ord y m 1 + ((t - _ymd2ord y m 1) mod 7 + 1) - 1) mod 7 = t.
Proof. intros Ht. Z.to_euclidean_division_equations; lia. Qed.

(** Property X16.  The quarter of a valid Moment is between 1 and 4 and
    holds its month.  [first_of_quarter()] sets the first day of the first
    month of the quarter and [last_of_quarter()] the last day of its last
    month, both at 00:00:00; with a weekday from 0 to 6 they give the first
    day of that weekday in the first month (day 1 to 7) and the last one in
    the last month (one of its last 7 days). *)
Theorem X16_first_last_of_quarter platform self :
  valid_fields self ->
  let q := quarter self in
  let dim := _days_in_month (year self) (3 * q) in
  1 <= q <= 4 /\ 3 * q - 2 <= month self <= 3 * q /\
  first_of_quarter None self
  = (with_fields self (mknaive (year self) (3 * q - 2) 1 0 0 0 (microsecond self)),
     Ok tt) /\
  last_of_quarter None self
  = (with_fields self (mknaive (year self) (3 * q) dim 0 0 0 (microsecond self)),
     Ok tt) /\
  (forall t, 0 <= t <= 6 ->
   exists a b,
     first_of_quarter (Some t) self = (a, Ok tt) /\
     year a = year self /\ month a = 3 * q - 2 /\ 1 <= day a <= 7 /\
     day_of_week platform a = Ok t /\
     last_of_quarter (Some t) self = (b, Ok tt) /\
     year b = year self /\ month b = 3 * q /\ dim - 6 <= day b <= dim /\
     day_of_week platform b = Ok t).
Proof.
  intros Hv q dim.
  pose proof (valid_naive_bounds _ Hv) as (Hy & Hm & Hd & _).
  fold (year self) in Hy.
  destruct (quarter_range self Hv) as [Hq Hmq]. fold q in Hq, Hmq.
  pose proof (days_in_month_range (year self) (3 * q - 2) ltac:(lia)) as Hd1.
  pose proof (days_in_month_range (year self) (3 * q) ltac:(lia)) as Hd3.
  fold dim in Hd3.
  assert (Hv1 : valid_naive (mknaive (year self) (3 * q - 2) 1 (hour self) (minute self)
                               (second self) (microsecond self)))
    by (apply valid_on_date; auto; lia).
  assert (Hv3 : valid_naive (mknaive (year self) (3 * q) 1 (hour self) (minute self)
                               (second self) (microsecond self)))
    by (apply valid_on_date; auto; lia).
  split; [exact Hq|]. split; [exact Hmq|].
  split; [|split].
  - rewrite first_of_quarter_run by exact Hv. fold q.
    rewrite first_of_month_none by exact Hv1. reflexivity.
  - rewrite last_of_quarter_run by exact Hv. fold q.
    rewrite last_of_month_none by exact Hv3. reflexivity.
  - intros t Ht. do 2 eexists.
    rewrite first_of_quarter_run, last_of_quarter_run by exact Hv. fold q.
    rewrite first_of_month_some by (auto; exact Hv1).
    rewrite last_of_month_some by (auto; exact Hv3).
    rewrite !with_fields_twice, !fields_with_fields.
    cbn [PyDatetime.year PyDatetime.month PyDatetime.microsecond].
    split; [reflexivity|].
    rewrite !day_of_week_ordinal, !ordinal_with_fields, !toordinal_day.
    unfold year at 1 3, month at 1 2, day. rewrite !fields_with_fields.
    cbn [PyDatetime.year PyDatetime.month PyDatetime.day].
    fold dim.
    pose proof (Z.mod_pos_bound (t - _ymd2ord (year self) (3 * q - 2) 1) 7 ltac:(lia)).
    pose proof (Z.mod_pos_bound (_ymd2ord (year self) (3 * q) 1 + dim - 1 - t) 7 ltac:(lia)).
    split; [reflexivity|]. split; [reflexivity|]. split; [lia|].
    split; [f_equal; apply ymd2ord_mod7; exact Ht|].
    split; [reflexivity|]. split; [reflexivity|]. split; [reflexivity|].
    split; [lia|].
    f_equal. generalize (_ymd2ord (year self) (3 * q) 1). intros z.
    Z.to_euclidean_division_equations; lia.
Qed.

Lemma X16_witness :
  let self := Sample.utc 2026 11 4 9 30 15 5 in
  valid_fields self /\
  quarter self = 4 /\
  first_of_quarter None self = (Sample.utc 2026 10 1 0 0 0 5, Ok tt) /\
  last_of_quarter None self = (Sample.utc 2026 12 31 0 0 0 5, Ok tt).
Proof.
  intros self.
  assert (Hv : valid_fields self) by reflexivity.
  split; [exact Hv|]. split; [reflexivity|].
  destruct (X16_first_last_of_quarter Sample.echo self Hv) as (_ & _ & A & B & _).
  split; [exact A|exact B].
Defined.

(** The walk of [nth_of_month], [nth_of_quarter] and [nth_of_year]: from a
    first day, the calls of [next] reach the [nth] day of the target
    weekday counted from that first day. *)
Lemma walk_spec platform fuel nth t dt0 :
  valid_fields dt0 -> 0 <= t <= 6 -> 2 <= nth -> (6 <= fuel)%nat ->
  let o1 := ordinal dt0 in
  let o := o1 + (t - o1) mod 7 + 7 * (nth - 1) in
  let count := nth - (if option_Z_eqb (o1 mod 7) (Some t) then 1 else 0) in
  (o <= _MAXORDINAL ->
   next_times platform fuel (Z.to_nat count) (Some t) dt0
   = (with_fields dt0 (on_ordinal (at_midnight (fields (_datetime dt0))) o), Ok tt)) /\
  (_MAXORDINAL < o ->
   exists dt',
     next_times platform fuel (Z.to_nat count) (Some t) dt0 = (dt', Raise OverflowError)).
Proof.
  intros Hv Ht Hnth Hfuel o1 o count. cbn [option_Z_eqb] in count.
  assert (Hcount : 1 <= count) by (subst count; destruct (o1 mod 7 =? t); lia).
  destruct (Z.to_nat count) as [|count'] eqn:Ecount; [lia|].
  assert (Efinal : next_ordinal o1 t + 7 * Z.of_nat count' = o).
  { assert (Z.of_nat count' = count - 1) by lia.
    unfold next_ordinal. subst count o.
    destruct (o1 mod 7 =? t) eqn:E; Z.to_euclidean_division_equations; lia. }
  split; intros Hr.
  - rewrite next_times_spec; auto; fold o1; rewrite Efinal; [reflexivity|exact Hr].
  - apply next_times_overflow; auto. fold o1. rewrite Efinal. exact Hr.
Qed.

Lemma walk_nothing platform fuel nth target w dt0 :
  nth <= 0 ->
  next_times platform fuel
    (Z.to_nat (nth - (if option_Z_eqb w target then 1 else 0))) target dt0
  = (dt0, Ok tt).
Proof.
  intros Hn.
  replace (Z.to_nat (nth - (if option_Z_eqb w target then 1 else 0))) with O
    by (destruct (option_Z_eqb w target); lia).
  reflexivity.
Qed.

Lemma ymd2ord_year_bounds y m d :
  1 <= m <= 12 -> 1 <= d <= _days_in_month y m ->
  _days_before_year y + 1 <= _ymd2ord y m d <= _days_before_year y + days_in_year y.
Proof.
  intros Hm Hd. destruct (ymd2ord_in_year y m d Hm Hd) as (k & Hk & -> & _). lia.
Qed.

Lemma dby_le y1 y2 : y1 <= y2 -> _days_before_year y1 <= _days_before_year y2.
Proof.
  intros H. destruct (Z.eq_dec y1 y2) as [->|Hne]; [lia|].
  pose proof (dby_mono y1 y2 ltac:(lia)). pose proof (days_in_year_pos y1). lia.
Qed.

(** The month of a date tells on which side of the end of a month the date is. *)
Lemma ymd2ord_month_order y m d m0 :
  1 <= m <= 12 -> 1 <= d <= _days_in_month y m -> 1 <= m0 <= 12 ->
  (m <= m0 <-> _ymd2ord y m d <= _ymd2ord y m0 (_days_in_month y m0)).
Proof.
  intros Hm Hd Hm0. unfold _ymd2ord, _days_before_month, _days_in_month in *.
  month_split Hm; month_split Hm0; destruct (_is_leap y); cal_simpl; lia.
Qed.

Lemma ord2ymd_year_test y o y' m' d' :
  1 <= y -> _ymd2ord y 1 1 <= o ->
  _ord2ymd o = (y', m', d') ->
  negb (y =? y') = negb (o <=? _ymd2ord y 12 31).
Proof.
  intros Hy Ho E.
  pose proof (ymd2ord_year_bounds y 1 1 ltac:(lia) ltac:(change (_days_in_month y 1) with 31; lia)) as B1.
  pose proof (ymd2ord_year_bounds y 12 31 ltac:(lia) ltac:(change (_days_in_month y 12) with 31; lia)) as B2.
  assert (E12 : _ymd2ord y 12 31 = _days_before_year y + days_in_year y).
  { rewrite is_leap_days_in_year. unfold _ymd2ord, _days_before_month.
    destruct (_is_leap y); cal_simpl; lia. }
  pose proof (dby_nonneg y Hy).
  destruct (ymd2ord_ord2ymd o) as (y2 & m2 & d2 & E2 & Hy2 & Hm2 & Hd2 & Eo); [lia|].
  rewrite E in E2. injection E2 as <- <- <-.
  pose proof (ymd2ord_year_bounds y' m' d' Hm2 Hd2) as B.
  destruct (Z.lt_trichotomy y y') as [Hlt|[Heq|Hgt]].
  - pose proof (dby_mono y y' Hlt).
    replace (y =? y') with false by lia. replace (o <=? _ymd2ord y 12 31) with false by lia.
    reflexivity.
  - subst y'. rewrite Z.eqb_refl. replace (o <=? _ymd2ord y 12 31) with true by lia.
    reflexivity.
  - exfalso. pose proof (dby_mono y' y Hgt). lia.
Qed.

Lemma ord2ymd_quarter_test y q o y' m' d' :
  1 <= y -> 1 <= q <= 4 -> _ymd2ord y (3 * q - 2) 1 <= o ->
  _ord2ymd o = (y', m', d') ->
  (3 * q <? m') || negb (y =? y')
  = negb (o <=? _ymd2ord y (3 * q) (_days_in_month y (3 * q))).
Proof.
  intros Hy Hq Ho E.
  pose proof (days_in_month_range y (3 * q - 2) ltac:(lia)) as Hd1.
  pose proof (days_in_month_range y (3 * q) ltac:(lia)) as Hd3.
  pose proof (ymd2ord_year_bounds y (3 * q - 2) 1 ltac:(lia) ltac:(lia)) as B1.
  assert (B3 : _days_before_year y + 1
               <= _ymd2ord y (3 * q) (_days_in_month y (3 * q))
               <= _days_before_year y + days_in_year y)
    by (apply ymd2ord_year_bounds; lia).
  pose proof (dby_nonneg y Hy).
  destruct (ymd2ord_ord2ymd o) as (y2 & m2 & d2 & E2 & Hy2 & Hm2 & Hd2 & Eo); [lia|].
  rewrite E in E2. injection E2 as <- <- <-.
  pose proof (ymd2ord_year_bounds y' m' d' Hm2 Hd2) as B.
  destruct (Z.lt_trichotomy y y') as [Hlt|[Heq|Hgt]].
  - pose proof (dby_mono y y' Hlt).
    replace (y =? y') with false by lia.
    replace (o <=? _ymd2ord y (3 * q) (_days_in_month y (3 * q))) with false by lia.
    cbn [negb]. apply orb_true_r.
  - subst y'. rewrite Z.eqb_refl. cbn [negb]. rewrite orb_false_r.
    pose proof (ymd2ord_month_order y m' d' (3 * q) Hm2 Hd2 ltac:(lia)) as Hord.
    rewrite Eo in Hord.
    destruct (3 * q <? m') eqn:E1;
      destruct (o <=? _ymd2ord y (3 * q) (_days_in_month y (3 * q))) eqn:E3;
      try reflexivity; exfalso; lia.
  - exfalso. pose proof (dby_mono y' y Hgt). lia.
Qed.

(** The last step of [nth_of_quarter] and [nth_of_year]: the receiver takes
    the date the copy has reached, at 00:00:00. *)
Lemma land_spec self o y' m' d' :
  valid_fields self -> 1 <= o <= _MAXORDINAL ->
  _ord2ymd o = (y', m', d') -> y' = year self ->
  (set_date (year self) m' d' ;;; start_of_day ;;; mret ReturnsSelf) self
  = (with_fields self (on_ordinal (at_midnight (fields (_datetime self))) o),
     Ok ReturnsSelf).
Proof.
  intros Hv Ho E Ey.
  pose proof (valid_naive_bounds _ Hv) as (Hy & Hm & Hd & Hh & Hmi & Hs & Hus).
  destruct (ymd2ord_ord2ymd o) as (y2 & m2 & d2 & E2 & Hy2 & Hm2 & Hd2 & Eo); [lia|].
  rewrite E in E2. injection E2 as <- <- <-.
  unfold mbind, mret. rewrite set_date_spec; auto; try (rewrite <- Ey; assumption).
  rewrite start_of_day_spec.
  - rewrite with_fields_twice, fields_with_fields. unfold on_ordinal. rewrite E.
    rewrite Ey. reflexivity.
  - rewrite fields_with_fields. cbv zeta. apply valid_naive_intro; auto.
    rewrite <- Ey. assumption.
Qed.

Lemma quarter_of_month self q :
  1 <= q <= 4 -> 3 * q - 2 <= month self <= 3 * q -> quarter self = q.
Proof.
  intros Hq Hm. unfold quarter, ceil_div. Z.to_euclidean_division_equations; lia.
Qed.

Lemma nth_of_quarter_run platform localize get_localzone timezone fuel nth t self :
  valid_fields self -> 0 <= t <= 6 -> 2 <= nth -> (6 <= fuel)%nat ->
  let q := quarter self in
  let first := _ymd2ord (year self) (3 * q - 2) 1 in
  let last := _ymd2ord (year self) (3 * q) (_days_in_month (year self) (3 * q)) in
  let o := first + (t - first) mod 7 + 7 * (nth - 1) in
  (o <= _MAXORDINAL ->
   nth_of_quarter platform localize get_localzone timezone fuel nth (Some t) self
   = if o <=? last
     then (with_fields self (on_ordinal (at_midnight (fields (_datetime self))) o),
           Ok ReturnsSelf)
     else (self, Ok ReturnsFalse)) /\
  (_MAXORDINAL < o ->
   nth_of_quarter platform localize get_localzone timezone fuel nth (Some t) self
   = (self, Raise OverflowError)).
Proof.
  intros Hv Ht Hnth Hfuel q first last o.
  pose proof (valid_naive_bounds _ Hv) as (Hy & Hm & Hd & Hh & Hmi & Hs & Hus).
  fold (year self) in Hy.
  destruct (quarter_range self Hv) as [Hq Hmq]. fold q in Hq, Hmq.
  pose proof (days_in_month_range (year self) (3 * q - 2) ltac:(lia)) as Hd1.
  pose proof (days_in_month_range (year self) (3 * q) ltac:(lia)) as Hd3.
  pose proof (Z.mod_pos_bound (t - first) 7 ltac:(lia)) as Hmod.
  assert (Hfirst : 1 <= first).
  { pose proof (ymd2ord_year_bounds (year self) (3 * q - 2) 1 ltac:(lia) ltac:(lia)).
    pose proof (dby_nonneg (year self) ltac:(lia)). subst first. lia. }
  set (c := mkPendulum (dt_tzinfo (_datetime self))
              (mkdatetime (fields (_datetime self))
                 (localize (dt_tzinfo (_datetime self)) (fields (_datetime self))))).
  assert (Hvc : valid_fields c) by exact Hv.
  set (dtq := with_fields c (mknaive (year self) (3 * q) 1 (hour self) (minute self)
                               (second self) (microsecond self))).
  assert (Edtq : (set_day 1 ;;; set_month (quarter self * 3)) c = (dtq, Ok tt)).
  { unfold mbind. rewrite set_day_spec; [|exact Hvc|].
    - rewrite set_month_spec.
      + fold q. replace (q * 3) with (3 * q) by lia. reflexivity.
      + rewrite fields_with_fields. cbv zeta.
        change (fields (_datetime c)) with (fields (_datetime self)).
        pose proof (days_in_month_range (year self) (month self) Hm).
        unfold year, month in *.
        apply valid_naive_intro; auto; lia.
      + fold q. lia.
      + fold q. replace (q * 3) with (3 * q) by lia.
        unfold day, year. rewrite fields_with_fields.
        cbn [PyDatetime.day PyDatetime.year].
        change (PyDatetime.year (fields (_datetime c))) with (year self). lia.
    - pose proof (days_in_month_range (year self) (month self) Hm).
      change (year c) with (year self). change (month c) with (month self). lia. }
  assert (Hvq : valid_fields dtq).
  { subst dtq. rewrite fields_with_fields. apply valid_on_date; auto; lia. }
  assert (Eqq : quarter dtq = q) by (apply quarter_of_month; [exact Hq|]; cbn; lia).
  set (dt0 := with_fields c (mknaive (year self) (3 * q - 2) 1 0 0 0 (microsecond self))).
  assert (Edt0 : first_of_quarter None dtq = (dt0, Ok tt)).
  { rewrite first_of_quarter_run by exact Hvq. rewrite Eqq.
    rewrite first_of_month_none.
    - reflexivity.
    - rewrite fields_with_fields.
      apply (valid_on_date dtq); [exact Hvq| | |];
        change (year dtq) with (year self); lia. }
  assert (Hv0 : valid_fields dt0).
  { subst dt0. rewrite fields_with_fields. apply valid_naive_intro; auto; lia. }
  assert (Eo0 : ordinal dt0 = first) by reflexivity.
  assert (Erun :
    nth_of_quarter platform localize get_localzone timezone fuel nth (Some t) self =
    on dt0
      (next_times platform fuel
         (Z.to_nat (nth - (if option_Z_eqb (first mod 7) (Some t) then 1 else 0)))
         (Some t))
      (fun dt _ =>
         if (3 * q <? month dt) || negb (year self =? year dt)
         then mret ReturnsFalse
         else set_date (year self) (month dt) (day dt) ;;;
              start_of_day ;;; mret ReturnsSelf) self).
  { unfold nth_of_quarter. replace (nth =? 1) with false by lia.
    unfold mbind at 1. unfold this at 1. unfold mbind at 1. unfold lift at 1.
    rewrite copy_spec by assumption. fold c.
    unfold on at 1. rewrite Edtq. cbv zeta.
    unfold on at 1. rewrite Edt0.
    unfold mbind at 1. unfold lift at 1. rewrite day_of_week_ordinal.
    rewrite Eo0. reflexivity. }
  rewrite Erun. clear Erun. unfold on.
  destruct (walk_spec platform fuel nth t dt0 Hv0 Ht Hnth Hfuel) as [Wok Wover].
  rewrite Eo0 in Wok, Wover. fold o in Wok, Wover.
  split; intros Hr.
  - rewrite (Wok Hr).
    set (dtN := with_fields dt0 _).
    destruct (_ord2ymd o) as [[y' m'] d'] eqn:Eymd.
    assert (EN : year dtN = y' /\ month dtN = m' /\ day dtN = d').
    { subst dtN. unfold year, month, day. rewrite fields_with_fields. unfold on_ordinal.
      rewrite Eymd. repeat split. }
    destruct EN as (-> & -> & ->).
    assert (Ho1 : first <= o) by (subst o; lia).
    rewrite (ord2ymd_quarter_test (year self) q o y' m' d') by (auto; lia).
    fold last.
    destruct (o <=? last) eqn:El; cbn [negb].
    + assert (Ey : y' = year self).
      { pose proof (ord2ymd_quarter_test (year self) q o y' m' d' ltac:(lia) Hq Ho1 Eymd) as T.
        fold last in T. rewrite El in T. cbn [negb] in T.
        apply orb_false_iff in T. destruct T as [_ T]. lia. }
      apply (land_spec self o y' m' d'); auto. lia.
    + reflexivity.
  - destruct (Wover Hr) as [dt' ->]. reflexivity.
Qed.

Lemma landed_facts platform self o t :
  valid_fields self -> 1 <= o <= _MAXORDINAL -> o mod 7 = t ->
  let self' := with_fields self (on_ordinal (at_midnight (fields (_datetime self))) o) in
  ordinal self' = o /\
  day_of_week platform self' = Ok t /\
  hour self' = 0 /\ minute self' = 0 /\ second self' = 0 /\
  microsecond self' = microsecond self /\
  _tz self' = _tz self /\
  dt_tzinfo (_datetime self') = dt_tzinfo (_datetime self).
Proof.
  intros Hv Ho Et self'.
  destruct (on_ordinal_valid (at_midnight (fields (_datetime self))) o)
    as [Hv1 Ho1]; [apply at_midnight_valid, Hv|lia|].
  destruct (on_ordinal_time (at_midnight (fields (_datetime self))) o)
    as (Eh & Emi & Es & Eus).
  subst self'. rewrite day_of_week_ordinal, ordinal_with_fields, Ho1.
  unfold hour, minute, second, microsecond.
  rewrite fields_with_fields, Eh, Emi, Es, Eus, Et. repeat split.
Qed.

(** Property X17.  [nth_of_quarter(nth, target)], for [nth] from 2 on and
    a weekday [target], counts the days of that weekday from the first day
    of the quarter.  When the [nth] one is in the quarter, the receiver is
    set to it at 00:00:00; when it is past the last day of the quarter,
    [False] is returned and the receiver is as it was; when it is past
    9999-12-31, [OverflowError] is raised and the receiver is as it was. *)
Theorem X17_nth_of_quarter platform localize get_localzone timezone fuel nth t self :
  valid_fields self -> 0 <= t <= 6 -> 2 <= nth -> (6 <= fuel)%nat ->
  let q := quarter self in
  let first := _ymd2ord (year self) (3 * q - 2) 1 in
  let last := _ymd2ord (year self) (3 * q) (_days_in_month (year self) (3 * q)) in
  let o := first + (t - first) mod 7 + 7 * (nth - 1) in
  (o <= last ->
   exists self',
     nth_of_quarter platform localize get_localzone timezone fuel nth (Some t) self
     = (self', Ok ReturnsSelf) /\
     ordinal self' = o /\
     day_of_week platform self' = Ok t /\
     hour self' = 0 /\ minute self' = 0 /\ second self' = 0 /\
     microsecond self' = microsecond self /\
     _tz self' = _tz self /\
     dt_tzinfo (_datetime self') = dt_tzinfo (_datetime self)) /\
  (last < o -> o <= _MAXORDINAL ->
   nth_of_quarter platform localize get_localzone timezone fuel nth (Some t) self
   = (self, Ok ReturnsFalse)) /\
  (_MAXORDINAL < o ->
   nth_of_quarter platform localize get_localzone timezone fuel nth (Some t) self
   = (self, Raise OverflowError)).
Proof.
  intros Hv Ht Hnth Hfuel q first last o.
  destruct (nth_of_quarter_run platform localize get_localzone timezone fuel nth t self
              Hv Ht Hnth Hfuel) as [A B].
  fold q first last o in A, B.
  pose proof (valid_naive_bounds _ Hv) as (Hy & _). fold (year self) in Hy.
  destruct (quarter_range self Hv) as [Hq _]. fold q in Hq.
  pose proof (days_in_month_range (year self) (3 * q - 2) ltac:(lia)) as Hd1.
  pose proof (days_in_month_range (year self) (3 * q) ltac:(lia)) as Hd3.
  assert (Hfirst : 1 <= first).
  { pose proof (ymd2ord_year_bounds (year self) (3 * q - 2) 1 ltac:(lia) ltac:(lia)).
    pose proof (dby_nonneg (year self) ltac:(lia)). subst first. lia. }
  assert (Hlast : last <= _MAXORDINAL).
  { assert (B3 : last <= _days_before_year (year self) + days_in_year (year self))
      by (apply ymd2ord_year_bounds; lia).
    destruct (Z.eq_dec (year self) 9999) as [E|E].
    - rewrite E in B3. exact B3.
    - pose proof (dby_mono (year self) 9999 ltac:(lia)) as M.
      change (_days_before_year 9999) with 3651694 in M. unfold _MAXORDINAL. lia. }
  pose proof (Z.mod_pos_bound (t - first) 7 ltac:(lia)) as Hmod.
  split; [|split].
  - intros Hr. rewrite A by lia. replace (o <=? last) with true by lia.
    eexists. split; [reflexivity|].
    apply landed_facts; [exact Hv|subst o; lia|].
    subst o. Z.to_euclidean_division_equations; lia.
  - intros Hr Hmax. rewrite A by lia. replace (o <=? last) with false by lia. reflexivity.
  - exact B.
Qed.

Lemma X17_witness :
  let self := Sample.utc 2026 11 4 9 30 15 5 in
  let q := quarter self in
  let first := _ymd2ord (year self) (3 * q - 2) 1 in
  let last := _ymd2ord (year self) (3 * q) (_days_in_month (year self) (3 * q)) in
  valid_fields self /\ 0 <= FRIDAY <= 6 /\ 2 <= 13 /\ (6 <= 6)%nat /\
  first + (FRIDAY - first) mod 7 + 7 * (13 - 1) <= last /\
  first + (FRIDAY - first) mod 7 + 7 * (14 - 1) <= _MAXORDINAL /\
  last < first + (FRIDAY - first) mod 7 + 7 * (14 - 1) /\
  (exists self',
     nth_of_quarter Sample.echo Sample.fixed UTC Sample.no_zone 6 13 (Some FRIDAY) self
     = (self', Ok ReturnsSelf) /\
     ordinal self' = first + (FRIDAY - first) mod 7 + 7 * (13 - 1) /\
     day_of_week Sample.echo self' = Ok FRIDAY /\
     hour self' = 0 /\ minute self' = 0 /\ second self' = 0 /\
     microsecond self' = microsecond self /\
     _tz self' = _tz self /\
     dt_tzinfo (_datetime self') = dt_tzinfo (_datetime self)) /\
  nth_of_quarter Sample.echo Sample.fixed UTC Sample.no_zone 6 14 (Some FRIDAY) self
  = (self, Ok ReturnsFalse).
Proof.
  intros self q first last.
  assert (Hv : valid_fields self) by reflexivity.
  assert (Ht : 0 <= FRIDAY <= 6) by (split; discriminate).
  assert (H13 : 2 <= 13) by discriminate.
  assert (H14 : 2 <= 14) by discriminate.
  assert (Hf : (6 <= 6)%nat) by apply le_n.
  assert (H1 : first + (FRIDAY - first) mod 7 + 7 * (13 - 1) <= last) by discriminate.
  assert (H2 : first + (FRIDAY - first) mod 7 + 7 * (14 - 1) <= _MAXORDINAL) by discriminate.
  assert (H3 : last < first + (FRIDAY - first) mod 7 + 7 * (14 - 1)) by reflexivity.
  split; [exact Hv|]. split; [exact Ht|]. split; [exact H13|]. split; [exact Hf|].
  split; [exact H1|]. split; [exact H2|]. split; [exact H3|].
  split.
  - exact (proj1 (X17_nth_of_quarter Sample.echo Sample.fixed UTC Sample.no_zone 6 13
                    FRIDAY self Hv Ht H13 Hf) H1).
  - exact (proj1 (proj2 (X17_nth_of_quarter Sample.echo Sample.fixed UTC Sample.no_zone 6 14
                    FRIDAY self Hv Ht H14 Hf)) H3 H2).
Defined.

Lemma first_of_year_run target self :
  valid_fields self ->
  first_of_year target self =
  first_of_month target
    (with_fields self
       (mknaive (year self) 1 (day self) (hour self) (minute self)
          (second self) (microsecond self))).
Proof.
  intros Hv. pose proof (valid_naive_bounds _ Hv) as (Hy & Hm & Hd & _).
  pose proof (days_in_month_range (year self) (month self) Hm).
  unfold first_of_year, mbind.
  rewrite set_month_spec; auto; try lia.
  change (_days_in_month (year self) 1) with 31. unfold day, year, month in *. lia.
Qed.

Lemma last_of_year_run target self :
  valid_fields self ->
  last_of_year target self =
  last_of_month target
    (with_fields self
       (mknaive (year self) 12 (day self) (hour self) (minute self)
          (second self) (microsecond self))).
Proof.
  intros Hv. pose proof (valid_naive_bounds _ Hv) as (Hy & Hm & Hd & _).
  pose proof (days_in_month_range (year self) (month self) Hm).
  unfold last_of_year, mbind, MONTHS_PER_YEAR.
  rewrite set_month_spec; auto; try lia.
  change (_days_in_month (year self) 12) with 31. unfold day, year, month in *. lia.
Qed.

Lemma valid_in_long_month self m :
  valid_fields self -> m = 1 \/ m = 12 ->
  valid_naive (mknaive (year self) m (day self) (hour self) (minute self)
                 (second self) (microsecond self)).
Proof.
  intros Hv Hm. pose proof (valid_naive_bounds _ Hv) as (Hy & Hm0 & Hd & _).
  pose proof (days_in_month_range (year self) (month self) Hm0).
  apply valid_on_date; auto; try lia.
  destruct Hm as [-> | ->];
    [change (_days_in_month (year self) 1) with 31
    |change (_days_in_month (year self) 12) with 31];
    unfold day, year, month in *; lia.
Qed.

(** Property X18.  [first_of_year()] and [last_of_year()] do not raise on a
    valid Moment: they set January 1 and December 31 at 00:00:00; with a
    weekday from 0 to 6 they give the first day of that weekday in January
    (day 1 to 7) and the last one in December (day 25 to 31). *)
Theorem X18_first_last_of_year platform self :
  valid_fields self ->
  first_of_year None self
  = (with_fields self (mknaive (year self) 1 1 0 0 0 (microsecond self)), Ok tt) /\
  last_of_year None self
  = (with_fields self (mknaive (year self) 12 31 0 0 0 (microsecond self)), Ok tt) /\
  (forall t, 0 <= t <= 6 ->
   exists a b,
     first_of_year (Some t) self = (a, Ok tt) /\
     year a = year self /\ month a = 1 /\ 1 <= day a <= 7 /\
     day_of_week platform a = Ok t /\
     last_of_year (Some t) self = (b, Ok tt) /\
     year b = year self /\ month b = 12 /\ 25 <= day b <= 31 /\
     day_of_week platform b = Ok t).
Proof.
  intros Hv.
  pose proof (valid_in_long_month self 1 Hv ltac:(lia)) as Hv1.
  pose proof (valid_in_long_month self 12 Hv ltac:(lia)) as Hv12.
  split; [|split].
  - rewrite first_of_year_run by exact Hv.
    rewrite first_of_month_none by exact Hv1. reflexivity.
  - rewrite last_of_year_run by exact Hv.
    rewrite last_of_month_none by exact Hv12. reflexivity.
  - intros t Ht. do 2 eexists.
    rewrite first_of_year_run, last_of_year_run by exact Hv.
    rewrite first_of_month_some by (auto; exact Hv1).
    rewrite last_of_month_some by (auto; exact Hv12).
    rewrite !with_fields_twice, !fields_with_fields.
    cbn [PyDatetime.year PyDatetime.month PyDatetime.microsecond].
    change (_days_in_month (year self) 12) with 31.
    split; [reflexivity|].
    rewrite !day_of_week_ordinal, !ordinal_with_fields, !toordinal_day.
    unfold year at 1 3, month at 1 2, day. rewrite !fields_with_fields.
    cbn [PyDatetime.year PyDatetime.month PyDatetime.day].
    pose proof (Z.mod_pos_bound (t - _ymd2ord (year self) 1 1) 7 ltac:(lia)).
    pose proof (Z.mod_pos_bound (_ymd2ord (year self) 12 1 + 31 - 1 - t) 7 ltac:(lia)).
    split; [reflexivity|]. split; [reflexivity|]. split; [lia|].
    split; [f_equal; apply ymd2ord_mod7; exact Ht|].
    split; [reflexivity|]. split; [reflexivity|]. split; [reflexivity|].
    split; [lia|].
    f_equal. generalize (_ymd2ord (year self) 12 1). intros z.
    Z.to_euclidean_division_equations; lia.
Qed.

Lemma X18_witness :
  let self := Sample.utc 2026 11 30 9 30 15 5 in
  valid_fields self /\
  first_of_year None self = (Sample.utc 2026 1 1 0 0 0 5, Ok tt) /\
  last_of_year None self = (Sample.utc 2026 12 31 0 0 0 5, Ok tt).
Proof.
  intros self.
  assert (Hv : valid_fields self) by reflexivity.
  split; [exact Hv|].
  destruct (X18_first_last_of_year Sample.echo self Hv) as (A & B & _).
  split; [exact A|exact B].
Defined.

Lemma nth_of_year_run platform localize get_localzone timezone fuel nth t self :
  valid_fields self -> 0 <= t <= 6 -> 2 <= nth -> (6 <= fuel)%nat ->
  let first := _ymd2ord (year self) 1 1 in
  let last := _ymd2ord (year self) 12 31 in
  let o := first + (t - first) mod 7 + 7 * (nth - 1) in
  (o <= _MAXORDINAL ->
   nth_of_year platform localize get_localzone timezone fuel nth (Some t) self
   = if o <=? last
     then (with_fields self (on_ordinal (at_midnight (fields (_datetime self))) o),
           Ok ReturnsSelf)
     else (self, Ok ReturnsFalse)) /\
  (_MAXORDINAL < o ->
   nth_of_year platform localize get_localzone timezone fuel nth (Some t) self
   = (self, Raise OverflowError)).
Proof.
  intros Hv Ht Hnth Hfuel first last o.
  pose proof (valid_naive_bounds _ Hv) as (Hy & Hm & Hd & Hh & Hmi & Hs & Hus).
  fold (year self) in Hy.
  pose proof (Z.mod_pos_bound (t - first) 7 ltac:(lia)) as Hmod.
  assert (Hfirst : 1 <= first).
  { pose proof (ymd2ord_year_bounds (year self) 1 1 ltac:(lia)
                  ltac:(change (_days_in_month (year self) 1) with 31; lia)).
    pose proof (dby_nonneg (year self) ltac:(lia)). subst first. lia. }
  set (c := mkPendulum (dt_tzinfo (_datetime self))
              (mkdatetime (fields (_datetime self))
                 (localize (dt_tzinfo (_datetime self)) (fields (_datetime self))))).
  assert (Hvc : valid_fields c) by exact Hv.
  set (dt0 := with_fields c (mknaive (year self) 1 1 0 0 0 (microsecond self))).
  assert (Edt0 : first_of_year None c = (dt0, Ok tt)).
  { rewrite first_of_year_run by exact Hvc.
    rewrite first_of_month_none.
    - reflexivity.
    - rewrite fields_with_fields. apply (valid_in_long_month c 1 Hvc). lia. }
  assert (Hv0 : valid_fields dt0).
  { subst dt0. rewrite fields_with_fields. apply valid_naive_intro; auto; try lia.
    change (_days_in_month (year self) 1) with 31. lia. }
  assert (Eo0 : ordinal dt0 = first) by reflexivity.
  assert (Erun :
    nth_of_year platform localize get_localzone timezone fuel nth (Some t) self =
    on dt0
      (next_times platform fuel
         (Z.to_nat (nth - (if option_Z_eqb (first mod 7) (Some t) then 1 else 0)))
         (Some t))
      (fun dt _ =>
         if negb (year self =? year dt)
         then mret ReturnsFalse
         else set_date (year self) (month dt) (day dt) ;;;
              start_of_day ;;; mret ReturnsSelf) self).
  { unfold nth_of_year. replace (nth =? 1) with false by lia.
    unfold mbind at 1. unfold this at 1. unfold mbind at 1. unfold lift at 1.
    rewrite copy_spec by assumption. fold c.
    unfold on at 1. rewrite Edt0. cbv zeta.
    unfold mbind at 1. unfold lift at 1. rewrite day_of_week_ordinal.
    rewrite Eo0. reflexivity. }
  rewrite Erun. clear Erun. unfold on.
  destruct (walk_spec platform fuel nth t dt0 Hv0 Ht Hnth Hfuel) as [Wok Wover].
  rewrite Eo0 in Wok, Wover. fold o in Wok, Wover.
  split; intros Hr.
  - rewrite (Wok Hr).
    set (dtN := with_fields dt0 _).
    destruct (_ord2ymd o) as [[y' m'] d'] eqn:Eymd.
    assert (EN : year dtN = y' /\ month dtN = m' /\ day dtN = d').
    { subst dtN. unfold year, month, day. rewrite fields_with_fields. unfold on_ordinal.
      rewrite Eymd. repeat split. }
    destruct EN as (-> & -> & ->).
    assert (Ho1 : first <= o) by (subst o; lia).
    rewrite (ord2ymd_year_test (year self) o y' m' d') by (auto; lia).
    fold last.
    destruct (o <=? last) eqn:El; cbn [negb].
    + assert (Ey : y' = year self).
      { pose proof (ord2ymd_year_test (year self) o y' m' d' ltac:(lia) Ho1 Eymd) as T.
        fold last in T. rewrite El in T. cbn [negb] in T.
        destruct (year self =? y') eqn:E; [lia|discriminate]. }
      apply (land_spec self o y' m' d'); auto. lia.
    + reflexivity.
  - destruct (Wover Hr) as [dt' ->]. reflexivity.
Qed.

(** Property X19.  [nth_of_year(nth, target)], for [nth] from 2 on and a
    weekday [target], counts the days of that weekday from January 1.  When
    the [nth] one is in the year, the receiver is set to it at 00:00:00;
    when it is past December 31, [False] is returned and the receiver is as
    it was; when it is past 9999-12-31, [OverflowError] is raised and the
    receiver is as it was. *)
Theorem X19_nth_of_year platform localize get_localzone timezone fuel nth t self :
  valid_fields self -> 0 <= t <= 6 -> 2 <= nth -> (6 <= fuel)%nat ->
  let first := _ymd2ord (year self) 1 1 in
  let last := _ymd2ord (year self) 12 31 in
  let o := first + (t - first) mod 7 + 7 * (nth - 1) in
  (o <= last ->
   exists self',
     nth_of_year platform localize get_localzone timezone fuel nth (Some t) self
     = (self', Ok ReturnsSelf) /\
     ordinal self' = o /\ year self' = year self /\
     day_of_week platform self' = Ok t /\
     hour self' = 0 /\ minute self' = 0 /\ second self' = 0 /\
     microsecond self' = microsecond self /\
     _tz self' = _tz self /\
     dt_tzinfo (_datetime self') = dt_tzinfo (_datetime self)) /\
  (last < o -> o <= _MAXORDINAL ->
   nth_of_year platform localize get_localzone timezone fuel nth (Some t) self
   = (self, Ok ReturnsFalse)) /\
  (_MAXORDINAL < o ->
   nth_of_year platform localize get_localzone timezone fuel nth (Some t) self
   = (self, Raise OverflowError)).
Proof.
  intros Hv Ht Hnth Hfuel first last o.
  destruct (nth_of_year_run platform localize get_localzone timezone fuel nth t self
              Hv Ht Hnth Hfuel) as [A B].
  fold first last o in A, B.
  pose proof (valid_naive_bounds _ Hv) as (Hy & _). fold (year self) in Hy.
  assert (Hfirst : 1 <= first).
  { pose proof (ymd2ord_year_bounds (year self) 1 1 ltac:(lia)
                  ltac:(change (_days_in_month (year self) 1) with 31; lia)).
    pose proof (dby_nonneg (year self) ltac:(lia)). subst first. lia. }
  assert (Hlast : last <= _MAXORDINAL).
  { assert (B3 : last <= _days_before_year (year self) + days_in_year (year self))
      by (apply ymd2ord_year_bounds; [lia|change (_days_in_month (year self) 12) with 31; lia]).
    destruct (Z.eq_dec (year self) 9999) as [E|E].
    - rewrite E in B3. exact B3.
    - pose proof (dby_mono (year self) 9999 ltac:(lia)) as M.
      change (_days_before_year 9999) with 3651694 in M. unfold _MAXORDINAL. lia. }
  pose proof (Z.mod_pos_bound (t - first) 7 ltac:(lia)) as Hmod.
  split; [|split].
  - intros Hr. rewrite A by lia. replace (o <=? last) with true by lia.
    eexists. split; [reflexivity|].
    assert (Ho : 1 <= o <= _MAXORDINAL) by (subst o; lia).
    assert (Et : o mod 7 = t) by (subst o; Z.to_euclidean_division_equations; lia).
    destruct (landed_facts platform self o t Hv Ho Et) as (F1 & F2 & F3 & F4 & F5 & F6 & F7 & F8).
    split; [exact F1|]. split; [|repeat split; assumption].
    unfold year at 1. rewrite fields_with_fields. unfold on_ordinal.
    destruct (_ord2ymd o) as [[y' m'] d'] eqn:Eymd.
    cbn [PyDatetime.year].
    pose proof (ord2ymd_year_test (year self) o y' m' d' ltac:(lia) ltac:(subst o; lia) Eymd) as T.
    fold last in T. replace (o <=? last) with true in T by lia. cbn [negb] in T.
    destruct (year self =? y') eqn:E; [lia|discriminate].
  - intros Hr Hmax. rewrite A by lia. replace (o <=? last) with false by lia. reflexivity.
  - exact B.
Qed.

Lemma X19_witness :
  let self := Sample.utc 2026 11 4 9 30 15 5 in
  let first := _ymd2ord (year self) 1 1 in
  let last := _ymd2ord (year self) 12 31 in
  valid_fields self /\ 0 <= MONDAY <= 6 /\ 2 <= 40 /\ (6 <= 6)%nat /\
  first + (MONDAY - first) mod 7 + 7 * (40 - 1) <= last /\
  exists self',
    nth_of_year Sample.echo Sample.fixed UTC Sample.no_zone 6 40 (Some MONDAY) self
    = (self', Ok ReturnsSelf) /\
    ordinal self' = first + (MONDAY - first) mod 7 + 7 * (40 - 1) /\
    year self' = year self /\
    day_of_week Sample.echo self' = Ok MONDAY /\
    hour self' = 0 /\ minute self' = 0 /\ second self' = 0 /\
    microsecond self' = microsecond self /\
    _tz self' = _tz self /\
    dt_tzinfo (_datetime self') = dt_tzinfo (_datetime self).
Proof.
  intros self first last.
  assert (Hv : valid_fields self) by reflexivity.
  assert (Ht : 0 <= MONDAY <= 6) by (split; discriminate).
  assert (Hn : 2 <= 40) by discriminate.
  assert (Hf : (6 <= 6)%nat) by apply le_n.
  assert (H1 : first + (MONDAY - first) mod 7 + 7 * (40 - 1) <= last) by discriminate.
  split; [exact Hv|]. split; [exact Ht|]. split; [exact Hn|]. split; [exact Hf|].
  split; [exact H1|].
  exact (proj1 (X19_nth_of_year Sample.echo Sample.fixed UTC Sample.no_zone 6 40
                  MONDAY self Hv Ht Hn Hf) H1).
Defined.

(** Property X20.  With [nth] zero or negative, [nth_of_month],
    [nth_of_quarter] and [nth_of_year] do not return [False]: whatever the
    weekday asked for, they set the receiver to the first day of the month,
    of the quarter and of the year, at 00:00:00, and return it. *)
Theorem X20_nth_not_positive platform localize get_localzone timezone fuel nth target self :
  valid_fields self -> nth <= 0 ->
  nth_of_month platform localize get_localzone timezone fuel nth target self
  = (with_fields self
       (mknaive (year self) (month self) 1 0 0 0 (microsecond self)),
     Ok ReturnsSelf) /\
  nth_of_quarter platform localize get_localzone timezone fuel nth target self
  = (with_fields self
       (mknaive (year self) (3 * quarter self - 2) 1 0 0 0 (microsecond self)),
     Ok ReturnsSelf) /\
  nth_of_year platform localize get_localzone timezone fuel nth target self
  = (with_fields self (mknaive (year self) 1 1 0 0 0 (microsecond self)),
     Ok ReturnsSelf).
Proof.
  intros Hv Hnth.
  pose proof (valid_naive_bounds _ Hv) as (Hy & Hm & Hd & Hh & Hmi & Hs & Hus).
  fold (year self) in Hy. fold (month self) in Hm.
  pose proof (days_in_month_range (year self) (month self) Hm) as Hdim.
  destruct (quarter_range self Hv) as [Hq Hmq].
  set (q := quarter self) in *.
  pose proof (days_in_month_range (year self) (3 * q - 2) ltac:(lia)) as Hd1.
  pose proof (days_in_month_range (year self) (3 * q) ltac:(lia)) as Hd3.
  set (c := mkPendulum (dt_tzinfo (_datetime self))
              (mkdatetime (fields (_datetime self))
                 (localize (dt_tzinfo (_datetime self)) (fields (_datetime self))))).
  assert (Hvc : valid_fields c) by exact Hv.
  split; [|split].
  - unfold nth_of_month. replace (nth =? 1) with false by lia.
    unfold mbind at 1. unfold this at 1. unfold mbind at 1. unfold lift at 1.
    rewrite copy_spec by assumption. fold c.
    unfold on at 1. rewrite first_of_month_none by assumption.
    set (dt0 := with_fields c _).
    unfold mbind at 1. unfold lift at 1. rewrite format_year_month.
    unfold mbind at 1. unfold lift at 1. rewrite day_of_week_ordinal.
    unfold on at 1. rewrite walk_nothing by exact Hnth.
    unfold mbind at 1. unfold lift at 1. rewrite format_year_month.
    rewrite String.eqb_refl.
    change (day dt0) with 1.
    unfold mbind, mret. rewrite set_day_spec; [|assumption|fold (year self) (month self); lia].
    rewrite start_of_day_spec.
    + reflexivity.
    + rewrite fields_with_fields. apply valid_naive_intro; auto; try lia.
  - set (dtq := with_fields c (mknaive (year self) (3 * q) 1 (hour self) (minute self)
                                 (second self) (microsecond self))).
    assert (Edtq : (set_day 1 ;;; set_month (quarter self * 3)) c = (dtq, Ok tt)).
    { unfold mbind. rewrite set_day_spec; [|exact Hvc|].
      - rewrite set_month_spec.
        + fold q. replace (q * 3) with (3 * q) by lia. reflexivity.
        + rewrite fields_with_fields. cbv zeta.
          change (fields (_datetime c)) with (fields (_datetime self)).
          unfold year, month in *.
          apply valid_naive_intro; auto; lia.
        + fold q. lia.
        + fold q. replace (q * 3) with (3 * q) by lia.
          unfold day, year. rewrite fields_with_fields.
          cbn [PyDatetime.day PyDatetime.year].
          change (PyDatetime.year (fields (_datetime c))) with (year self). lia.
      - change (year c) with (year self). change (month c) with (month self). lia. }
    assert (Hvq : valid_fields dtq).
    { subst dtq. rewrite fields_with_fields. apply valid_on_date; auto; lia. }
    assert (Eqq : quarter dtq = q) by (apply quarter_of_month; [exact Hq|]; cbn; lia).
    set (dt0 := with_fields c (mknaive (year self) (3 * q - 2) 1 0 0 0 (microsecond self))).
    assert (Edt0 : first_of_quarter None dtq = (dt0, Ok tt)).
    { rewrite first_of_quarter_run by exact Hvq. rewrite Eqq.
      rewrite first_of_month_none.
      - reflexivity.
      - rewrite fields_with_fields.
        apply (valid_on_date dtq); [exact Hvq| | |];
          change (year dtq) with (year self); lia. }
    unfold nth_of_quarter. replace (nth =? 1) with false by lia.
    unfold mbind at 1. unfold this at 1. unfold mbind at 1. unfold lift at 1.
    rewrite copy_spec by assumption. fold c.
    unfold on at 1. rewrite Edtq. cbv zeta.
    unfold on at 1. rewrite Edt0.
    unfold mbind at 1. unfold lift at 1. rewrite day_of_week_ordinal.
    unfold on at 1. rewrite walk_nothing by exact Hnth.
    change (month dtq) with (3 * q). change (year dtq) with (year self).
    change (month dt0) with (3 * q - 2). change (year dt0) with (year self).
    change (day dt0) with 1.
    replace (3 * q <? 3 * q - 2) with false by lia. rewrite Z.eqb_refl. cbn [negb orb].
    unfold mbind, mret. rewrite set_date_spec; auto; try lia.
    rewrite start_of_day_spec.
    + reflexivity.
    + rewrite fields_with_fields. apply valid_naive_intro; auto; try lia.
  - set (dt0 := with_fields c (mknaive (year self) 1 1 0 0 0 (microsecond self))).
    assert (Edt0 : first_of_year None c = (dt0, Ok tt)).
    { rewrite first_of_year_run by exact Hvc.
      rewrite first_of_month_none.
      - reflexivity.
      - rewrite fields_with_fields. apply (valid_in_long_month c 1 Hvc). lia. }
    unfold nth_of_year. replace (nth =? 1) with false by lia.
    unfold mbind at 1. unfold this at 1. unfold mbind at 1. unfold lift at 1.
    rewrite copy_spec by assumption. fold c.
    unfold on at 1. rewrite Edt0. cbv zeta.
    unfold mbind at 1. unfold lift at 1. rewrite day_of_week_ordinal.
    unfold on at 1. rewrite walk_nothing by exact Hnth.
    change (month dt0) with 1. change (year dt0) with (year self).
    change (day dt0) with 1.
    rewrite Z.eqb_refl. cbn [negb].
    unfold mbind, mret. rewrite set_date_spec; auto; try lia;
      [|change (_days_in_month (year self) 1) with 31; lia].
    rewrite start_of_day_spec.
    + reflexivity.
    + rewrite fields_with_fields. apply valid_naive_intro; auto; try lia.
      change (_days_in_month (year self) 1) with 31; lia.
Qed.

Lemma X20_witness :
  let self := Sample.utc 2026 11 4 9 30 15 5 in
  valid_fields self /\ 0 <= 0 /\
  nth_of_month Sample.echo Sample.fixed UTC Sample.no_zone 6 0 (Some FRIDAY) self
  = (Sample.utc 2026 11 1 0 0 0 5, Ok ReturnsSelf) /\
  day_of_week Sample.echo (Sample.utc 2026 11 1 0 0 0 5) = Ok SUNDAY.
Proof.
  intros self.
  assert (Hv : valid_fields self) by reflexivity.
  assert (Hn : 0 <= 0) by apply Z.le_refl.
  split; [exact Hv|]. split; [exact Hn|].
  split; [|reflexivity].
  exact (proj1 (X20_nth_not_positive Sample.echo Sample.fixed UTC Sample.no_zone 6 0
                  (Some FRIDAY) self Hv Hn)).
Defined.

(** ** Timestamps and the clock *)

Lemma epoch_microseconds : utc_microseconds _EPOCH = 62135683200 * US_PER_SECOND.
Proof. reflexivity. Qed.

Lemma fromtimestamp_ok range_error t :
  let o := _ymd2ord 1970 1 1 + t / 86400 in
  1 <= o <= _MAXORDINAL ->
  exists dt,
    fromtimestamp range_error t = Ok dt /\ dt_tzinfo dt = UTC /\
    valid_naive (fields dt) /\ toordinal (fields dt) = o /\
    utc_microseconds dt - utc_microseconds _EPOCH = t * US_PER_SECOND.
Proof.
  intros o Ho. unfold fromtimestamp. fold o.
  replace ((1 <=? o) && (o <=? _MAXORDINAL)) with true by lia.
  eexists. split; [reflexivity|]. split; [reflexivity|].
  assert (Hs : 0 <= t mod 86400 < 86400) by (apply Z.mod_pos_bound; lia).
  destruct (fromordinal_time_valid o (t mod 86400) 0 Ho Hs ltac:(lia)) as [Hv Em].
  split; [exact Hv|]. split.
  - cbn [fields]. unfold fromordinal_time.
    destruct (ymd2ord_ord2ymd o) as (y & m & dd & E & Hy & Hm & Hdd & Eo); [lia|].
    rewrite E. exact Eo.
  - unfold utc_microseconds. cbn [fields dt_tzinfo]. rewrite Em.
    change (tz_utcoffset UTC) with 0.
    fold (utc_microseconds _EPOCH). rewrite epoch_microseconds.
    subst o. change (_ymd2ord 1970 1 1) with 719163.
    unfold US_PER_SECOND. Z.to_euclidean_division_equations; lia.
Qed.

Lemma valid_utc : valid_tzinfo UTC.
Proof. unfold valid_tzinfo. cbn. lia. Qed.

Lemma set_timestamp_ok fromutc time_range_error t self :
  (forall z n, valid_tzinfo (fromutc z n)) ->
  3 <= _ymd2ord 1970 1 1 + t / 86400 <= _MAXORDINAL - 2 ->
  exists self',
    set_timestamp fromutc time_range_error t self = (self', Ok tt) /\
    timestamp self' = t /\
    since_epoch self' = t * US_PER_SECOND /\
    microsecond self' = 0 /\
    _tz self' = _tz self /\
    valid_fields self'.
Proof.
  intros Hz Ho.
  destruct (fromtimestamp_ok time_range_error t) as (dt & E & Etz & Hv & Eo & Ei);
    [lia|].
  destruct (astimezone_succeeds fromutc dt (_tz self)) as [dt' E'];
    [exact Hv|rewrite Etz; exact valid_utc|exact Hz|rewrite Eo; lia|].
  unfold set_timestamp, set_datetime. rewrite E. cbn [rbind]. rewrite E'.
  eexists. split; [reflexivity|].
  pose proof (astimezone_valid _ _ _ _ Hv E') as Hv'.
  destruct (astimezone_instant _ _ _ _ E') as [Einst _].
  set (self' := mkPendulum (_tz self) dt').
  assert (Es : since_epoch self' = t * US_PER_SECOND).
  { rewrite since_epoch_utc. cbn [_datetime self']. rewrite Einst. exact Ei. }
  assert (Eus : microsecond self' = 0).
  { unfold microsecond. cbn [_datetime self'].
    rewrite <- (naive_microseconds_mod _ Hv').
    rewrite naive_microseconds_utc, Einst.
    replace (utc_microseconds dt)
      with (t * US_PER_SECOND + utc_microseconds _EPOCH)
      by (revert Ei; generalize (utc_microseconds dt) (utc_microseconds _EPOCH);
          intros; lia).
    rewrite epoch_microseconds.
    generalize (tz_utcoffset (dt_tzinfo dt')). intros z.
    unfold US_PER_SECOND. Z.to_euclidean_division_equations; lia. }
  split; [|split; [exact Es|split; [exact Eus|split; [reflexivity|exact Hv']]]].
  apply timestamp_whole_seconds; [exact Es|exact Eus|].
  change (_ymd2ord 1970 1 1) with 719163 in Ho. unfold _MAXORDINAL in Ho.
  revert Ho. clear. intros Ho. Z.to_euclidean_division_equations; lia.
Qed.

(** Property X21.  [set_timestamp(t)], for an integer [t] whose UTC date
    is at least two days from both ends of the calendar, gives a valid
    Moment whose [timestamp] is [t], with no microseconds, in the zone the
    receiver had.  For a [t] whose UTC date is outside the calendar it
    raises the exception of the platform and the receiver is as it was.
    The zone database is taken to give offsets of whole minutes below a
    day. *)
Theorem X21_set_timestamp fromutc time_range_error t self :
  (forall z n, valid_tzinfo (fromutc z n)) ->
  let o := _ymd2ord 1970 1 1 + t / 86400 in
  (3 <= o <= _MAXORDINAL - 2 ->
   exists self',
     set_timestamp fromutc time_range_error t self = (self', Ok tt) /\
     timestamp self' = t /\
     since_epoch self' = t * US_PER_SECOND /\
     microsecond self' = 0 /\
     _tz self' = _tz self /\
     valid_fields self') /\
  (~ 1 <= o <= _MAXORDINAL ->
   set_timestamp fromutc time_range_error t self
   = (self, Raise (time_range_error t))).
Proof.
  intros Hz o. split.
  - intros Ho. apply set_timestamp_ok; assumption.
  - intros Ho. unfold set_timestamp, set_datetime, fromtimestamp. fold o.
    replace ((1 <=? o) && (o <=? _MAXORDINAL)) with false by lia.
    reflexivity.
Qed.

Lemma X21_witness :
  let self := Sample.paris 2016 7 14 12 0 0 123456 Sample.CEST in
  let t := 1468490400 in
  (forall z n, valid_tzinfo (Sample.paris_fromutc z n)) /\
  3 <= _ymd2ord 1970 1 1 + t / 86400 <= _MAXORDINAL - 2 /\
  timestamp self = t /\
  exists self',
    set_timestamp Sample.paris_fromutc (fun _ => ValueError) t self = (self', Ok tt) /\
    timestamp self' = t /\
    since_epoch self' = t * US_PER_SECOND /\
    microsecond self' = 0 /\
    _tz self' = _tz self /\
    valid_fields self'.
Proof.
  intros self t.
  assert (Hz : forall z n, valid_tzinfo (Sample.paris_fromutc z n)).
  { intros z n. unfold Sample.paris_fromutc.
    destruct (naive_microseconds n <? _); unfold valid_tzinfo; cbn; lia. }
  assert (Ho : 3 <= _ymd2ord 1970 1 1 + t / 86400 <= _MAXORDINAL - 2)
    by (split; discriminate).
  split; [exact Hz|]. split; [exact Ho|]. split; [reflexivity|].
  exact (proj1 (X21_set_timestamp Sample.paris_fromutc (fun _ => ValueError)
                  t self Hz) Ho).
Defined.

Lemma naive_eta f :
  mknaive (PyDatetime.year f) (PyDatetime.month f) (PyDatetime.day f)
    (PyDatetime.hour f) (PyDatetime.minute f) (PyDatetime.second f)
    (PyDatetime.microsecond f) = f.
Proof. destruct f; reflexivity. Qed.

Lemma astimezone_tzinfo fromutc dt tz dt' :
  valid_tzinfo (dt_tzinfo dt) -> (forall z n, valid_tzinfo (fromutc z n)) ->
  astimezone fromutc dt tz = Ok dt' -> valid_tzinfo (dt_tzinfo dt').
Proof.
  intros Hv Hz. unfold astimezone.
  destruct (tzinfo_eqb tz (dt_tzinfo dt)); [intros [= <-]; exact Hv|].
  destruct (utcoffset dt) as [off| |]; cbn [rbind]; try discriminate.
  destruct (timedelta_neg off) as [minus| |]; cbn [rbind]; try discriminate.
  destruct (naive_add (fields dt) minus) as [utc| |]; cbn [rbind]; try discriminate.
  destruct (timedelta_new 0 0 (tz_utcoffset (fromutc tz utc)) 0 0) as [shift| |];
    cbn [rbind]; try discriminate.
  destruct (naive_add utc shift) as [loc| |] eqn:E; cbn [rbind]; try discriminate.
  intros [= <-]. cbn [dt_tzinfo]. apply Hz.
Qed.

Lemma shifted_microsecond x y us us' :
  0 <= us <= 999999 -> 0 <= us' <= 999999 ->
  x mod US_PER_SECOND = us ->
  (x + y * 60 * US_PER_SECOND) mod US_PER_SECOND = us' -> us' = us.
Proof.
  unfold US_PER_SECOND. intros. Z.to_euclidean_division_equations; lia.
Qed.

Lemma shifted_ordinal o o' t t' off :
  0 <= t < US_PER_DAY -> 0 <= t' < US_PER_DAY -> -1440 < off < 1440 ->
  o' * US_PER_DAY + t' = o * US_PER_DAY + t + off * 60 * US_PER_SECOND ->
  o - 1 <= o' <= o + 1.
Proof. unfold US_PER_DAY, US_PER_SECOND. intros. lia. Qed.

Lemma datetime_new_valid f :
  valid_naive f ->
  datetime_new (PyDatetime.year f) (PyDatetime.month f) (PyDatetime.day f)
    (PyDatetime.hour f) (PyDatetime.minute f) (PyDatetime.second f)
    (PyDatetime.microsecond f) = Ok f.
Proof.
  intros Hv. unfold datetime_new. unfold valid_naive in Hv. rewrite Hv.
  rewrite naive_eta. reflexivity.
Qed.

(** [now(tz)]: the clock's civil time in the zone, localized. *)
Lemma now_spec localize fromutc get_localzone timezone clock tz z :
  _safe_create_datetime_zone get_localzone timezone tz = Ok z ->
  valid_naive clock -> 3 <= toordinal clock <= _MAXORDINAL - 2 ->
  (forall z n, valid_tzinfo (fromutc z n)) ->
  exists a,
    astimezone fromutc (mkdatetime clock UTC) z = Ok a /\
    now localize fromutc get_localzone timezone clock tz
    = Ok (mkPendulum z (mkdatetime (fields a) (localize z (fields a)))) /\
    valid_naive (fields a) /\
    PyDatetime.microsecond (fields a) = PyDatetime.microsecond clock /\
    toordinal clock - 1 <= toordinal (fields a) <= toordinal clock + 1.
Proof.
  intros Ez Hv Ho Hz.
  destruct (astimezone_succeeds fromutc (mkdatetime clock UTC) z) as [a Ea];
    [exact Hv|exact valid_utc|exact Hz|exact Ho|].
  pose proof (astimezone_valid fromutc (mkdatetime clock UTC) z a Hv Ea) as Hva.
  pose proof (astimezone_tzinfo fromutc (mkdatetime clock UTC) z a valid_utc Hz Ea) as Hoff.
  exists a. split; [exact Ea|]. split.
  { unfold now, __init__opt. rewrite Ez. cbn [rbind]. rewrite Ea. cbn [rbind or_default].
    rewrite (datetime_new_valid _ Hva). reflexivity. }
  split; [exact Hva|].
  destruct (astimezone_instant _ _ _ _ Ea) as [Einst _].
  assert (Eq : naive_microseconds (fields a)
               = naive_microseconds clock
                 + tz_utcoffset (dt_tzinfo a) * 60 * US_PER_SECOND).
  { rewrite naive_microseconds_utc, Einst. unfold utc_microseconds.
    cbn [fields dt_tzinfo]. change (tz_utcoffset UTC) with 0.
    generalize (naive_microseconds clock). intros. lia. }
  split.
  - pose proof (valid_naive_bounds _ Hva) as (_ & _ & _ & _ & _ & _ & B1).
    pose proof (valid_naive_bounds _ Hv) as (_ & _ & _ & _ & _ & _ & B2).
    apply (shifted_microsecond (naive_microseconds clock) (tz_utcoffset (dt_tzinfo a)));
      [exact B2|exact B1|apply naive_microseconds_mod, Hv|].
    rewrite <- Eq. apply naive_microseconds_mod, Hva.
  - rewrite !naive_microseconds_split in Eq.
    exact (shifted_ordinal _ _ _ _ _ (time_of_day_range _ Hv) (time_of_day_range _ Hva)
             Hoff Eq).
Qed.

(** Property X22.  With a clock at least two days from both ends of the
    calendar, [now(tz)] is within a day of the UTC clock.  [today(tz)],
    [tomorrow(tz)] and [yesterday(tz)] are the date of [now(tz)], the day
    after and the day before, at 00:00:00 but with the microsecond of the
    clock, in the zone and with the [tzinfo] of [now(tz)]. *)
Theorem X22_today_tomorrow_yesterday localize fromutc get_localzone timezone clock tz z :
  _safe_create_datetime_zone get_localzone timezone tz = Ok z ->
  valid_naive clock -> 3 <= toordinal clock <= _MAXORDINAL - 2 ->
  (forall z n, valid_tzinfo (fromutc z n)) ->
  exists n t0 t1 t2,
    now localize fromutc get_localzone timezone clock tz = Ok n /\
    today localize fromutc get_localzone timezone clock tz = Ok t0 /\
    tomorrow localize fromutc get_localzone timezone clock tz = Ok t1 /\
    yesterday localize fromutc get_localzone timezone clock tz = Ok t2 /\
    _tz n = z /\
    toordinal clock - 1 <= ordinal n <= toordinal clock + 1 /\
    ordinal t0 = ordinal n /\
    ordinal t1 = ordinal n + 1 /\
    ordinal t2 = ordinal n - 1 /\
    (forall t, t = t0 \/ t = t1 \/ t = t2 ->
     hour t = 0 /\ minute t = 0 /\ second t = 0 /\
     microsecond t = PyDatetime.microsecond clock /\
     _tz t = z /\ dt_tzinfo (_datetime t) = dt_tzinfo (_datetime n)).
Proof.
  intros Ez Hv Ho Hz.
  destruct (now_spec localize fromutc get_localzone timezone clock tz z Ez Hv Ho Hz)
    as (a & Ea & En & Hva & Eus & Hoa).
  set (n := mkPendulum z (mkdatetime (fields a) (localize z (fields a)))) in *.
  assert (Hvn : valid_fields n) by exact Hva.
  set (t0 := with_fields n (at_midnight (fields (_datetime n)))).
  assert (Hv0 : valid_fields t0) by (apply at_midnight_valid, Hvn).
  assert (Eo0 : ordinal t0 = ordinal n) by reflexivity.
  assert (Eon : ordinal n = toordinal (fields a)) by reflexivity.
  assert (E0 : today localize fromutc get_localzone timezone clock tz = Ok t0).
  { unfold today, after. rewrite En. cbn [rbind].
    rewrite start_of_day_spec by exact Hvn. reflexivity. }
  exists n, t0,
    (with_fields t0 (on_ordinal (fields (_datetime t0)) (ordinal t0 + 1))),
    (with_fields t0 (on_ordinal (fields (_datetime t0)) (ordinal t0 - 1))).
  split; [exact En|]. split; [exact E0|].
  split.
  { unfold tomorrow, after. rewrite E0. cbn [rbind].
    rewrite add_day_spec by (auto; lia). reflexivity. }
  split.
  { unfold yesterday, after. rewrite E0. cbn [rbind].
    rewrite sub_day_spec by (auto; lia). reflexivity. }
  split; [reflexivity|]. split; [lia|]. split; [exact Eo0|].
  destruct (on_ordinal_valid (fields (_datetime t0)) (ordinal t0 + 1))
    as [_ Ho1]; [exact Hv0|lia|].
  destruct (on_ordinal_valid (fields (_datetime t0)) (ordinal t0 - 1))
    as [_ Ho2]; [exact Hv0|lia|].
  split; [rewrite ordinal_with_fields, Ho1; lia|].
  split; [rewrite ordinal_with_fields, Ho2; lia|].
  intros t [-> | [-> | ->]].
  - unfold hour, minute, second, microsecond. subst t0.
    rewrite fields_with_fields. cbn [at_midnight PyDatetime.hour PyDatetime.minute
      PyDatetime.second PyDatetime.microsecond].
    repeat split. exact Eus.
  - destruct (on_ordinal_time (fields (_datetime t0)) (ordinal t0 + 1))
      as (Eh & Emi & Es & Eu).
    unfold hour, minute, second, microsecond.
    rewrite fields_with_fields, Eh, Emi, Es, Eu. repeat split. exact Eus.
  - destruct (on_ordinal_time (fields (_datetime t0)) (ordinal t0 - 1))
      as (Eh & Emi & Es & Eu).
    unfold hour, minute, second, microsecond.
    rewrite fields_with_fields, Eh, Emi, Es, Eu. repeat split. exact Eus.
Qed.

Lemma X22_witness :
  let clock := mknaive 2026 11 4 23 30 15 123456 in
  let tz := ZoneInstance Sample.CET in
  _safe_create_datetime_zone UTC Sample.no_zone tz = Ok Sample.CET /\
  valid_naive clock /\ 3 <= toordinal clock <= _MAXORDINAL - 2 /\
  (forall z n, valid_tzinfo (Sample.paris_fromutc z n)) /\
  today Sample.fixed Sample.paris_fromutc UTC Sample.no_zone clock tz
  = Ok (Sample.paris 2026 11 5 0 0 0 123456 Sample.CET) /\
  exists n t0 t1 t2,
    now Sample.fixed Sample.paris_fromutc UTC Sample.no_zone clock tz = Ok n /\
    today Sample.fixed Sample.paris_fromutc UTC Sample.no_zone clock tz = Ok t0 /\
    tomorrow Sample.fixed Sample.paris_fromutc UTC Sample.no_zone clock tz = Ok t1 /\
    yesterday Sample.fixed Sample.paris_fromutc UTC Sample.no_zone clock tz = Ok t2 /\
    _tz n = Sample.CET /\
    toordinal clock - 1 <= ordinal n <= toordinal clock + 1 /\
    ordinal t0 = ordinal n /\
    ordinal t1 = ordinal n + 1 /\
    ordinal t2 = ordinal n - 1 /\
    (forall t, t = t0 \/ t = t1 \/ t = t2 ->
     hour t = 0 /\ minute t = 0 /\ second t = 0 /\
     microsecond t = PyDatetime.microsecond clock /\
     _tz t = Sample.CET /\ dt_tzinfo (_datetime t) = dt_tzinfo (_datetime n)).
Proof.
  intros clock tz.
  assert (Ez : _safe_create_datetime_zone UTC Sample.no_zone tz = Ok Sample.CET)
    by reflexivity.
  assert (Hv : valid_naive clock) by reflexivity.
  assert (Ho : 3 <= toordinal clock <= _MAXORDINAL - 2) by (split; discriminate).
  assert (Hz : forall z n, valid_tzinfo (Sample.paris_fromutc z n)).
  { intros z n. unfold Sample.paris_fromutc.
    destruct (naive_microseconds n <? _); unfold valid_tzinfo; cbn; lia. }
  split; [exact Ez|]. split; [exact Hv|]. split; [exact Ho|]. split; [exact Hz|].
  split; [vm_compute; reflexivity|].
  exact (X22_today_tomorrow_yesterday Sample.fixed Sample.paris_fromutc UTC Sample.no_zone
           clock tz Sample.CET Ez Hv Ho Hz).
Defined.

(** ** Text: ISO 8601 strings *)

Ltac run_format :=
  unfold format, strftime;
  cbn [String.length strftime_rec match_formatters Ascii.eqb Bool.eqb NEWLINE
       first_line rbind String.append PyDatetime.strftime strftime_directive].

Lemma to_date_string_run platform self :
  to_date_string platform self = Ok (date_text (fields (_datetime self))).
Proof. unfold to_date_string. run_format. reflexivity. Qed.

Lemma to_time_string_run platform self :
  to_time_string platform self = Ok (time_text (fields (_datetime self))).
Proof. unfold to_time_string. run_format. reflexivity. Qed.

Lemma to_datetime_string_run platform self :
  to_datetime_string platform self
  = Ok (date_text (fields (_datetime self)) ++ " "
        ++ time_text (fields (_datetime self)))%string.
Proof. unfold to_datetime_string. run_format. reflexivity. Qed.

Lemma format_iso platform self :
  valid_tzinfo (dt_tzinfo (_datetime self)) ->
  format platform self ISO8601
  = Ok (date_text (fields (_datetime self)) ++ "T"
        ++ time_text (fields (_datetime self))
        ++ offset_text (tz_utcoffset (dt_tzinfo (_datetime self))))%string.
Proof.
  intros Hv. unfold ISO8601. run_format.
  rewrite (_strftime_P self Hv). cbn [rbind]. rewrite append_empty.
  unfold date_text, time_text. cbn [zero_padded String.append].
  rewrite ?append_empty. reflexivity.
Qed.

Lemma format_iso_extended platform self :
  valid_tzinfo (dt_tzinfo (_datetime self)) ->
  format platform self ISO8601_EXTENDED
  = Ok (date_text (fields (_datetime self)) ++ "T"
        ++ time_text (fields (_datetime self)) ++ "."
        ++ zero_padded 6 (PyDatetime.microsecond (fields (_datetime self)))
        ++ offset_text (tz_utcoffset (dt_tzinfo (_datetime self))))%string.
Proof.
  intros Hv. unfold ISO8601_EXTENDED. run_format.
  rewrite (_strftime_P self Hv). cbn [rbind]. rewrite append_empty.
  unfold date_text, time_text. cbn [zero_padded String.append].
  rewrite ?append_empty. reflexivity.
Qed.

Lemma length_append a b :
  String.length (a ++ b) = (String.length a + String.length b)%nat.
Proof. induction a as [|c a IH]; [reflexivity|]. cbn [String.append String.length]. now rewrite IH. Qed.

Lemma length_zero_padded w n : String.length (zero_padded w n) = w.
Proof. revert n. induction w as [|w IH]; intros n; [reflexivity|]. cbn [zero_padded String.length]. now rewrite IH. Qed.

Lemma length_offset_text o : String.length (offset_text o) = 6%nat.
Proof. unfold offset_text, two_digits. destruct (0 <? o); reflexivity. Qed.

(** Property X23.  For a year of four digits, the date, time and ISO 8601
    strings use no directive of the platform and do not raise:
    [to_iso8601_string()], like the ATOM, RFC 3339 and W3C strings, is the
    date, a [T], the time and the offset as the formatter [%P] prints it, 25
    characters; the extended strings, and [str()] with the format the class
    declares or after [reset_to_string_format()], add a dot and the
    microsecond on six digits, 32 characters. *)
Theorem X23_iso8601_strings platform self :
  valid_tzinfo (dt_tzinfo (_datetime self)) ->
  1000 <= year self <= 9999 ->
  let f := fields (_datetime self) in
  let off := offset_text (tz_utcoffset (dt_tzinfo (_datetime self))) in
  let plain := (date_text f ++ "T" ++ time_text f ++ off)%string in
  let extended :=
    (date_text f ++ "T" ++ time_text f ++ "."
     ++ zero_padded 6 (PyDatetime.microsecond f) ++ off)%string in
  to_date_string platform self = Ok (date_text f) /\
  to_time_string platform self = Ok (time_text f) /\
  to_datetime_string platform self = Ok (date_text f ++ " " ++ time_text f)%string /\
  to_iso8601_string platform false self = Ok plain /\
  to_iso8601_string platform true self = Ok extended /\
  to_atom_string platform self = Ok plain /\
  to_rfc3339_string platform false self = Ok plain /\
  to_rfc3339_string platform true self = Ok extended /\
  to_w3c_string platform self = Ok plain /\
  __str__ platform class_defaults self = Ok extended /\
  __str__ platform (reset_to_string_format (set_to_string_format "%H" class_defaults)) self
  = Ok extended /\
  String.length plain = 25%nat /\ String.length extended = 32%nat.
Proof.
  intros Hv _ f off plain extended.
  split; [apply to_date_string_run|]. split; [apply to_time_string_run|].
  split; [apply to_datetime_string_run|].
  split; [exact (format_iso platform self Hv)|].
  split; [exact (format_iso_extended platform self Hv)|].
  split; [exact (format_iso platform self Hv)|].
  split; [exact (format_iso platform self Hv)|].
  split; [exact (format_iso_extended platform self Hv)|].
  split; [exact (format_iso platform self Hv)|].
  split; [exact (format_iso_extended platform self Hv)|].
  split; [exact (format_iso_extended platform self Hv)|].
  subst plain extended off. unfold date_text, time_text.
  rewrite ?length_append. cbn [String.length].
  rewrite ?length_append. cbn [String.length].
  rewrite ?length_append. cbn [String.length].
  rewrite ?length_zero_padded, ?length_offset_text. split; reflexivity.
Qed.

Lemma X23_witness :
  let tz := mktzinfo "Asia/Kolkata" 330 in
  let self := Pendulum.mkPendulum tz (mkdatetime (mknaive 2016 7 14 9 5 0 1200) tz) in
  valid_tzinfo (dt_tzinfo (_datetime self)) /\
  1000 <= year self <= 9999 /\
  to_iso8601_string Sample.echo false self = Ok "2016-07-14T09:05:00+05:30"%string /\
  to_iso8601_string Sample.echo true self
  = Ok "2016-07-14T09:05:00.001200+05:30"%string.
Proof.
  intros tz self.
  assert (Hv : valid_tzinfo (dt_tzinfo (_datetime self))) by (unfold valid_tzinfo; cbn; lia).
  assert (Hy : 1000 <= year self <= 9999) by (split; discriminate).
  split; [exact Hv|]. split; [exact Hy|].
  destruct (X23_iso8601_strings Sample.echo self Hv Hy) as (_ & _ & _ & A & B & _).
  split; [exact A|exact B].
Defined.


(** ** Times written as text *)

Lemma digit_not_colon x : Ascii.eqb (digit x) ":" = false.
Proof.
  unfold digit. destruct x as [|p|p]; try reflexivity.
  repeat (destruct p as [p|p|]; try reflexivity).
Qed.

Lemma split_two_digits n rest :
  split ":" (zero_padded 2 n ++ String ":" rest) = zero_padded 2 n :: split ":" rest.
Proof.
  cbn [zero_padded String.append split]. rewrite !digit_not_colon.
  cbn [Ascii.eqb Bool.eqb]. reflexivity.
Qed.

Lemma split_two_digits_end n : split ":" (zero_padded 2 n) = [zero_padded 2 n].
Proof.
  cbn [zero_padded String.append split]. rewrite !digit_not_colon. reflexivity.
Qed.

Lemma set_time_same self :
  valid_fields self ->
  set_time (hour self) (minute self) (second self) self = (self, Ok tt).
Proof.
  intros Hv. pose proof (valid_naive_bounds _ Hv) as (_ & _ & _ & Hh & Hmi & Hs & _).
  rewrite set_time_spec by assumption. cbv zeta. unfold hour, minute, second.
  rewrite naive_eta, with_fields_same. reflexivity.
Qed.

(** Property X24.  [set_time_from_string] reads back what [to_time_string]
    writes: on a valid Moment it leaves the receiver as it was.  A text
    without colon sets minute and second to 0, a text with one colon sets
    the second to 0, and what follows a third colon is ignored.  When [int]
    raises on the text before the first colon, the receiver is as it was.
    The builtin [int] is taken to read a number written on two digits. *)
Theorem X24_set_time_from_string platform py_int self :
  (forall n, 0 <= n <= 99 -> py_int (zero_padded 2 n) = Ok n) ->
  valid_fields self ->
  (forall text, to_time_string platform self = Ok text ->
   set_time_from_string py_int text self = (self, Ok tt)) /\
  (forall h mi s rest, 0 <= h <= 99 -> 0 <= mi <= 99 -> 0 <= s <= 99 ->
   set_time_from_string py_int (zero_padded 2 h) self = set_time h 0 0 self /\
   set_time_from_string py_int (zero_padded 2 h ++ ":" ++ zero_padded 2 mi) self
   = set_time h mi 0 self /\
   set_time_from_string py_int
     (zero_padded 2 h ++ ":" ++ zero_padded 2 mi ++ ":" ++ zero_padded 2 s) self
   = set_time h mi s self /\
   set_time_from_string py_int
     (zero_padded 2 h ++ ":" ++ zero_padded 2 mi ++ ":" ++ zero_padded 2 s
      ++ ":" ++ rest) self
   = set_time h mi s self) /\
  (forall text e, py_int (List.hd EmptyString (split ":" text)) = Raise e ->
   set_time_from_string py_int text self = (self, Raise e)).
Proof.
  intros Hint Hv.
  assert (H3 : forall h mi s, 0 <= h <= 99 -> 0 <= mi <= 99 -> 0 <= s <= 99 ->
            set_time_from_string py_int
              (zero_padded 2 h ++ ":" ++ zero_padded 2 mi ++ ":" ++ zero_padded 2 s) self
            = set_time h mi s self).
  { intros h mi s Hh Hmi Hs. unfold set_time_from_string.
    cbn [String.append]. rewrite !split_two_digits, split_two_digits_end.
    cbn [nth List.length Z.of_nat Pos.of_succ_nat Pos.succ Z.ltb Z.compare Pos.compare
         Pos.compare_cont].
    unfold mbind, lift. rewrite !Hint by assumption. reflexivity. }
  split; [|split].
  - intros text Et. rewrite to_time_string_run in Et. injection Et as <-.
    pose proof (valid_naive_bounds _ Hv) as (_ & _ & _ & Hh & Hmi & Hs & _).
    unfold time_text. rewrite H3 by lia. apply set_time_same, Hv.
  - intros h mi s rest Hh Hmi Hs. split; [|split; [|split]].
    + unfold set_time_from_string. rewrite split_two_digits_end.
      cbn [nth List.length Z.of_nat Pos.of_succ_nat Pos.succ Z.ltb Z.compare Pos.compare
           Pos.compare_cont].
      unfold mbind, lift. rewrite !Hint by assumption. reflexivity.
    + unfold set_time_from_string. cbn [String.append].
      rewrite split_two_digits, split_two_digits_end.
      cbn [nth List.length Z.of_nat Pos.of_succ_nat Pos.succ Z.ltb Z.compare Pos.compare
           Pos.compare_cont].
      unfold mbind, lift. rewrite !Hint by assumption. reflexivity.
    + apply H3; assumption.
    + unfold set_time_from_string. cbn [String.append]. rewrite !split_two_digits.
      assert (Hlen : (2 <? Z.of_nat (List.length
                (zero_padded 2 h :: zero_padded 2 mi :: zero_padded 2 s :: split ":" rest)))
              = true).
      { cbn [List.length]. rewrite !Nat2Z.inj_succ.
        pose proof (Nat2Z.is_nonneg (List.length (split ":" rest))).
        apply Z.ltb_lt. lia. }
      assert (Hlen1 : (1 <? Z.of_nat (List.length
                (zero_padded 2 h :: zero_padded 2 mi :: zero_padded 2 s :: split ":" rest)))
              = true).
      { cbn [List.length]. rewrite !Nat2Z.inj_succ.
        pose proof (Nat2Z.is_nonneg (List.length (split ":" rest))).
        apply Z.ltb_lt. lia. }
      rewrite Hlen, Hlen1. cbn [nth].
      unfold mbind, lift. rewrite !Hint by assumption. reflexivity.
  - intros text e E. unfold set_time_from_string.
    assert (En : nth 0 (split ":" text) EmptyString = List.hd EmptyString (split ":" text))
      by (destruct (split ":" text); reflexivity).
    rewrite En. unfold mbind, lift. rewrite E. reflexivity.
Qed.

Lemma int_of_string_two_digits n :
  0 <= n <= 99 -> int_of_string (zero_padded 2 n) = Ok n.
Proof.
  intros Hn. cbn [zero_padded int_of_string parse_digits].
  change (10 ^ Z.of_nat 1) with 10. change (10 ^ Z.of_nat 0) with 1.
  rewrite !digit_value_digit by (Z.to_euclidean_division_equations; lia).
  f_equal. Z.to_euclidean_division_equations; lia.
Qed.

Lemma X24_witness :
  let self := Sample.utc 2026 11 4 9 30 15 5 in
  (forall n, 0 <= n <= 99 -> int_of_string (zero_padded 2 n) = Ok n) /\
  valid_fields self /\
  to_time_string Sample.echo self = Ok "09:30:15"%string /\
  set_time_from_string int_of_string "09:30:15" self = (self, Ok tt).
Proof.
  intros self.
  assert (Hv : valid_fields self) by reflexivity.
  assert (Et : to_time_string Sample.echo self = Ok "09:30:15"%string) by reflexivity.
  split; [exact int_of_string_two_digits|]. split; [exact Hv|]. split; [exact Et|].
  exact (proj1 (X24_set_time_from_string Sample.echo int_of_string self
                  int_of_string_two_digits Hv) "09:30:15"%string Et).
Defined.

(** ** Zones given as a number of hours *)

(** Property X25.  A zone given as a whole number of hours [hz] with
    -24 < hz < 24 is the fixed offset of [hz * 60] minutes: the Moment built
    with it has offset [hz * 3600] seconds and [offset_hours] [hz], is [utc]
    only for 0, and prints its offset as [%P] does.  For any other number of
    hours the constructor raises [ValueError]. *)
Theorem X25_integer_zone platform localize get_localzone timezone y m d h mi s us hz :
  valid_naive (mknaive y m d h mi s us) ->
  (-24 < hz < 24 ->
   exists z,
     _safe_create_datetime_zone get_localzone timezone (ZoneHours hz) = Ok z /\
     tz_utcoffset z = hz * 60 /\
     ((forall n, localize z n = z) ->
      exists self,
        __init__ localize get_localzone timezone y m d h mi s us (ZoneHours hz) = Ok self /\
        fields (_datetime self) = mknaive y m d h mi s us /\
        _tz self = z /\
        offset self = hz * 3600 /\
        offset_hours self = hz /\
        utc self = (hz =? 0) /\
        format platform self "%P" = Ok (offset_text (hz * 60)))) /\
  (~ -24 < hz < 24 ->
   __init__ localize get_localzone timezone y m d h mi s us (ZoneHours hz)
   = Raise ValueError).
Proof.
  intros Hv. split.
  - intros Hz.
    assert (Ez : exists z, FixedOffset (hz * 60) = Ok z /\ tz_utcoffset z = hz * 60).
    { unfold FixedOffset. destruct (hz * 60 =? 0) eqn:E0.
      - exists UTC. split; [reflexivity|]. change (tz_utcoffset UTC) with 0. lia.
      - replace (Z.abs (hz * 60) >=? 1440) with false by lia.
        eexists. split; reflexivity. }
    destruct Ez as (z & Ez & Eoff). exists z.
    split; [exact Ez|]. split; [exact Eoff|].
    intros Hloc. eexists. split.
    { unfold __init__. cbn [_safe_create_datetime_zone]. rewrite Ez. cbn [rbind].
      unfold datetime_new. unfold valid_naive in Hv.
      cbn [PyDatetime.year PyDatetime.month PyDatetime.day PyDatetime.hour
           PyDatetime.minute PyDatetime.second PyDatetime.microsecond] in Hv.
      rewrite Hv. cbn [rbind]. rewrite Hloc. reflexivity. }
    split; [reflexivity|]. split; [reflexivity|].
    unfold utc, offset, offset_hours, get_offset. cbn [_datetime dt_tzinfo].
    rewrite Eoff. unfold SECONDS_PER_MINUTE, MINUTES_PER_HOUR.
    split; [lia|]. split.
    { replace (hz * 60 * 60) with (hz * (60 * 60)) by lia.
      apply Z.quot_mul. lia. }
    split.
    { destruct (hz =? 0) eqn:E; lia. }
    rewrite format_P, _strftime_P.
    + cbn [_datetime dt_tzinfo]. rewrite Eoff. reflexivity.
    + unfold valid_tzinfo. cbn [_datetime dt_tzinfo]. rewrite Eoff. lia.
  - intros Hz. unfold __init__. cbn [_safe_create_datetime_zone]. unfold FixedOffset.
    replace (hz * 60 =? 0) with false by lia.
    replace (Z.abs (hz * 60) >=? 1440) with true by lia.
    reflexivity.
Qed.

Lemma X25_witness :
  valid_naive (mknaive 2016 7 14 12 0 0 0) /\ -24 < -3 < 24 /\
  (forall n, Sample.fixed (mktzinfo "" (-180)) n = mktzinfo "" (-180)) /\
  exists z,
    _safe_create_datetime_zone UTC Sample.no_zone (ZoneHours (-3)) = Ok z /\
    tz_utcoffset z = -3 * 60 /\
    ((forall n, Sample.fixed z n = z) ->
     exists self,
       __init__ Sample.fixed UTC Sample.no_zone 2016 7 14 12 0 0 0 (ZoneHours (-3)) = Ok self /\
       fields (_datetime self) = mknaive 2016 7 14 12 0 0 0 /\
       _tz self = z /\
       offset self = -3 * 3600 /\
       offset_hours self = -3 /\
       utc self = (-3 =? 0) /\
       format Sample.echo self "%P" = Ok (offset_text (-3 * 60))).
Proof.
  assert (Hv : valid_naive (mknaive 2016 7 14 12 0 0 0)) by reflexivity.
  assert (Hz : -24 < -3 < 24) by (split; reflexivity).
  split; [exact Hv|]. split; [exact Hz|]. split; [intros n; reflexivity|].
  exact (proj1 (X25_integer_zone Sample.echo Sample.fixed UTC Sample.no_zone
                  2016 7 14 12 0 0 0 (-3) Hv) Hz).
Defined.

(** ** A Moment made from a timestamp *)

(** Property X26.  [create_from_timestamp(t, tz)], for an integer [t] whose
    UTC date is at least two days from both ends of the calendar, gives a
    Moment in the zone [tz] whose [timestamp] is [t], with no microseconds,
    and the same Moment whatever the clock reads.  For a [t] whose UTC date
    is outside the calendar it raises the exception of the platform. *)
Theorem X26_create_from_timestamp
    localize fromutc get_localzone timezone clock time_range_error t tz z :
  _safe_create_datetime_zone get_localzone timezone tz = Ok z ->
  valid_naive clock -> 3 <= toordinal clock <= _MAXORDINAL - 2 ->
  (forall z n, valid_tzinfo (fromutc z n)) ->
  let o := _ymd2ord 1970 1 1 + t / 86400 in
  (3 <= o <= _MAXORDINAL - 2 ->
   exists self,
     create_from_timestamp localize fromutc get_localzone timezone clock
       time_range_error t tz = Ok self /\
     timestamp self = t /\ microsecond self = 0 /\ _tz self = z /\
     forall clock', valid_naive clock' -> 3 <= toordinal clock' <= _MAXORDINAL - 2 ->
       create_from_timestamp localize fromutc get_localzone timezone clock'
         time_range_error t tz = Ok self) /\
  (~ 1 <= o <= _MAXORDINAL ->
   create_from_timestamp localize fromutc get_localzone timezone clock
     time_range_error t tz = Raise (time_range_error t)).
Proof.
  intros Ez Hv Ho Hz o.
  destruct (now_spec localize fromutc get_localzone timezone clock tz z Ez Hv Ho Hz)
    as (a & Ea & En & Hva & _).
  assert (Erun : forall c b,
            now localize fromutc get_localzone timezone c tz
            = Ok (mkPendulum z b) ->
            create_from_timestamp localize fromutc get_localzone timezone c
              time_range_error t tz
            = match fromtimestamp time_range_error t with
              | Ok utc =>
                  match astimezone fromutc utc z with
                  | Ok dt => Ok (mkPendulum z dt)
                  | Raise e => Raise e
                  | OutOfFuel => OutOfFuel
                  end
              | Raise e => Raise e
              | OutOfFuel => OutOfFuel
              end).
  { intros c b Ec. unfold create_from_timestamp, after. rewrite Ec. cbn [rbind].
    unfold set_timestamp, set_datetime. cbn [_tz].
    destruct (fromtimestamp time_range_error t) as [utc| |]; cbn [rbind]; try reflexivity.
    destruct (astimezone fromutc utc z); reflexivity. }
  split.
  - intros Hr.
    destruct (set_timestamp_ok fromutc time_range_error t
                (mkPendulum z (mkdatetime (fields a) (localize z (fields a)))) Hz Hr)
      as (self' & Es & Et & _ & Eus & Etz & _).
    exists self'.
    assert (Ec : create_from_timestamp localize fromutc get_localzone timezone clock
                   time_range_error t tz = Ok self').
    { unfold create_from_timestamp, after. rewrite En. cbn [rbind]. rewrite Es. reflexivity. }
    split; [exact Ec|]. split; [exact Et|]. split; [exact Eus|]. split; [exact Etz|].
    intros clock' Hv' Ho'.
    destruct (now_spec localize fromutc get_localzone timezone clock' tz z Ez Hv' Ho' Hz)
      as (a' & _ & En' & _).
    rewrite (Erun _ _ En'). rewrite <- (Erun _ _ En). exact Ec.
  - intros Hr. rewrite (Erun _ _ En). unfold fromtimestamp. fold o.
    replace ((1 <=? o) && (o <=? _MAXORDINAL)) with false by lia.
    reflexivity.
Qed.

Lemma X26_witness :
  let clock := mknaive 2026 11 4 23 30 15 123456 in
  let tz := ZoneInstance Sample.CET in
  let t := 1468490400 in
  _safe_create_datetime_zone UTC Sample.no_zone tz = Ok Sample.CET /\
  valid_naive clock /\ 3 <= toordinal clock <= _MAXORDINAL - 2 /\
  (forall z n, valid_tzinfo (Sample.paris_fromutc z n)) /\
  3 <= _ymd2ord 1970 1 1 + t / 86400 <= _MAXORDINAL - 2 /\
  create_from_timestamp Sample.fixed Sample.paris_fromutc UTC Sample.no_zone clock
    (fun _ => ValueError) t tz
  = Ok (Pendulum.mkPendulum Sample.CET
          (mkdatetime (mknaive 2016 7 14 12 0 0 0) Sample.CEST)) /\
  exists self,
    create_from_timestamp Sample.fixed Sample.paris_fromutc UTC Sample.no_zone clock
      (fun _ => ValueError) t tz = Ok self /\
    timestamp self = t /\ microsecond self = 0 /\ _tz self = Sample.CET /\
    forall clock', valid_naive clock' -> 3 <= toordinal clock' <= _MAXORDINAL - 2 ->
      create_from_timestamp Sample.fixed Sample.paris_fromutc UTC Sample.no_zone clock'
        (fun _ => ValueError) t tz = Ok self.
Proof.
  intros clock tz t.
  assert (Ez : _safe_create_datetime_zone UTC Sample.no_zone tz = Ok Sample.CET)
    by reflexivity.
  assert (Hv : valid_naive clock) by reflexivity.
  assert (Ho : 3 <= toordinal clock <= _MAXORDINAL - 2) by (split; discriminate).
  assert (Hz : forall z n, valid_tzinfo (Sample.paris_fromutc z n)).
  { intros z n. unfold Sample.paris_fromutc.
    destruct (naive_microseconds n <? _); unfold valid_tzinfo; cbn; lia. }
  assert (Hr : 3 <= _ymd2ord 1970 1 1 + t / 86400 <= _MAXORDINAL - 2)
    by (split; discriminate).
  split; [exact Ez|]. split; [exact Hv|]. split; [exact Ho|]. split; [exact Hz|].
  split; [exact Hr|]. split; [vm_compute; reflexivity|].
  exact (proj1 (X26_create_from_timestamp Sample.fixed Sample.paris_fromutc UTC
                  Sample.no_zone clock (fun _ => ValueError) t tz Sample.CET
                  Ez Hv Ho Hz) Hr).
Defined.
